(** * SCRI trial agent: a shallow embedding of the orchestration core

    The development follows the TypeScript sources of the agent
    ([TrialAgent] with its cache, tool executor and [chat] loop,
    [SCRIApiClient.toTrialSummary], [searchCTGov], [fetchCTGovStudy]).

    Modelling choices:
    - Strings are byte strings ([string]).  [toUpperCase] maps a-z to A-Z
      and [trim] removes ASCII white space; both act character by
      character, as the JS functions do on code points.
    - The JS [Map] used as trial cache is an association list in insertion
      order, since the partial-match scan of the cache depends on it.
    - A distance is a whole number of miles or [NaN]: [calculateDistance]
      ends in [Math.round].  The ZIP table, [parseFloat] and the haversine
      formula are parameters ([Geo]).
    - An [async] function that may reject is a state transformer returning
      [Ok] or [Throw]; [try]/[catch] is [tryCatch].
    - The remote services (model endpoint, SCRI API, ClinicalTrials.gov) are
      oracles that receive the number of calls already made to them and the
      request, so that quantifying over the oracles covers every sequence
      of remote behaviours.  Calls to the model endpoint and requests to
      the registry are logged in the state.
    - Logging ([this.log], [console]) has no effect on the results and is
      left out. *)

From Stdlib Require Import String Ascii DecimalString List Sorted Arith Bool Lia.
From Stdlib Require Import Permutation.
From Equations Require Import Equations.
Import ListNotations.
Local Open Scope string_scope.
Local Open Scope list_scope.

Set Implicit Arguments.

(* ===================================================================== *)
(** * JavaScript strings                                                  *)
(* ===================================================================== *)

Module JsString.

(** [c.toUpperCase()] on one ASCII character: a-z go to A-Z. *)
Definition upper_ascii (c : ascii) : ascii :=
  let n := nat_of_ascii c in
  if ((97 <=? n) && (n <=? 122))%nat then ascii_of_nat (n - 32) else c.

(** [s.toUpperCase()], character by character. *)
Fixpoint toUpperCase (s : string) : string :=
  match s with
  | EmptyString => EmptyString
  | String c s' => String (upper_ascii c) (toUpperCase s')
  end.

(** [s.startsWith(p)]. *)
Fixpoint startsWith (s p : string) {struct p} : bool :=
  match p, s with
  | EmptyString, _ => true
  | String _ _, EmptyString => false
  | String a p', String b s' => Ascii.eqb a b && startsWith s' p'
  end.

(** [s.includes(sub)]: [sub] occurs at some position of [s]. *)
Fixpoint includes (s sub : string) : bool :=
  startsWith s sub ||
  match s with
  | EmptyString => false
  | String _ s' => includes s' sub
  end.

(** White space removed by [trim] (the ASCII part of it). *)
Definition is_space (c : ascii) : bool :=
  let n := nat_of_ascii c in
  ((n =? 32) || ((9 <=? n) && (n <=? 13)))%nat.

Fixpoint trimStart (s : string) : string :=
  match s with
  | EmptyString => EmptyString
  | String c s' => if is_space c then trimStart s' else s
  end.

Fixpoint trimEnd (s : string) : string :=
  match s with
  | EmptyString => EmptyString
  | String c s' =>
      let r := trimEnd s' in
      if is_space c && (r =? "") then "" else String c r
  end.

(** [s.trim()]. *)
Definition trim (s : string) : string := trimEnd (trimStart s).

(** Truthiness of a string: the empty string is falsy. *)
Definition truthy (s : string) : bool := negb (s =? "").

(** [a || b] on strings. *)
Definition or_else (a b : string) : string := if truthy a then a else b.

(** [xs.join(sep)]. *)
Definition join (sep : string) (xs : list string) : string :=
  String.concat sep xs.

End JsString.
Import JsString.

(* ===================================================================== *)
(** * The JS [Map] with string keys                                       *)
(* ===================================================================== *)

(** A [Map] iterates in insertion order, and [set] on a key already present
    keeps the key's position and replaces its value. *)
Module JsMap.
Section Ops.
Variable V : Type.

Definition t := list (string * V).

Definition empty : t := [].

Fixpoint get (k : string) (m : t) : option V :=
  match m with
  | [] => None
  | (k', v) :: m' => if k' =? k then Some v else get k m'
  end.

Fixpoint set (k : string) (v : V) (m : t) : t :=
  match m with
  | [] => [(k, v)]
  | (k', v') :: m' =>
      if k' =? k then (k', v) :: m' else (k', v') :: set k v m'
  end.

Definition size (m : t) : nat := length m.

Definition keys (m : t) : list string := map fst m.
End Ops.
Arguments empty {V}.
End JsMap.

(* ===================================================================== *)
(** * Data model ([types/index.ts])                                       *)
(* ===================================================================== *)

(** A JS number holding a distance: [calculateDistance] ends in
    [Math.round], so a distance is a whole number of miles, or [NaN]. *)
Inductive Num : Type :=
| NaN : Num
| Miles (n : nat) : Num.

(** [SCRISite | SCRIOffice], with the fields the agent reads. *)
Record SCRILocation : Type := mkLocation {
  siteName1 : string;
  displayName : string;
  phoneNumber1 : string;
  city : string;
  state : string;
  latitude : string;
  longitude : string;
}.

Record SCRITrial : Type := mkTrial {
  studyId : string;
  studyName : string;
  protocolTitle : string;
  nct : string;
  siteList : list SCRILocation;
  officeList : list SCRILocation;
  programTypeNames : list string;
  phaseNames : list string;
}.

Record SCRISearchData : Type := mkSearchData {
  totalItemCount : nat;
  searchResultsData : list SCRITrial;
}.

Record SCRIFilterItem : Type := mkFilterItem {
  filterItemText : string;
  isEnabled : bool;
  sortOrder : nat;
}.

Record LocationSummary : Type := mkLocationSummary {
  ls_name : string;
  ls_city : string;
  ls_state : string;
  ls_phone : option string;
  ls_distance : option Num;
}.

Record TrialSummary : Type := mkTrialSummary {
  ts_id : string;
  ts_name : string;
  ts_title : string;
  ts_nctId : string;
  ts_phases : list string;
  ts_cancerTypes : list string;
  locationCount : nat;
  closestLocation : option LocationSummary;
  allLocations : list LocationSummary;
  scriUrl : string;
  ctGovUrl : string;
}.

(** The slim search result.  Its [distance] is only ever assigned a number
    that passed [d < minDist], hence never [NaN]. *)
Record TrialSearchResult : Type := mkSearchResult {
  sr_id : string;
  sr_name : string;
  sr_nctId : string;
  sr_phases : list string;
  closestCity : option string;
  closestState : option string;
  distance : option nat;
  sr_scriUrl : string;
}.

(** The fields of the profile that the agent reads. *)
Record PatientProfile : Type := mkProfile {
  pp_cancerType : option string;
  pp_zipCode : option string;
  pp_age : option nat;
  pp_stage : option string;
  pp_travelRadius : option nat;
  pp_previousTreatments : option (list string);
}.

(** A cache entry: the record and the postal code of the search. *)
Record CacheEntry : Type := mkEntry {
  trial : SCRITrial;
  userZipCode : option string;
}.

Definition TrialCache := JsMap.t CacheEntry.

(* ===================================================================== *)
(** * The trial cache ([TrialAgent.cacheTrials], [getCachedTrial])        *)
(* ===================================================================== *)

(** One round of the [for (const trial of trials)] loop of [cacheTrials]. *)
Definition cacheTrial (userZip : option string) (c : TrialCache) (t : SCRITrial)
  : TrialCache :=
  let c1 := JsMap.set (studyId t) (mkEntry t userZip) c in
  if truthy (studyName t)
  then JsMap.set (toUpperCase (studyName t)) (mkEntry t userZip) c1
  else c1.

Definition cacheTrials (trials : list SCRITrial) (userZip : option string)
  (c : TrialCache) : TrialCache :=
  fold_left (cacheTrial userZip) trials c.

(** The test of the partial-match loop of [getCachedTrial]. *)
Definition partial_match (q key : string) : bool :=
  includes key (toUpperCase q) || includes (toUpperCase q) key.

Definition getCachedTrial (q : string) (c : TrialCache) : option CacheEntry :=
  match JsMap.get q c with
  | Some e => Some e
  | None =>
      match JsMap.get (toUpperCase q) c with
      | Some e => Some e
      | None =>
          match find (fun kv => partial_match q (fst kv)) c with
          | Some kv => Some (snd kv)
          | None => None
          end
      end
  end.

(* ===================================================================== *)
(** * [Array.prototype.sort]                                              *)
(* ===================================================================== *)

(** The sort of ECMAScript is stable, and with a consistent comparator its
    result is the one stable sorted arrangement; insertion from the right
    computes it.  The comparator returns the sign of the JS comparator
    ([NaN] counts as [0], hence [Eq]). *)
Module JsArray.
Section Sort.
Variable A : Type.
Variable cmp : A -> A -> comparison.

Fixpoint insert (x : A) (l : list A) : list A :=
  match l with
  | [] => [x]
  | y :: l' =>
      match cmp x y with
      | Gt => y :: insert x l'
      | _ => x :: l
      end
  end.

Definition sort (l : list A) : list A := fold_right insert [] l.
End Sort.

(** [xs.slice(0, n)]. *)
Definition slice0 {A} (n : nat) (l : list A) : list A := firstn n l.
End JsArray.

(* ===================================================================== *)
(** * Geo resolver ([services/geo.ts])                                    *)
(* ===================================================================== *)

(** The ZIP table, [parseFloat] on coordinates and the haversine formula are
    floating-point collaborators: they are taken as given.  [parseFloat]
    returns [None] for [NaN]. *)
Record Geo : Type := mkGeo {
  coord : Type;
  ZIP_COORDINATES : string -> option (coord * coord);
  parseFloat : string -> option coord;
  calculateDistance : coord -> coord -> coord -> coord -> Num;
}.

Definition getZipCoordinates (g : Geo) (zipCode : string)
  : option (coord g * coord g) :=
  let normalized := substring 0 5 (trim zipCode) in
  ZIP_COORDINATES g normalized.

(** [zipCode ? getZipCoordinates(zipCode) : null]. *)
Definition userCoordsOf (g : Geo) (zipCode : option string)
  : option (coord g * coord g) :=
  match zipCode with
  | Some z => if truthy z then getZipCoordinates g z else None
  | None => None
  end.

(** [t.officeList.length > 0 ? t.officeList : t.siteList]. *)
Definition locationsOf (t : SCRITrial) : list SCRILocation :=
  match officeList t with
  | [] => siteList t
  | _ :: _ => officeList t
  end.

(** Both coordinates of a location parsed, when present and numeric. *)
Definition parsedCoords (g : Geo) (loc : SCRILocation)
  : option (coord g * coord g) :=
  if truthy (latitude loc) && truthy (longitude loc) then
    match parseFloat g (latitude loc), parseFloat g (longitude loc) with
    | Some la, Some lo => Some (la, lo)
    | _, _ => None
    end
  else None.

(* ===================================================================== *)
(** * Result projector ([SCRIApiClient.toTrialSummary])                   *)
(* ===================================================================== *)

Definition withDistance (g : Geo) (userCoords : option (coord g * coord g))
  (loc : SCRILocation) : LocationSummary :=
  let d :=
    match userCoords with
    | Some (ulat, ulon) =>
        match parsedCoords g loc with
        | Some (la, lo) => Some (calculateDistance g ulat ulon la lo)
        | None => None
        end
    | None => None
    end in
  {| ls_name := or_else (displayName loc) (siteName1 loc);
     ls_city := trim (or_else (city loc) "");
     ls_state := state loc;
     ls_phone := if truthy (phoneNumber1 loc) then Some (phoneNumber1 loc) else None;
     ls_distance := d |}.

(** [l.distance || Infinity]: [0], [NaN] and [undefined] are falsy;
    [None] stands for [Infinity]. *)
Definition orInfinity (d : option Num) : option nat :=
  match d with
  | Some (Miles (S n)) => Some (S n)
  | _ => None
  end.

(** Sign of [(a.distance || Infinity) - (b.distance || Infinity)];
    [Infinity - Infinity] is [NaN], which the sort reads as [0]. *)
Definition cmpInfinity (a b : LocationSummary) : comparison :=
  match orInfinity (ls_distance a), orInfinity (ls_distance b) with
  | Some x, Some y => Nat.compare x y
  | Some _, None => Lt
  | None, Some _ => Gt
  | None, None => Eq
  end.

Definition hasDistance (l : LocationSummary) : bool :=
  match ls_distance l with Some _ => true | None => false end.

Definition toTrialSummary (g : Geo) (t : SCRITrial) (userZipCode : option string)
  : TrialSummary :=
  let locations := locationsOf t in
  let userCoords := userCoordsOf g userZipCode in
  let locationsWithDistance := map (withDistance g userCoords) locations in
  let sortedLocations :=
    JsArray.sort cmpInfinity (filter hasDistance locationsWithDistance) in
  let closest :=
    match sortedLocations with
    | l :: _ => Some l
    | [] => hd_error locationsWithDistance
    end in
  {| ts_id := studyId t;
     ts_name := studyName t;
     ts_title := protocolTitle t;
     ts_nctId := nct t;
     ts_phases := phaseNames t;
     ts_cancerTypes := programTypeNames t;
     locationCount := length locations;
     closestLocation := closest;
     allLocations :=
       match sortedLocations with
       | _ :: _ => sortedLocations
       | [] => locationsWithDistance
       end;
     scriUrl := "https://trials.scri.com/trial/" ++ studyId t;
     ctGovUrl := if truthy (nct t)
                 then "https://clinicaltrials.gov/study/" ++ nct t
                 else "" |}.

(* ===================================================================== *)
(** * The slim projection of [search_trials]                              *)
(* ===================================================================== *)

(** State of the closest-site scan: [minDist] ([None] is [Infinity]) and
    the three variables it assigns. *)
Record Closest : Type := mkClosest {
  minDist : option nat;
  c_city : option string;
  c_state : option string;
  c_distance : option nat;
}.

(** [d < minDist]: false on [NaN]. *)
Definition ltMinDist (d : Num) (m : option nat) : bool :=
  match d, m with
  | NaN, _ => false
  | Miles _, None => true
  | Miles n, Some k => (n <? k)%nat
  end.

Definition scanLocation (g : Geo) (u : coord g * coord g) (acc : Closest)
  (loc : SCRILocation) : Closest :=
  match parsedCoords g loc with
  | Some (la, lo) =>
      let d := calculateDistance g (fst u) (snd u) la lo in
      if ltMinDist d (minDist acc) then
        match d with
        | Miles n =>
            {| minDist := Some n;
               c_city := Some (trim (or_else (city loc) ""));
               c_state := Some (state loc);
               c_distance := Some n |}
        | NaN => acc
        end
      else acc
  | None => acc
  end.

Definition slimResult (g : Geo) (userCoords : option (coord g * coord g))
  (t : SCRITrial) : TrialSearchResult :=
  let locations := locationsOf t in
  let start := mkClosest None None None None in
  let found :=
    match userCoords, locations with
    | Some u, _ :: _ => fold_left (scanLocation g u) locations start
    | _, first :: _ =>
        mkClosest None (Some (trim (or_else (city first) "")))
                  (Some (state first)) None
    | _, [] => start
    end in
  {| sr_id := studyId t;
     sr_name := studyName t;
     sr_nctId := nct t;
     sr_phases := phaseNames t;
     closestCity := c_city found;
     closestState := c_state found;
     distance := c_distance found;
     sr_scriUrl := "https://trials.scri.com/trial/" ++ studyId t |}.

(** [t.distance || 999]. *)
Definition or999 (d : option nat) : nat :=
  match d with
  | Some (S n) => S n
  | _ => 999
  end.

(** Sign of [(a.distance || 999) - (b.distance || 999)]. *)
Definition cmp999 (a b : TrialSearchResult) : comparison :=
  Nat.compare (or999 (distance a)) (or999 (distance b)).

Definition distanceDefined (r : TrialSearchResult) : bool :=
  match distance r with Some _ => true | None => false end.

(** The [// Sort by distance if available, take top 20] block. *)
Definition sortedResults (zipCode : option string)
  (slimResults : list TrialSearchResult) : list TrialSearchResult :=
  match zipCode with
  | Some z =>
      if truthy z then
        let sorted :=
          JsArray.slice0 20
            (JsArray.sort cmp999 (filter distanceDefined slimResults)) in
        if (length sorted <? 20)%nat then
          let remaining :=
            JsArray.slice0 (20 - length sorted)
              (filter (fun r => negb (distanceDefined r)) slimResults) in
          sorted ++ remaining
        else sorted
      else JsArray.slice0 20 slimResults
  | None => JsArray.slice0 20 slimResults
  end.

(* ===================================================================== *)
(** * Effects: state and exceptions                                       *)
(* ===================================================================== *)

(** Outcome of a call that may throw; the payload of [Throw] is the
    rendering [String(error)] of the thrown value. *)
Inductive Result (A : Type) : Type :=
| Ok (a : A)
| Throw (e : string).
Arguments Ok {A} a.
Arguments Throw {A} e.

Module Eff.
Definition M (S A : Type) : Type := S -> Result A * S.

Definition ret {S A} (a : A) : M S A := fun s => (Ok a, s).

Definition throw {S A} (e : string) : M S A := fun s => (Throw e, s).

Definition bind {S A B} (m : M S A) (k : A -> M S B) : M S B :=
  fun s =>
    match m s with
    | (Ok a, s') => k a s'
    | (Throw e, s') => (Throw e, s')
    end.

(** [try { m } catch (error) { h(error) }]; effects of [m] before the
    throw stay. *)
Definition tryCatch {S A} (m : M S A) (h : string -> M S A) : M S A :=
  fun s =>
    match m s with
    | (Ok a, s') => (Ok a, s')
    | (Throw e, s') => h e s'
    end.

Definition gets {S A} (f : S -> A) : M S A := fun s => (Ok (f s), s).

Definition modify {S} (f : S -> S) : M S unit := fun s => (Ok tt, f s).

Definition lift {S A} (r : Result A) : M S A := fun s => (r, s).
End Eff.
Import Eff.

Notation "x <- c1 ;; c2" := (bind c1 (fun x => c2))
  (at level 61, c1 at next level, right associativity).
Notation "c1 ;;; c2" := (bind c1 (fun _ => c2))
  (at level 61, right associativity).

(** [String(x)] / template interpolation of a possibly undefined string. *)
Definition js_String (o : option string) : string :=
  match o with
  | Some s => s
  | None => "undefined"
  end.

(** Template interpolation of a whole number. *)
Definition string_of_nat (n : nat) : string :=
  DecimalString.NilZero.string_of_uint (Nat.to_uint n).

(* ===================================================================== *)
(** * ClinicalTrials.gov client ([services/clinicaltrials-gov.ts])        *)
(* ===================================================================== *)

Module CTGov.

(** ** The JSON of the registry, every field optional *)

Record Intervention : Type := mkIntervention {
  iv_type : option string;
  iv_name : option string;
  iv_description : option string;
}.

Record Outcome : Type := mkOutcome {
  measure : option string;
  oc_description : option string;
  timeFrame : option string;
}.

Record Contact : Type := mkContact {
  ct_name : option string;
  ct_phone : option string;
  ct_email : option string;
}.

Record RawLocation : Type := mkRawLocation {
  rl_facility : option string;
  rl_city : option string;
  rl_state : option string;
  rl_country : option string;
}.

Record IdentificationModule : Type := mkIdentification {
  im_nctId : option string;
  im_briefTitle : option string;
  im_officialTitle : option string;
}.

Record DescriptionModule : Type := mkDescription {
  dm_briefSummary : option string;
  dm_detailedDescription : option string;
}.

Record EligibilityModule : Type := mkEligibilityModule {
  em_eligibilityCriteria : option string;
  em_minimumAge : option string;
  em_maximumAge : option string;
  em_sex : option string;
  em_healthyVolunteers : option string;
}.

Record DesignModule : Type := mkDesign {
  dg_phases : option (list string);
  dg_studyType : option string;
}.

Record ProtocolSection : Type := mkProtocol {
  identificationModule : option IdentificationModule;
  descriptionModule : option DescriptionModule;
  eligibilityModule : option EligibilityModule;
  designModule : option DesignModule;
  statusModule_overallStatus : option string;
  conditionsModule_conditions : option (list string);
  armsInterventionsModule_interventions : option (list Intervention);
  outcomesModule_primaryOutcomes : option (list Outcome);
  contactsLocationsModule_centralContacts : option (list Contact);
  contactsLocationsModule_locations : option (list RawLocation);
}.

(** The body of a response, as [response.json()] delivers it: the
    single-study endpoint fills [protocolSection], the search endpoint
    [studies]. *)
Record Json : Type := mkJson {
  protocolSection : option ProtocolSection;
  studies : option (list (option ProtocolSection));
}.

(** ** Requests and responses *)

Record SearchParams : Type := mkParams {
  query_cond : string;
  filter_overallStatus : string;
  pageSize : nat;
  sort : string;
  filter_geo : option (string * nat);
}.

Inductive HttpRequest : Type :=
| GetStudy (cleanNctId : string)
| GetStudies (params : SearchParams).

Record HttpResponse : Type := mkResponse {
  status : nat;
  json : Result Json;
}.

(** [response.ok]: the status is in the range 200-299. *)
Definition ok (r : HttpResponse) : bool :=
  ((200 <=? status r) && (status r <=? 299))%nat.

Inductive FetchOutcome : Type :=
| FetchThrows (e : string)
| FetchReturns (r : HttpResponse).

(** ** The interfaces [CTGovStudy] and [CTGovSearchResult] *)

Record Eligibility : Type := mkEligibility {
  minimumAge : option string;
  maximumAge : option string;
  sex : option string;
  healthyVolunteers : option string;
  criteria : option string;
}.

Record CTGovStudy : Type := mkStudy {
  nctId : string;
  briefTitle : string;
  officialTitle : option string;
  briefSummary : option string;
  detailedDescription : option string;
  eligibilityCriteria : option string;
  eligibility : Eligibility;
  phase : option string;
  studyType : option string;
  conditions : option (list string);
  interventions : option (list Intervention);
  primaryOutcomes : option (list Outcome);
  contacts : option (list Contact);
}.

Record SearchLocation : Type := mkSearchLocation {
  facility : string;
  sl_city : string;
  sl_state : string;
  country : string;
}.

Record CTGovSearchResult : Type := mkSearchHit {
  sh_nctId : string;
  sh_briefTitle : string;
  sh_phase : option string;
  sh_status : string;
  sh_conditions : list string;
  sh_interventions : list (option string);
  sh_locations : list SearchLocation;
}.

End CTGov.

(** [o?.f] followed by [|| d] on an optional module and an optional
    string field. *)
Definition field {R} (m : option R) (f : R -> option string) : option string :=
  match m with
  | Some r => f r
  | None => None
  end.

Definition orString (o : option string) (d : string) : string :=
  match o with
  | Some s => or_else s d
  | None => d
  end.

Definition orNil {A} (o : option (list A)) : list A :=
  match o with
  | Some l => l
  | None => []
  end.

(* ===================================================================== *)
(** * The model endpoint (OpenAI Responses API)                           *)
(* ===================================================================== *)

Record FunctionCall : Type := mkCall {
  call_id : string;
  name : string;
  arguments : string;
}.

Inductive ContentPart : Type :=
| output_text (text : string)
| refusal (text : string).

Inductive OutputItem : Type :=
| function_call (c : FunctionCall)
| message (content : option (list ContentPart))
| reasoning_item.

Inductive ResponseStatus : Type :=
| completed | failed | in_progress | cancelled | queued | incomplete.

Record Response : Type := mkModelResponse {
  response_id : string;
  response_status : ResponseStatus;
  output : option (list OutputItem);
}.

(** Arguments of a tool call after [JSON.parse]. *)
Record ToolArgs : Type := mkArgs {
  a_cancerType : option string;
  a_zipCode : option string;
  a_studyId : option string;
  a_nctId : option string;
  a_condition : option string;
  a_location : option string;
  a_distance : option nat;
}.

(** What [executeTool] returns, one constructor per object shape. *)
Inductive ToolResult : Type :=
| SearchTrialsResult (cancerType : option string) (zipCodeShown : string)
    (totalFound showing : nat)
    (msg : string) (trials : list TrialSearchResult)
| StudyDetails (source : string) (summary : TrialSummary)
| StudyNotFound (error : string)
| ErrorPayload (error : string)
| EligibilityResult (nctId : option string) (title : option string)
    (eligibility : string)
| TreatmentResult (nctId : option string) (title : option string)
    (treatmentInfo : string)
| CancerTypes (types : list string)
| SearchAllResult (condition location : option string) (radius totalFound : nat)
    (trials : list CTGov.CTGovSearchResult).

(** One [function_call_output] item. *)
Record FunctionCallOutput : Type := mkOutput {
  out_call_id : string;
  out_output : ToolResult;
}.

Inductive ResponseInput : Type :=
| InputText (userMessage : string)
| InputUserTurn (userMessage : string)
| InputToolResults (toolResults : list FunctionCallOutput).

(** The parameters of [responses.create] that vary ([model], [tools] and
    [reasoning] are constants). *)
Record CreateParams : Type := mkCreate {
  instructions : string;
  input : ResponseInput;
  previous_response_id : option string;
}.

(* ===================================================================== *)
(** * The environment of an agent                                         *)
(* ===================================================================== *)

(** Every remote service answers as a function of the number of calls made
    to it so far and of the request.  [JSON_parse] returns [None] for the
    JSON value [null]. *)
Record Env : Type := mkEnv {
  geo : Geo;
  responses_create : nat -> CreateParams -> Result Response;
  scri_searchTrials : nat -> string -> nat -> Result SCRISearchData;
  scri_getTrialDetails : nat -> string -> Result SCRITrial;
  scri_getFilters : nat -> Result (list SCRIFilterItem);
  fetch : nat -> CTGov.HttpRequest -> CTGov.FetchOutcome;
  JSON_parse : string -> Result (option ToolArgs);
  basePrompt : string;
  formatEligibilityForDisplay : CTGov.CTGovStudy -> string;
  formatTreatmentInfo : CTGov.CTGovStudy -> string;
}.

(** The mutable world a tool touches: the cache of the agent and the
    requests sent so far to the two data sources. *)
Record ToolState : Type := mkToolState {
  trialCache : TrialCache;
  scriCalls : nat;
  httpLog : list CTGov.HttpRequest;
}.

(** The agent with the log of its calls to the model endpoint. *)
Record Agent : Type := mkAgent {
  patientProfile : option PatientProfile;
  previousResponseId : option string;
  tools : ToolState;
  modelLog : list (CreateParams * Result Response);
}.

(* ===================================================================== *)
(** * Calls to the data sources                                           *)
(* ===================================================================== *)

(** [fetch(url, ...)] against the registry: the request is logged, the
    oracle answers. *)
Definition http_fetch (env : Env) (req : CTGov.HttpRequest)
  : M ToolState CTGov.HttpResponse :=
  fun st =>
    let st' := mkToolState (trialCache st) (scriCalls st) (httpLog st ++ [req]) in
    match fetch env (length (httpLog st)) req with
    | CTGov.FetchThrows e => (Throw e, st')
    | CTGov.FetchReturns r => (Ok r, st')
    end.

(** [SCRIApiClient.get]: throws on a transport error, a status that is not
    ok, or [success: false]; otherwise returns [json.data]. *)
Definition scri_call {A} (oracle : nat -> Result A) : M ToolState A :=
  fun st =>
    (oracle (scriCalls st),
     mkToolState (trialCache st) (S (scriCalls st)) (httpLog st)).

Definition searchTrials (env : Env) (cancerType : string) (page : nat)
  : M ToolState SCRISearchData :=
  scri_call (fun n => scri_searchTrials env n cancerType page).

Definition getTrialDetails (env : Env) (sid : string) : M ToolState SCRITrial :=
  scri_call (fun n => scri_getTrialDetails env n sid).

Definition getFilters (env : Env) : M ToolState (list SCRIFilterItem) :=
  scri_call (scri_getFilters env).

(** [filters.filter(f => f.isEnabled).sort((a, b) => a.sortOrder -
    b.sortOrder).map(f => f.filterItemText)]. *)
Definition getCancerTypeList (env : Env) : M ToolState (list string) :=
  filters <- getFilters env ;;
  ret (map filterItemText
         (JsArray.sort (fun a b => Nat.compare (sortOrder a) (sortOrder b))
            (filter isEnabled filters))).

(* ===================================================================== *)
(** * [fetchCTGovStudy] and [searchCTGov]                                 *)
(* ===================================================================== *)

(** The object literal built from [data.protocolSection]. *)
Definition studyOfProtocol (study : CTGov.ProtocolSection) (cleanNctId : string)
  : CTGov.CTGovStudy :=
  let identification := CTGov.identificationModule study in
  let description := CTGov.descriptionModule study in
  let eligibility := CTGov.eligibilityModule study in
  let design := CTGov.designModule study in
  {| CTGov.nctId := orString (field identification CTGov.im_nctId) cleanNctId;
     CTGov.briefTitle := orString (field identification CTGov.im_briefTitle) "";
     CTGov.officialTitle := field identification CTGov.im_officialTitle;
     CTGov.briefSummary := field description CTGov.dm_briefSummary;
     CTGov.detailedDescription := field description CTGov.dm_detailedDescription;
     CTGov.eligibilityCriteria := field eligibility CTGov.em_eligibilityCriteria;
     CTGov.eligibility :=
       {| CTGov.minimumAge := field eligibility CTGov.em_minimumAge;
          CTGov.maximumAge := field eligibility CTGov.em_maximumAge;
          CTGov.sex := field eligibility CTGov.em_sex;
          CTGov.healthyVolunteers := field eligibility CTGov.em_healthyVolunteers;
          CTGov.criteria := field eligibility CTGov.em_eligibilityCriteria |};
     CTGov.phase :=
       match design with
       | Some d => option_map (join ", ") (CTGov.dg_phases d)
       | None => None
       end;
     CTGov.studyType := field design CTGov.dg_studyType;
     CTGov.conditions := CTGov.conditionsModule_conditions study;
     CTGov.interventions := CTGov.armsInterventionsModule_interventions study;
     CTGov.primaryOutcomes := CTGov.outcomesModule_primaryOutcomes study;
     CTGov.contacts := CTGov.contactsLocationsModule_centralContacts study |}.

(** [nctId.toUpperCase()] on an argument that may be [undefined]. *)
Definition requireString {S} (o : option string) : M S string :=
  match o with
  | Some s => ret s
  | None => throw "TypeError: Cannot read properties of undefined"
  end.

Definition fetchCTGovStudy (env : Env) (nctId : option string)
  : M ToolState (option CTGov.CTGovStudy) :=
  tryCatch
    (raw <- requireString nctId ;;
     let cleanNctId := trim (toUpperCase raw) in
     if negb (startsWith cleanNctId "NCT") then ret None
     else
       response <- http_fetch env (CTGov.GetStudy cleanNctId) ;;
       if negb (CTGov.ok response) then ret None
       else
         data <- lift (CTGov.json response) ;;
         match CTGov.protocolSection data with
         | None => ret None
         | Some study => ret (Some (studyOfProtocol study cleanNctId))
         end)
    (fun _ => ret None).

(** The object built for one element of [data.studies]. *)
Definition searchHit (study : option CTGov.ProtocolSection)
  : CTGov.CTGovSearchResult :=
  let identification :=
    match study with Some p => CTGov.identificationModule p | None => None end in
  let design :=
    match study with Some p => CTGov.designModule p | None => None end in
  {| CTGov.sh_nctId := orString (field identification CTGov.im_nctId) "";
     CTGov.sh_briefTitle := orString (field identification CTGov.im_briefTitle) "";
     CTGov.sh_phase :=
       match design with
       | Some d => option_map (join ", ") (CTGov.dg_phases d)
       | None => None
       end;
     CTGov.sh_status :=
       orString (match study with
                 | Some p => CTGov.statusModule_overallStatus p
                 | None => None
                 end) "Unknown";
     CTGov.sh_conditions :=
       orNil (match study with
              | Some p => CTGov.conditionsModule_conditions p
              | None => None
              end);
     CTGov.sh_interventions :=
       map CTGov.iv_name
         (orNil (match study with
                 | Some p => CTGov.armsInterventionsModule_interventions p
                 | None => None
                 end));
     CTGov.sh_locations :=
       map (fun loc =>
              {| CTGov.facility := orString (CTGov.rl_facility loc) "";
                 CTGov.sl_city := orString (CTGov.rl_city loc) "";
                 CTGov.sl_state := orString (CTGov.rl_state loc) "";
                 CTGov.country := orString (CTGov.rl_country loc) "" |})
         (JsArray.slice0 3
            (orNil (match study with
                    | Some p => CTGov.contactsLocationsModule_locations p
                    | None => None
                    end))) |}.

(** [location?.trim()]. *)
Definition trimmedLocationOf (location : option string) : option string :=
  option_map trim location.

(** Truthiness of [trimmedLocation]. *)
Definition hasGeo (location : option string) : bool :=
  match trimmedLocationOf location with
  | Some l => truthy l
  | None => false
  end.

(** The query parameters of one search request. *)
Definition searchParams (condition : string) (location : option string)
  (radius maxResults : nat) : CTGov.SearchParams :=
  {| CTGov.query_cond := condition;
     CTGov.filter_overallStatus := "RECRUITING";
     CTGov.pageSize := Nat.min maxResults 20;
     CTGov.sort := "LastUpdatePostDate:desc";
     CTGov.filter_geo :=
       match trimmedLocationOf location with
       | Some l => if truthy l then Some (l, radius) else None
       | None => None
       end |}.

(** [searchCTGov] calls itself once more, without location, when the
    registry answers 400 to a request that carried a location. *)
Equations? searchCTGov (env : Env) (condition : string) (location : option string)
  (radius maxResults : nat) (st : ToolState)
  : Result (list CTGov.CTGovSearchResult) * ToolState
  by wf (if hasGeo location then 1 else 0) lt :=
searchCTGov env condition location radius maxResults st :=
  tryCatch
    (response <- http_fetch env
                   (CTGov.GetStudies
                      (searchParams condition location radius maxResults)) ;;
     if negb (CTGov.ok response) then
       match bool_dec ((CTGov.status response =? 400)%nat && hasGeo location) true with
       | left retry =>
           fun st' => searchCTGov env condition None radius maxResults st'
       | right _ => ret []
       end
     else
       data <- lift (CTGov.json response) ;;
       ret (map searchHit (orNil (CTGov.studies data))))
    (fun _ => ret []) st.
Proof.
  apply andb_prop in retry. destruct retry as [_ Hgeo].
  rewrite Hgeo. simpl. lia.
Qed.

(* ===================================================================== *)
(** * Tool executor ([TrialAgent.executeTool])                            *)
(* ===================================================================== *)

Definition nl : string := String (ascii_of_nat 10) "".

Definition dquote : string := String (ascii_of_nat 34) "".

(** [args.f]: reading a property of [null] throws. *)
Definition arg {S A} (args : option ToolArgs) (f : ToolArgs -> option A)
  : M S (option A) :=
  match args with
  | Some a => ret (f a)
  | None => throw "TypeError: Cannot read properties of null"
  end.

Definition isTruthyZip (zipCode : option string) : bool :=
  match zipCode with
  | Some z => truthy z
  | None => false
  end.

Definition searchMessage (total : nat) (cancerType : option string)
  (zipCode : option string) (showing : nat) : string :=
  if isTruthyZip zipCode then
    "Found " ++ string_of_nat total ++ " " ++ js_String cancerType
      ++ " trials. Showing top " ++ string_of_nat showing
      ++ " sorted by distance. Use get_study_details to dig deeper."
  else
    "Found " ++ string_of_nat total ++ " " ++ js_String cancerType
      ++ " trials. Showing " ++ string_of_nat showing
      ++ ". Provide ZIP to sort by distance. Use get_study_details to dig deeper.".

Definition setCache (f : TrialCache -> TrialCache) : M ToolState unit :=
  modify (fun st => mkToolState (f (trialCache st)) (scriCalls st) (httpLog st)).

Definition search_trials (env : Env) (args : option ToolArgs)
  : M ToolState ToolResult :=
  cancerType <- arg args a_cancerType ;;
  zipCode <- arg args a_zipCode ;;
  searchData <- searchTrials env (js_String cancerType) 1 ;;
  setCache (cacheTrials (searchResultsData searchData) zipCode) ;;;
  let userCoords := userCoordsOf (geo env) zipCode in
  let slimResults :=
    map (slimResult (geo env) userCoords) (searchResultsData searchData) in
  let sorted := sortedResults zipCode slimResults in
  ret (SearchTrialsResult cancerType
         (if isTruthyZip zipCode then js_String zipCode else "not provided")
         (totalItemCount searchData) (length sorted)
         (searchMessage (totalItemCount searchData) cancerType zipCode
            (length sorted))
         sorted).

Definition get_study_details (env : Env) (args : option ToolArgs)
  : M ToolState ToolResult :=
  studyIdArg <- arg args a_studyId ;;
  sid <- requireString studyIdArg ;;
  cache <- gets trialCache ;;
  match getCachedTrial sid cache with
  | Some cached =>
      ret (StudyDetails "cache"
             (toTrialSummary (geo env) (trial cached) (userZipCode cached)))
  | None =>
      tryCatch
        (t <- getTrialDetails env sid ;;
         ret (StudyDetails "api" (toTrialSummary (geo env) t None)))
        (fun _ =>
           ret (StudyNotFound
                  ("Could not find trial with ID " ++ dquote ++ sid ++ dquote
                   ++ ". Make sure to use the study ID from search results.")))
  end.

(** [title] reads [study.protocolSection?.identificationModule?.briefTitle]
    on the flattened study, which has no [protocolSection]: it is always
    [undefined]. *)
Definition get_trial_eligibility (env : Env) (args : option ToolArgs)
  : M ToolState ToolResult :=
  nctIdArg <- arg args a_nctId ;;
  study <- fetchCTGovStudy env nctIdArg ;;
  match study with
  | None =>
      ret (ErrorPayload ("Could not fetch study " ++ js_String nctIdArg
                         ++ " from ClinicalTrials.gov"))
  | Some s =>
      ret (EligibilityResult nctIdArg None (formatEligibilityForDisplay env s))
  end.

Definition get_trial_treatment_info (env : Env) (args : option ToolArgs)
  : M ToolState ToolResult :=
  nctIdArg <- arg args a_nctId ;;
  study <- fetchCTGovStudy env nctIdArg ;;
  match study with
  | None =>
      ret (ErrorPayload ("Could not fetch study " ++ js_String nctIdArg
                         ++ " from ClinicalTrials.gov"))
  | Some s =>
      ret (TreatmentResult nctIdArg None (formatTreatmentInfo env s))
  end.

Definition search_all_trials (env : Env) (args : option ToolArgs)
  : M ToolState ToolResult :=
  condition <- arg args a_condition ;;
  location <- arg args a_location ;;
  distanceArg <- arg args a_distance ;;
  let radius := match distanceArg with Some (S n) => S n | _ => 100 end in
  results <- searchCTGov env (js_String condition) location radius 10 ;;
  ret (SearchAllResult condition location radius (length results) results).

Definition executeTool (env : Env) (toolName : string) (args : option ToolArgs)
  : M ToolState ToolResult :=
  if toolName =? "search_trials" then search_trials env args
  else if toolName =? "get_study_details" then get_study_details env args
  else if toolName =? "get_trial_eligibility" then get_trial_eligibility env args
  else if toolName =? "get_trial_treatment_info" then
    get_trial_treatment_info env args
  else if toolName =? "get_available_cancer_types" then
    types <- getCancerTypeList env ;; ret (CancerTypes types)
  else if toolName =? "search_all_trials" then search_all_trials env args
  else throw ("Error: Unknown tool: " ++ toolName).

(* ===================================================================== *)
(** * Conversation orchestrator ([TrialAgent.chat])                       *)
(* ===================================================================== *)

Definition truthyNat (o : option nat) : bool :=
  match o with Some (S _) => true | _ => false end.

Definition truthyStr (o : option string) : bool :=
  match o with Some s => truthy s | None => false end.

Definition getSystemPrompt (env : Env) (profile : option PatientProfile) : string :=
  match profile with
  | None => basePrompt env
  | Some p =>
      basePrompt env ++ nl ++ nl ++ "## Current Patient Profile"
      ++ (if truthyStr (pp_cancerType p)
          then nl ++ "- Cancer Type: " ++ js_String (pp_cancerType p) else "")
      ++ (if truthyStr (pp_zipCode p)
          then nl ++ "- Location (ZIP): " ++ js_String (pp_zipCode p) else "")
      ++ (if truthyNat (pp_age p)
          then nl ++ "- Age: " ++ string_of_nat (match pp_age p with Some n => n | None => 0 end)
          else "")
      ++ (if truthyStr (pp_stage p)
          then nl ++ "- Stage: " ++ js_String (pp_stage p) else "")
      ++ (if truthyNat (pp_travelRadius p)
          then nl ++ "- Willing to travel: "
               ++ string_of_nat (match pp_travelRadius p with Some n => n | None => 0 end)
               ++ " miles"
          else "")
      ++ (match pp_previousTreatments p with
          | Some (x :: xs) => nl ++ "- Previous treatments: " ++ join ", " (x :: xs)
          | _ => ""
          end)
  end.

Definition maxLoops : nat := 10.

Definition fallbackText : string :=
  "I apologize, but I was unable to generate a response.".

(** [this.openai.responses.create(params)], logged. *)
Definition create (env : Env) (params : CreateParams) (a : Agent)
  : Result Response * Agent :=
  let r := responses_create env (length (modelLog a)) params in
  (r, mkAgent (patientProfile a) (previousResponseId a) (tools a)
        (modelLog a ++ [(params, r)])).

(** [response.output.filter(item => item.type === 'function_call')]. *)
Fixpoint functionCallsOf (out : list OutputItem) : list FunctionCall :=
  match out with
  | [] => []
  | function_call c :: rest => c :: functionCallsOf rest
  | _ :: rest => functionCallsOf rest
  end.

(** The body of the [try] block up to the value pushed. *)
Definition runCall (env : Env) (call : FunctionCall) : M ToolState ToolResult :=
  args <- lift (JSON_parse env (arguments call)) ;;
  executeTool env (name call) args.

(** [allTrials = [...allTrials, ...searchResult.trials]] for a search. *)
Definition collectTrials (call : FunctionCall) (result : ToolResult)
  (allTrials : list TrialSearchResult) : list TrialSearchResult :=
  if name call =? "search_trials" then
    match result with
    | SearchTrialsResult _ _ _ _ _ found => allTrials ++ found
    | _ => allTrials
    end
  else allTrials.

Definition Batch : Type :=
  (list FunctionCallOutput * list TrialSearchResult * ToolState)%type.

(** One round of [for (const call of functionCalls)], with its [try] and
    [catch]. *)
Definition processCall (env : Env) (acc : Batch) (call : FunctionCall) : Batch :=
  let '(toolResults, allTrials, st) := acc in
  match runCall env call st with
  | (Ok result, st') =>
      (toolResults ++ [mkOutput (call_id call) result],
       collectTrials call result allTrials, st')
  | (Throw e, st') =>
      (toolResults ++ [mkOutput (call_id call) (ErrorPayload e)], allTrials, st')
  end.

Definition processCalls (env : Env) (calls : list FunctionCall)
  (allTrials : list TrialSearchResult) (st : ToolState) : Batch :=
  fold_left (processCall env) calls ([], allTrials, st).

(** The [while] loop of [chat].  [budget] is [maxLoops - loopCount]: the
    guard [loopCount < maxLoops] holds exactly when it is not zero. *)
Fixpoint toolLoop (env : Env) (budget : nat) (response : Response)
  (allTrials : list TrialSearchResult) (a : Agent)
  : Result (Response * list TrialSearchResult) * Agent :=
  match budget with
  | 0 => (Ok (response, allTrials), a)
  | S budget' =>
      match response_status response, output response with
      | completed, Some out =>
          match functionCallsOf out with
          | [] => (Ok (response, allTrials), a)
          | calls =>
              let '(toolResults, allTrials', st') :=
                processCalls env calls allTrials (tools a) in
              let a1 := mkAgent (patientProfile a) (previousResponseId a) st'
                          (modelLog a) in
              match create env
                      {| instructions := getSystemPrompt env (patientProfile a);
                         input := InputToolResults toolResults;
                         previous_response_id := Some (response_id response) |}
                      a1 with
              | (Ok response', a2) => toolLoop env budget' response' allTrials' a2
              | (Throw e, a2) => (Throw e, a2)
              end
          end
      | _, _ => (Ok (response, allTrials), a)
      end
  end.

Definition isOutputText (c : ContentPart) : bool :=
  match c with output_text _ => true | refusal _ => false end.

Definition textOf (c : ContentPart) : string :=
  match c with output_text t => t | refusal t => t end.

Definition isMessage (item : OutputItem) : bool :=
  match item with message _ => true | _ => false end.

(** The text of the first [message] item, or the apology. *)
Definition extractText (response : Response) : string :=
  let textOutput :=
    match output response with
    | Some out => find isMessage out
    | None => None
    end in
  match textOutput with
  | Some (message (Some content)) =>
      or_else (join nl (map textOf (filter isOutputText content))) fallbackText
  | _ => fallbackText
  end.

Record ChatResult : Type := mkChatResult {
  cr_text : string;
  cr_trials : option (list TrialSearchResult);
}.

Definition chat (env : Env) (userMessage : string) (a : Agent)
  : Result ChatResult * Agent :=
  let input0 :=
    if truthyStr (previousResponseId a)
    then InputText userMessage
    else InputUserTurn userMessage in
  match create env
          {| instructions := getSystemPrompt env (patientProfile a);
             input := input0;
             previous_response_id := previousResponseId a |} a with
  | (Throw e, a1) => (Throw e, a1)
  | (Ok response, a1) =>
      match toolLoop env maxLoops response [] a1 with
      | (Throw e, a2) => (Throw e, a2)
      | (Ok (final, allTrials), a2) =>
          let a3 := mkAgent (patientProfile a2) (Some (response_id final))
                      (tools a2) (modelLog a2) in
          (Ok {| cr_text := extractText final;
                 cr_trials := match allTrials with
                              | [] => None
                              | _ :: _ => Some allTrials
                              end |}, a3)
      end
  end.

Definition resetConversation (a : Agent) : Agent :=
  mkAgent (patientProfile a) None (tools a) (modelLog a).

Definition restoreConversationState (token : string) (a : Agent) : Agent :=
  mkAgent (patientProfile a) (Some token) (tools a) (modelLog a).

Definition setPatientProfile (p : PatientProfile) (a : Agent) : Agent :=
  mkAgent (Some p) (previousResponseId a) (tools a) (modelLog a).

Definition getConversationState (a : Agent) : option string * bool :=
  (previousResponseId a, truthyStr (previousResponseId a)).

(** [agent.executeTool(name, args)] as a method of the whole agent: the
    profile and the continuation token are there, and are not read. *)
Definition agentExecuteTool (env : Env) (toolName : string)
  (args : option ToolArgs) (a : Agent) : Result ToolResult * Agent :=
  let '(r, st') := executeTool env toolName args (tools a) in
  (r, mkAgent (patientProfile a) (previousResponseId a) st' (modelLog a)).

(* ===================================================================== *)
(** * Vocabulary of the properties                                        *)
(* ===================================================================== *)

(** [t] writes the key [k] in [cacheTrials]: under its id, and under its
    uppercased name when the name is not empty. *)
Definition writesKey (k : string) (t : SCRITrial) : bool :=
  (studyId t =? k) || (truthy (studyName t) && (toUpperCase (studyName t) =? k)).

(** The last record of a batch that writes [k]. *)
Definition lastWriter (k : string) (trials : list SCRITrial) : option SCRITrial :=
  find (writesKey k) (rev trials).

(** A stored key answers the query [q] in one of the three stages of
    [getCachedTrial]. *)
Definition keyMatches (q key : string) : bool :=
  (key =? q) || partial_match q key.

(** The calls of one turn that follow the first: every one continues from
    the response before it and carries one output per function call of
    that response, in order. *)
Fixpoint toolTurns (prev : Response)
  (entries : list (CreateParams * Result Response)) : Prop :=
  match entries with
  | [] => True
  | (p, r) :: rest =>
      previous_response_id p = Some (response_id prev) /\
      (exists outs,
          input p = InputToolResults outs /\
          map out_call_id outs
          = map call_id (functionCallsOf (match output prev with
                                          | Some out => out
                                          | None => []
                                          end))) /\
      match r with
      | Ok r' => toolTurns r' rest
      | Throw _ => rest = []
      end
  end.

(** The response a chain of calls ends with. *)
Fixpoint lastResponse (prev : Response)
  (entries : list (CreateParams * Result Response)) : Result Response :=
  match entries with
  | [] => Ok prev
  | (_, Ok r) :: rest => lastResponse r rest
  | (_, Throw e) :: _ => Throw e
  end.

(** Ids of the responses received in a list of calls. *)
Fixpoint okIds (entries : list (CreateParams * Result Response)) : list string :=
  match entries with
  | [] => []
  | (_, Ok r) :: rest => response_id r :: okIds rest
  | (_, Throw _) :: rest => okIds rest
  end.

(** Ids of the intermediate tool-turn responses: those a later call of the
    turn fed tool outputs back to. *)
Fixpoint intermediateIds (entries : list (CreateParams * Result Response))
  : list string :=
  match entries with
  | [] => []
  | (p, _) :: rest =>
      match input p, previous_response_id p with
      | InputToolResults _, Some i => i :: intermediateIds rest
      | _, _ => intermediateIds rest
      end
  end.

(** The endpoint returned a fresh id on every call of the turn: the ids
    are pairwise distinct and none is the token held before the turn. *)
Definition freshIds (old : option string)
  (turn : list (CreateParams * Result Response)) : Prop :=
  NoDup (okIds turn) /\ forall i, In i (okIds turn) -> old <> Some i.

(** The calls of a turn that submit tool outputs. *)
Definition toolSubmissions (turn : list (CreateParams * Result Response))
  : list (CreateParams * Result Response) :=
  filter (fun e => match input (fst e) with
                   | InputToolResults _ => true
                   | _ => false
                   end) turn.

(** The one [function_call_output] that a function call yields when run in
    the state [st]: the result of the tool, or the error payload made of
    what [JSON.parse] or [executeTool] threw. *)
Definition answerFor (env : Env) (call : FunctionCall) (st : ToolState)
  : FunctionCallOutput :=
  match fst (runCall env call st) with
  | Ok result => mkOutput (call_id call) result
  | Throw e => mkOutput (call_id call) (ErrorPayload e)
  end.

(** The outputs of a batch, each call run in the state the previous one
    left. *)
Fixpoint answers (env : Env) (calls : list FunctionCall) (st : ToolState)
  : list FunctionCallOutput :=
  match calls with
  | [] => []
  | call :: rest =>
      answerFor env call st :: answers env rest (snd (runCall env call st))
  end.

(** What [searchCTGov] makes of the answer to a request it does not
    retry: the studies of a successful answer, and nothing after any
    failure. *)
Definition answerOf (o : CTGov.FetchOutcome) : list CTGov.CTGovSearchResult :=
  match o with
  | CTGov.FetchThrows _ => []
  | CTGov.FetchReturns r =>
      if CTGov.ok r then
        match CTGov.json r with
        | Ok data => map searchHit (orNil (CTGov.studies data))
        | Throw _ => []
        end
      else []
  end.

(** Distances of a list of slim results. *)
Definition distances (l : list TrialSearchResult) : list (option nat) :=
  map distance l.

(** Non-decreasing order of the resolved distances of a list. *)
Fixpoint nonDecreasing (l : list nat) : bool :=
  match l with
  | x :: ((y :: _) as rest) => (x <=? y)%nat && nonDecreasing rest
  | _ => true
  end.

Fixpoint resolved (l : list (option nat)) : list nat :=
  match l with
  | [] => []
  | Some d :: rest => d :: resolved rest
  | None :: rest => resolved rest
  end.

(** No entry with a distance after one without. *)
Fixpoint unresolvedLast (l : list (option nat)) : bool :=
  match l with
  | [] => true
  | Some _ :: rest => unresolvedLast rest
  | None :: rest => forallb (fun d => match d with None => true | Some _ => false end) rest
  end.

(* ===================================================================== *)
(** * A concrete environment                                              *)
(* ===================================================================== *)

(** Concrete inputs on which the definitions are run.  Coordinates are whole
    degrees and the metric is the taxicab one: like the haversine formula
    it gives [0] between a point and itself. *)
Module Demo.

Definition absDiff (x y : nat) : nat := (x - y) + (y - x).

Definition parseNat (s : string) : option nat :=
  option_map Nat.of_uint (NilZero.uint_of_string s).

Definition demoGeo : Geo :=
  {| coord := nat;
     ZIP_COORDINATES := fun z => if z =? "37203" then Some (36, 86) else None;
     parseFloat := parseNat;
     calculateDistance := fun ulat ulon la lo =>
                            Miles (absDiff ulat la + absDiff ulon lo) |}.

Definition site (nm cty st la lo : string) : SCRILocation :=
  mkLocation nm nm "615-555-0100" cty st la lo.

(** A site at the very coordinates of ZIP 37203. *)
Definition nashville : SCRILocation := site "SCRI Nashville" "Nashville " "TN" "36" "86".

(** A site five miles (of the demo metric) away. *)
Definition franklin : SCRILocation := site "SCRI Franklin" "Franklin" "TN" "39" "88".

(** A site without coordinates. *)
Definition remote : SCRILocation := site "SCRI Denver" "Denver" "CO" "" "".

Definition trialA : SCRITrial :=
  mkTrial "A1" "BRE-430-001" "Zanidatamab study" "NCT00000001"
    [] [nashville] ["Breast"] ["Phase 2"].

Definition trialB : SCRITrial :=
  mkTrial "B2" "BRE-430-002" "Tucatinib study" "NCT00000002"
    [franklin] [] ["Breast"] ["Phase 1"].

Definition trialC : SCRITrial :=
  mkTrial "C3" "LUN-77" "Lung study" "NCT00000003"
    [remote] [] ["Lung"] ["Phase 3"].

(** Two records whose uppercased names coincide. *)
Definition twinA : SCRITrial :=
  mkTrial "T1" "bre-500" "First twin" "" [] [] [] [].

Definition twinB : SCRITrial :=
  mkTrial "T2" "BRE-500" "Second twin" "" [] [] [] [].

(** A record whose id is the empty string. *)
Definition noId : SCRITrial :=
  mkTrial "" "GI-9" "Record without id" "" [] [] [] [].

Definition emptyTrial : SCRITrial :=
  mkTrial "E0" "EMPTY-1" "No location" "" [] [] [] [].

Definition noArgs : ToolArgs := mkArgs None None None None None None None.

Definition searchArgs (zip : option string) : ToolArgs :=
  mkArgs (Some "Breast") zip None None None None None.

Definition detailArgs (sid : string) : ToolArgs :=
  mkArgs None None (Some sid) None None None None.

Definition nctArgs (n : string) : ToolArgs :=
  mkArgs None None None (Some n) None None None.

(** The demo argument texts stand for JSON texts. *)
Definition parseArgs (s : string) : Result (option ToolArgs) :=
  if s =? "search Breast" then Ok (Some (searchArgs None))
  else if s =? "search Breast 37203" then Ok (Some (searchArgs (Some "37203")))
  else if s =? "details A1" then Ok (Some (detailArgs "A1"))
  else if s =? "eligibility NCT00000000" then Ok (Some (nctArgs "NCT00000000"))
  else if s =? "null" then Ok None
  else if s =? "{}" then Ok (Some noArgs)
  else Throw "SyntaxError: Unexpected token in JSON".

Definition aStudy : CTGov.ProtocolSection :=
  CTGov.mkProtocol
    (Some (CTGov.mkIdentification (Some "NCT00000009") (Some "A registry study") None))
    None None
    (Some (CTGov.mkDesign (Some ["PHASE1"; "PHASE2"]) None))
    (Some "RECRUITING") (Some ["Breast Cancer"]) None None None None.

(** A registry that knows no single study, rejects every geographic
    filter with status 400 and answers the other searches. *)
Definition registry (n : nat) (req : CTGov.HttpRequest) : CTGov.FetchOutcome :=
  match req with
  | CTGov.GetStudy _ => CTGov.FetchReturns (CTGov.mkResponse 404 (Throw "no body"))
  | CTGov.GetStudies p =>
      match CTGov.filter_geo p with
      | Some _ => CTGov.FetchReturns (CTGov.mkResponse 400 (Throw "no body"))
      | None =>
          CTGov.FetchReturns
            (CTGov.mkResponse 200 (Ok (CTGov.mkJson None (Some [Some aStudy]))))
      end
  end.

Definition demoEnv (results : list SCRITrial)
  (model : nat -> CreateParams -> Result Response) : Env :=
  {| geo := demoGeo;
     responses_create := model;
     scri_searchTrials := fun _ _ _ => Ok (mkSearchData (length results) results);
     scri_getTrialDetails := fun _ _ => Throw "Error: API error: 404";
     scri_getFilters := fun _ =>
       Ok [mkFilterItem "Lung" true 2; mkFilterItem "Old" false 0;
           mkFilterItem "Breast" true 1];
     fetch := registry;
     JSON_parse := parseArgs;
     basePrompt := "You are a clinical trial navigator.";
     formatEligibilityForDisplay := fun _ => "Eligibility criteria not available.";
     formatTreatmentInfo := fun _ => "Treatment information not available." |}.

Definition responseId (n : nat) : string := "resp_" ++ string_of_nat n.

Definition toolCall (n : nat) (tool args : string) : OutputItem :=
  function_call (mkCall ("call_" ++ string_of_nat n) tool args).

(** A model that asks for one search, then answers. *)
Definition searchingModel (args : string) (n : nat) (p : CreateParams)
  : Result Response :=
  match n with
  | 0 => Ok (mkModelResponse (responseId n) completed
               (Some [reasoning_item; toolCall n "search_trials" args]))
  | _ => Ok (mkModelResponse (responseId n) completed
               (Some [message (Some [output_text "Here are the trials."])]))
  end.

(** A model that requests tools on every response: a tool that does not
    exist, arguments that do not parse, and a search. *)
Definition insistentModel (n : nat) (p : CreateParams) : Result Response :=
  Ok (mkModelResponse (responseId n) completed
        (Some [toolCall n "no_such_tool" "{}";
               toolCall (100 + n) "search_trials" "not json";
               toolCall (200 + n) "search_trials" "search Breast"])).

Definition silentModel (n : nat) (p : CreateParams) : Result Response :=
  Throw "Error: Connection error.".

Definition emptyTools : ToolState := mkToolState JsMap.empty 0 [].

Definition freshAgent (profile : option PatientProfile) : Agent :=
  mkAgent profile None emptyTools [].

Definition nashvilleProfile : PatientProfile :=
  mkProfile (Some "Breast") (Some "37203") (Some 54) None (Some 100) None.

End Demo.

(* ===================================================================== *)
(** * Display of registry records ([services/clinicaltrials-gov.ts])      *)
(* ===================================================================== *)

(** [parseEligibilityCriteria], [formatEligibilityForDisplay] and
    [formatTreatmentInfo] as the source writes them, on ASCII text.  An
    agent environment may take the last two for its fields of the same
    name. *)
Module Render.

(** [c.toLowerCase()] on one ASCII character. *)
Definition lower_ascii (c : ascii) : ascii :=
  let n := nat_of_ascii c in
  if ((65 <=? n) && (n <=? 90))%nat then ascii_of_nat (n + 32) else c.

Fixpoint toLowerCase (s : string) : string :=
  match s with
  | EmptyString => EmptyString
  | String c s' => String (lower_ascii c) (toLowerCase s')
  end.

(** [s.indexOf(sub)]; [None] stands for [-1]. *)
Fixpoint indexOf (s sub : string) : option nat :=
  if startsWith s sub then Some 0
  else match s with
       | EmptyString => None
       | String _ s' => option_map S (indexOf s' sub)
       end.

(** [s.substring(from, to)] for [from <= to], and [s.substring(from)]. *)
Definition substringBetween (from to : nat) (s : string) : string :=
  substring from (to - from) s.

Definition substringFrom (from : nat) (s : string) : string :=
  substring from (String.length s - from) s.

Definition isNewline (c : ascii) : bool :=
  let n := nat_of_ascii c in ((n =? 10) || (n =? 13))%nat.

(** [text.split(/[\n\r]+/)]: the pieces between the runs of line breaks.
    [inRun] tells that the character before was a line break. *)
Fixpoint splitLines (inRun : bool) (s : string) : list string :=
  match s with
  | EmptyString => [EmptyString]
  | String c s' =>
      if isNewline c then
        if inRun then splitLines true s' else EmptyString :: splitLines true s'
      else
        match splitLines false s' with
        | piece :: pieces => String c piece :: pieces
        | [] => [String c EmptyString]
        end
  end.

(** The bullet character U+2022, as its three bytes. *)
Definition bullet : string :=
  String (ascii_of_nat 226) (String (ascii_of_nat 128) (String (ascii_of_nat 162) "")).

(** [line.replace(/^[-*•]\s*/, '')]. *)
Definition stripBullet (line : string) : string :=
  if startsWith line "-" then trimStart (substringFrom 1 line)
  else if startsWith line "*" then trimStart (substringFrom 1 line)
  else if startsWith line bullet then trimStart (substringFrom 3 line)
  else line.

(** [/^(inclusion|exclusion)/] on a lowercased line. *)
Definition isSectionTitle (lowered : string) : bool :=
  startsWith lowered "inclusion" || startsWith lowered "exclusion".

Definition parseBullets (text : string) : list string :=
  filter (fun line => (10 <? String.length line)%nat)
    (map (fun line => trim (stripBullet line))
       (filter (fun line => negb (isSectionTitle (toLowerCase line)))
          (filter (fun line => negb (includes (toLowerCase line) "criteria:"))
             (filter (fun line => (0 <? String.length line)%nat)
                (map trim (splitLines false text)))))).

Record Criteria : Type := mkCriteria {
  inclusion : list string;
  exclusion : list string;
}.

(** The inclusion and the exclusion block of a criteria text. *)
Definition sections (criteria : string) : string * string :=
  let lowerCriteria := toLowerCase criteria in
  match indexOf lowerCriteria "inclusion criteria",
        indexOf lowerCriteria "exclusion criteria" with
  | Some inclusionIndex, Some exclusionIndex =>
      if (inclusionIndex <? exclusionIndex)%nat then
        (substringBetween inclusionIndex exclusionIndex criteria,
         substringFrom exclusionIndex criteria)
      else
        (substringFrom inclusionIndex criteria,
         substringBetween exclusionIndex inclusionIndex criteria)
  | Some inclusionIndex, None => (substringFrom inclusionIndex criteria, "")
  | None, Some exclusionIndex => ("", substringFrom exclusionIndex criteria)
  | None, None => (criteria, "")
  end.

Definition parseEligibilityCriteria (criteria : string) : Criteria :=
  if truthy criteria then
    {| inclusion := parseBullets (fst (sections criteria));
       exclusion := parseBullets (snd (sections criteria)) |}
  else mkCriteria [] [].

(** [list.forEach((criterion, i) => parts.push(`${i + 1}. ${criterion}`))],
    counting from [i]. *)
Fixpoint numbered (i : nat) (items : list string) : list string :=
  match items with
  | [] => []
  | item :: rest =>
      (string_of_nat (i + 1) ++ ". " ++ item)%string :: numbered (S i) rest
  end.

(** The parts pushed for one list of criteria, of which [shown] are
    listed. *)
Definition criteriaParts (title : string) (shown : nat) (items : list string)
  : list string :=
  match items with
  | [] => []
  | _ :: _ =>
      (nl ++ title)%string
      :: (numbered 0 (JsArray.slice0 shown items)
          ++ (if (shown <? length items)%nat
              then [("   _(and " ++ string_of_nat (length items - shown)
                     ++ " more)_")%string]
              else []))
  end.

(** A present value other than the given word. *)
Definition statedOther (o : option string) (word : string) : bool :=
  match o with
  | Some s => truthy s && negb (s =? word)
  | None => false
  end.

Definition ageParts (elig : CTGov.Eligibility) : list string :=
  if truthyStr (CTGov.minimumAge elig) || truthyStr (CTGov.maximumAge elig) then
    let ageRange :=
      (if statedOther (CTGov.minimumAge elig) "N/A"
       then [(js_String (CTGov.minimumAge elig) ++ " or older")%string] else [])
      ++ (if statedOther (CTGov.maximumAge elig) "N/A"
          then [("up to " ++ js_String (CTGov.maximumAge elig))%string] else []) in
    match ageRange with
    | [] => []
    | _ :: _ => [("**Age:** " ++ join ", " ageRange)%string]
    end
  else [].

Definition sexParts (elig : CTGov.Eligibility) : list string :=
  if statedOther (CTGov.sex elig) "All"
  then [("**Sex:** " ++ js_String (CTGov.sex elig))%string]
  else [].

(** The array [parts] at the end of [formatEligibilityForDisplay].  A study
    without the optional [eligibility] object is one whose [eligibility]
    has no field. *)
Definition eligibilityParts (study : CTGov.CTGovStudy) : list string :=
  ageParts (CTGov.eligibility study)
  ++ sexParts (CTGov.eligibility study)
  ++ (if truthyStr (CTGov.eligibilityCriteria study) then
        let parsed := parseEligibilityCriteria
                        (js_String (CTGov.eligibilityCriteria study)) in
        criteriaParts "**Key Inclusion Criteria:**" 5 (inclusion parsed)
        ++ criteriaParts "**Key Exclusion Criteria:**" 3 (exclusion parsed)
      else []).

Definition eligibilityFallback : string :=
  "Eligibility criteria not available. Please contact the trial site for details.".

Definition formatEligibilityForDisplay (study : CTGov.CTGovStudy) : string :=
  match eligibilityParts study with
  | [] => eligibilityFallback
  | parts => join nl parts
  end.

(** [description.substring(0, 200)] followed by the dots of a longer
    description. *)
Definition shortDescription (description : string) : string :=
  (substring 0 200 description
   ++ (if (200 <? String.length description)%nat then "..." else ""))%string.

(** The lines pushed by [study.interventions.forEach], counting from [i]. *)
Fixpoint treatmentLines (i : nat) (interventions : list CTGov.Intervention)
  : list string :=
  match interventions with
  | [] => []
  | intervention :: rest =>
      (string_of_nat (i + 1) ++ ". **" ++ js_String (CTGov.iv_name intervention)
       ++ "** (" ++ js_String (CTGov.iv_type intervention) ++ ")"
       ++ (if truthyStr (CTGov.iv_description intervention)
           then ": " ++ shortDescription (js_String (CTGov.iv_description intervention))
           else ""))%string
      :: treatmentLines (S i) rest
  end.

Definition treatmentFallback : string := "Treatment information not available.".

Definition formatTreatmentInfo (study : CTGov.CTGovStudy) : string :=
  match CTGov.interventions study with
  | None | Some [] => treatmentFallback
  | Some interventions =>
      join nl ("**Study Treatments:**" :: treatmentLines 0 interventions)
  end.

End Render.

(* ===================================================================== *)
(** * State coverage ([services/geo.ts])                                  *)
(* ===================================================================== *)

Definition SCRI_COVERAGE_STATES : list string :=
  ["AL"; "CA"; "CO"; "DE"; "FL"; "IL"; "MD"; "MN"; "MO";
   "NM"; "OH"; "OR"; "PA"; "TN"; "TX"; "VA"; "WA"; "WI"].

(** [SCRI_COVERAGE_STATES.includes(state.toUpperCase().trim())]. *)
Definition hasStateCoverage (state : string) : bool :=
  let normalized := trim (toUpperCase state) in
  existsb (String.eqb normalized) SCRI_COVERAGE_STATES.

(* ===================================================================== *)
(** * All pages of a search ([SCRIApiClient.searchAllTrials])             *)
(* ===================================================================== *)

(** A page of search results with the page count that [searchAllTrials]
    reads. *)
Record SearchPage : Type := mkPage {
  totalPageCount : nat;
  pageResults : list SCRITrial;
}.

(** [this.searchTrials(cancerType, page)] against a paged oracle; the state
    is the number of calls made. *)
Definition fetchPage (pages : nat -> string -> nat -> Result SearchPage)
  (cancerType : string) (page : nat) : M nat SearchPage :=
  fun calls => (pages calls cancerType page, S calls).

(** The loop [for (let page = 2; page <= firstPage.totalPageCount; page++)],
    with [count] pages left to fetch from [page] on. *)
Fixpoint remainingPages (pages : nat -> string -> nat -> Result SearchPage)
  (cancerType : string) (page count : nat) (allTrials : list SCRITrial)
  : M nat (list SCRITrial) :=
  match count with
  | 0 => ret allTrials
  | S count' =>
      nextPage <- fetchPage pages cancerType page ;;
      remainingPages pages cancerType (S page) count'
        (allTrials ++ pageResults nextPage)
  end.

Definition searchAllTrials (pages : nat -> string -> nat -> Result SearchPage)
  (cancerType : string) : M nat (list SCRITrial) :=
  firstPage <- fetchPage pages cancerType 1 ;;
  remainingPages pages cancerType 2 (totalPageCount firstPage - 1)
    (pageResults firstPage).

(* ===================================================================== *)
(** * The background service worker ([background/index.ts])               *)
(* ===================================================================== *)

(** The worker keeps one agent in a module variable and three storage
    slots.  Storage calls are taken not to fail, and log forwarding is
    left out. *)
Module Background.

(** [chrome.storage.local] ([openai_api_key], [patient_profile]) and
    [chrome.storage.session] ([previousResponseId]); a slot holding [null]
    reads like an absent one. *)
Record Storage : Type := mkStorage {
  openai_api_key : option string;
  patient_profile : option PatientProfile;
  session_previousResponseId : option string;
}.

(** [hasAgent] is false when the variable [agent] is [null]; [core] then
    only carries the logs of the remote services, which outlive the
    agent. *)
Record Worker : Type := mkWorker {
  hasAgent : bool;
  core : Agent;
  storage : Storage;
}.

Inductive Message : Type :=
| CHAT (payloadMessage : option string) (payloadText : string)
| RESET_CONVERSATION
| SET_API_KEY (key : string)
| GET_API_KEY
| UPDATE_PROFILE (profile : PatientProfile)
| GET_PROFILE
| SEARCH_TRIALS (cancerType zipCode : option string)
| GET_TRIAL (nctId trialId : option string)
| GET_FILTERS
| OTHER (type : string).

Inductive Reply : Type :=
| ChatReply (text : string) (trials : option (list TrialSearchResult))
| Success
| KeyStatus (hasKey : bool) (maskedKey : option string)
| ProfileReply (profile : option PatientProfile)
| ToolReply (result : ToolResult).

Definition noKeyError : string :=
  "Error: OpenAI API key not configured. Please set it in the extension popup.".

(** [a || b] on values that may be absent. *)
Definition orOption (a b : option string) : option string :=
  if truthyStr a then a else b.

(** [restoreConversationState(agentInstance)] of the worker. *)
Definition restoreSaved (s : Storage) (a : Agent) : Agent :=
  match session_previousResponseId s with
  | Some token => if truthy token then restoreConversationState token a else a
  | None => a
  end.

(** [new TrialAgent(apiKey, profile, log)]: no token, an empty cache. *)
Definition newAgent (profile : option PatientProfile) (remote : Agent) : Agent :=
  mkAgent profile None
    (mkToolState JsMap.empty (scriCalls (tools remote)) (httpLog (tools remote)))
    (modelLog remote).

Definition getAgent (EMBEDDED_KEY : string) : M Worker Agent :=
  fun w =>
    if hasAgent w then (Ok (core w), w)
    else
      let apiKey := orString (openai_api_key (storage w)) EMBEDDED_KEY in
      if truthy apiKey then
        let a := restoreSaved (storage w)
                   (newAgent (patient_profile (storage w)) (core w)) in
        (Ok a, mkWorker true a (storage w))
      else (Throw noKeyError, w).

(** A method called on the agent that [getAgent] returns. *)
Definition withAgent {A} (EMBEDDED_KEY : string)
  (method : Agent -> Result A * Agent) : M Worker A :=
  fun w =>
    match getAgent EMBEDDED_KEY w with
    | (Throw e, w') => (Throw e, w')
    | (Ok a, w') =>
        let '(r, a') := method a in (r, mkWorker true a' (storage w'))
    end.

Definition setSession (slot : option string) : M Worker unit :=
  modify (fun w =>
            mkWorker (hasAgent w) (core w)
              (mkStorage (openai_api_key (storage w)) (patient_profile (storage w))
                 slot)).

(** [saveConversationState()]: the token, or [null] for a falsy one. *)
Definition saveConversationState : M Worker unit :=
  fun w =>
    if hasAgent w
    then setSession (orOption (previousResponseId (core w)) None) w
    else (Ok tt, w).

(** [`${key.slice(0, 7)}...${key.slice(-4)}`]. *)
Definition maskKey (key : string) : string :=
  (substring 0 7 key ++ "..." ++ substring (String.length key - 4) 4 key)%string.

Definition emptyArgs : ToolArgs := mkArgs None None None None None None None.

Definition handleMessage (EMBEDDED_KEY : string) (env : Env) (message : Message)
  : M Worker Reply :=
  match message with
  | CHAT payloadMessage payloadText =>
      response <- withAgent EMBEDDED_KEY
                    (chat env (orString payloadMessage payloadText)) ;;
      saveConversationState ;;;
      ret (ChatReply (cr_text response) (cr_trials response))
  | RESET_CONVERSATION =>
      withAgent EMBEDDED_KEY (fun a => (Ok tt, resetConversation a)) ;;;
      setSession None ;;;
      ret Success
  | SET_API_KEY key =>
      modify (fun w =>
                mkWorker false (core w)
                  (mkStorage (Some key) (patient_profile (storage w))
                     (session_previousResponseId (storage w)))) ;;;
      ret Success
  | GET_API_KEY =>
      stored <- gets (fun w => openai_api_key (storage w)) ;;
      let key := orString stored EMBEDDED_KEY in
      ret (KeyStatus (truthy key) (if truthy key then Some (maskKey key) else None))
  | UPDATE_PROFILE profile =>
      modify (fun w =>
                mkWorker (hasAgent w)
                  (if hasAgent w then setPatientProfile profile (core w) else core w)
                  (mkStorage (openai_api_key (storage w)) (Some profile)
                     (session_previousResponseId (storage w)))) ;;;
      ret Success
  | GET_PROFILE =>
      profile <- gets (fun w => patient_profile (storage w)) ;;
      ret (ProfileReply profile)
  | SEARCH_TRIALS cancerType zipCode =>
      result <- withAgent EMBEDDED_KEY
                  (agentExecuteTool env "search_trials_nearby"
                     (Some (mkArgs cancerType (Some (orString zipCode "37203"))
                              None None None None None))) ;;
      ret (ToolReply result)
  | GET_TRIAL nctId trialId =>
      result <- withAgent EMBEDDED_KEY
                  (agentExecuteTool env "get_trial_eligibility"
                     (Some (mkArgs None None None (orOption nctId trialId)
                              None None None))) ;;
      ret (ToolReply result)
  | GET_FILTERS =>
      result <- withAgent EMBEDDED_KEY
                  (agentExecuteTool env "get_available_cancer_types"
                     (Some emptyArgs)) ;;
      ret (ToolReply result)
  | OTHER type =>
      throw ("Error: Unknown message type: " ++ type)
  end.

(** A restart of the service worker: the module variable is lost, both
    storage areas stay. *)
Definition restart (w : Worker) : Worker :=
  mkWorker false (core w) (storage w).

End Background.

(* ===================================================================== *)
(** * More vocabulary of the properties                                   *)
(* ===================================================================== *)

(** Order of the sort keys [d || Infinity]; [None] is [Infinity]. *)
Definition leInfinity (a b : option nat) : Prop :=
  match a, b with
  | Some x, Some y => x <= y
  | _, None => True
  | None, Some _ => False
  end.

(** The sort key of a location summary. *)
Definition locationKey (l : LocationSummary) : option nat :=
  orInfinity (ls_distance l).

(** The constant parameters of the first request of a turn. *)
Definition firstRequest (env : Env) (userMessage : string) (a : Agent)
  : CreateParams :=
  {| instructions := getSystemPrompt env (patientProfile a);
     input := if truthyStr (previousResponseId a)
              then InputText userMessage
              else InputUserTurn userMessage;
     previous_response_id := previousResponseId a |}.

(** The calls made to the model endpoint since the log was [before]. *)
Definition callsSince (before : list (CreateParams * Result Response))
  (a : Agent) : list (CreateParams * Result Response) :=
  skipn (length before) (modelLog a).

(** What the closest-site scan knows after the locations [seen]: the
    distance it holds is the least whole-mile distance computed for a
    location with coordinates, and it holds none when none was computed. *)
Definition scanInvariant (g : Geo) (u : coord g * coord g)
  (seen : list SCRILocation) (acc : Closest) : Prop :=
  minDist acc = c_distance acc
  /\ match c_distance acc with
     | Some m =>
         (exists loc la lo,
             In loc seen /\ parsedCoords g loc = Some (la, lo)
             /\ calculateDistance g (fst u) (snd u) la lo = Miles m)
         /\ (forall loc la lo d,
                In loc seen -> parsedCoords g loc = Some (la, lo) ->
                calculateDistance g (fst u) (snd u) la lo = Miles d -> m <= d)
     | None =>
         forall loc la lo,
           In loc seen -> parsedCoords g loc = Some (la, lo) ->
           calculateDistance g (fst u) (snd u) la lo = NaN
     end.

(** An environment whose trial service is down: every call of it throws. *)
Definition offlineEnv : Env :=
  {| geo := Demo.demoGeo;
     responses_create := Demo.silentModel;
     scri_searchTrials := fun _ _ _ => Throw "Error: API error: 503 Service Unavailable";
     scri_getTrialDetails := fun _ _ => Throw "Error: API error: 503 Service Unavailable";
     scri_getFilters := fun _ => Throw "Error: API error: 503 Service Unavailable";
     fetch := Demo.registry;
     JSON_parse := Demo.parseArgs;
     basePrompt := "You are a clinical trial navigator.";
     formatEligibilityForDisplay := fun _ => "Eligibility criteria not available.";
     formatTreatmentInfo := fun _ => "Treatment information not available." |}.

(** The trials that a tool result carries under [trials] when it is the
    result of a search of the SCRI catalogue. *)
Definition trialsOf (r : ToolResult) : list TrialSearchResult :=
  match r with
  | SearchTrialsResult _ _ _ _ _ found => found
  | _ => []
  end.

(** The trials of the search results that a list of requests submitted to
    the model, in the order of submission. *)
Definition submittedTrials (entries : list (CreateParams * Result Response))
  : list TrialSearchResult :=
  flat_map (fun e => match input (fst e) with
                     | InputToolResults outs =>
                         flat_map (fun o => trialsOf (out_output o)) outs
                     | _ => []
                     end) entries.

(** The worker can produce an agent: it holds one, or a key is stored or
    embedded. *)
Definition ready (EMBEDDED_KEY : string) (w : Background.Worker) : bool :=
  Background.hasAgent w
  || truthy (orString (Background.openai_api_key (Background.storage w)) EMBEDDED_KEY).

(** The agent that [getAgent] hands out when the worker is ready. *)
Definition agentOf (w : Background.Worker) : Agent :=
  if Background.hasAgent w then Background.core w
  else Background.restoreSaved (Background.storage w)
         (Background.newAgent (Background.patient_profile (Background.storage w))
            (Background.core w)).

(** The session slot agrees with the token of the agent held, a falsy
    token counting as none. *)
Definition sessionInSync (w : Background.Worker) : Prop :=
  Background.hasAgent w = true ->
  Background.orOption (Background.session_previousResponseId (Background.storage w)) None
  = Background.orOption (previousResponseId (Background.core w)) None.

(** A worker that was just started, with a stored key and nothing else. *)
Definition startedWorker (key : option string) : Background.Worker :=
  Background.mkWorker false (Demo.freshAgent None)
    (Background.mkStorage key None None).

(** Every character of [s] passes the test [p]. *)
Fixpoint allChars (p : ascii -> bool) (s : string) : bool :=
  match s with
  | EmptyString => true
  | String c s' => p c && allChars p s'
  end.

(** The records of the page that [searchAllTrials] asks for in its round
    [i], when [calls] calls were made before the loop and the loop starts
    at [page]; none when the request fails. *)
Definition pageAt (pages : nat -> string -> nat -> Result SearchPage)
  (cancerType : string) (calls page i : nat) : list SCRITrial :=
  match pages (calls + i) cancerType (page + i) with
  | Ok p => pageResults p
  | Throw _ => []
  end.




(** [args.zipCode || this.patientProfile?.zipCode], the postal code that
    [search_trials_nearby] of [cli/quality-agent.ts] works with. *)
Definition profileDefaultZip (args : ToolArgs) (profile : option PatientProfile)
  : option string :=
  if isTruthyZip (a_zipCode args) then a_zipCode args
  else match profile with
       | Some p => pp_zipCode p
       | None => None
       end.

(** Running the effectful combinators of a goal one step further. *)
Ltac run_eff :=
  repeat (progress (unfold bind, ret, throw, tryCatch, gets, modify, lift, arg,
                      requireString, http_fetch, scri_call, setCache;
                    cbn beta iota)).

(* ===================================================================== *)
(** * Facts about strings                                                 *)
(* ===================================================================== *)

Section StringFacts.

Lemma startsWith_spec (p s : string) :
  startsWith s p = true <-> exists post, s = (p ++ post)%string.
Proof.
  revert s. induction p as [|a p IH]; intros s; simpl.
  - split; [intros _; exists s; reflexivity | reflexivity].
  - destruct s as [|b s].
    + split; [discriminate | intros [post H]; discriminate H].
    + rewrite andb_true_iff, Ascii.eqb_eq, IH. split.
      * intros [-> [post ->]]. exists post. reflexivity.
      * intros [post H]. injection H as -> ->. split; [reflexivity | eauto].
Qed.

Lemma includes_spec (s sub : string) :
  includes s sub = true <-> exists pre post, s = (pre ++ sub ++ post)%string.
Proof.
  induction s as [|c s IH]; simpl.
  - rewrite orb_false_r, startsWith_spec. split.
    + intros [post H]. exists ""%string, post. exact H.
    + intros [pre [post H]]. destruct pre; [|discriminate H].
      exists post. exact H.
  - rewrite orb_true_iff, startsWith_spec, IH. split.
    + intros [[post H] | [pre [post H]]].
      * exists ""%string, post. exact H.
      * exists (String c pre), post. simpl. rewrite H. reflexivity.
    + intros [pre [post H]]. destruct pre as [|d pre]; simpl in H.
      * left. exists post. exact H.
      * right. injection H as _ H. exists pre, post. exact H.
Qed.

Lemma includes_empty (s : string) : includes s "" = true.
Proof. destruct s; reflexivity. Qed.

Lemma includes_refl (s : string) : includes s s = true.
Proof.
  apply includes_spec. exists ""%string, ""%string. simpl.
  clear. induction s as [|c s IH]; simpl; [reflexivity | rewrite <- IH; reflexivity].
Qed.

Lemma toUpperCase_app (s1 s2 : string) :
  toUpperCase (s1 ++ s2) = (toUpperCase s1 ++ toUpperCase s2)%string.
Proof. induction s1 as [|c s1 IH]; simpl; [reflexivity | rewrite IH; reflexivity]. Qed.

(** Uppercasing keeps containment: a part of [s] becomes a part of the
    uppercased [s]. *)
Lemma includes_toUpperCase (s sub : string) :
  includes s sub = true -> includes (toUpperCase s) (toUpperCase sub) = true.
Proof.
  rewrite !includes_spec. intros [pre [post ->]].
  exists (toUpperCase pre), (toUpperCase post).
  rewrite !toUpperCase_app. reflexivity.
Qed.

Lemma truthy_true (s : string) : truthy s = true <-> s <> ""%string.
Proof.
  unfold truthy. rewrite negb_true_iff. split.
  - intros H ->. discriminate H.
  - intros H. apply String.eqb_neq. exact H.
Qed.

Lemma or_else_truthy (a b : string) : b <> ""%string -> or_else a b <> ""%string.
Proof.
  intros Hb. unfold or_else. destruct (truthy a) eqn:Ha; [|exact Hb].
  apply truthy_true. exact Ha.
Qed.

End StringFacts.

(* ===================================================================== *)
(** * Facts about the JS [Map]                                            *)
(* ===================================================================== *)

Section MapFacts.
Variable V : Type.
Implicit Types (m : JsMap.t V) (k : string) (v : V).

Lemma get_set_eq k v m : JsMap.get k (JsMap.set k v m) = Some v.
Proof.
  induction m as [|[k' v'] m IH]; simpl.
  - rewrite String.eqb_refl. reflexivity.
  - destruct (k' =? k) eqn:E; simpl; rewrite E; [reflexivity | exact IH].
Qed.

Lemma get_set_neq k k' v m :
  k <> k' -> JsMap.get k (JsMap.set k' v m) = JsMap.get k m.
Proof.
  intros Hne. induction m as [|[k0 v0] m IH]; simpl.
  - destruct (k' =? k) eqn:E; [|reflexivity].
    apply String.eqb_eq in E. congruence.
  - destruct (k0 =? k') eqn:E; simpl.
    + destruct (k0 =? k) eqn:E'; [|reflexivity].
      apply String.eqb_eq in E, E'. congruence.
    + rewrite IH. reflexivity.
Qed.

Lemma get_Some_In k v m : JsMap.get k m = Some v -> In (k, v) m.
Proof.
  induction m as [|[k' v'] m IH]; simpl; [discriminate|].
  destruct (k' =? k) eqn:E.
  - intros [= ->]. apply String.eqb_eq in E. subst. left. reflexivity.
  - intros H. right. exact (IH H).
Qed.

Lemma get_None_In k v m : JsMap.get k m = None -> ~ In (k, v) m.
Proof.
  induction m as [|[k' v'] m IH]; simpl; [tauto|].
  destruct (k' =? k) eqn:E; [discriminate|].
  intros H [[= -> _] | Hin].
  - rewrite String.eqb_refl in E. discriminate E.
  - exact (IH H Hin).
Qed.

Lemma find_first (f : string * V -> bool) (l1 l2 : list (string * V)) kv :
  (forall x, In x l1 -> f x = false) -> f kv = true ->
  find f (l1 ++ kv :: l2) = Some kv.
Proof.
  intros Hl1 Hkv. induction l1 as [|x l1 IH]; simpl.
  - rewrite Hkv. reflexivity.
  - rewrite (Hl1 x (or_introl eq_refl)). apply IH.
    intros y Hy. apply Hl1. right. exact Hy.
Qed.

Lemma find_all_false (f : string * V -> bool) (l : list (string * V)) :
  (forall x, In x l -> f x = false) -> find f l = None.
Proof.
  induction l as [|x l IH]; simpl; intros H; [reflexivity|].
  rewrite (H x (or_introl eq_refl)). apply IH. intros y Hy. apply H. right. exact Hy.
Qed.

End MapFacts.

(* ===================================================================== *)
(** * The trial cache                                                     *)
(* ===================================================================== *)

Section CacheFacts.
Implicit Types (c : TrialCache) (t : SCRITrial) (zip : option string).

Lemma get_cacheTrial k zip c t :
  JsMap.get k (cacheTrial zip c t)
  = if writesKey k t then Some (mkEntry t zip) else JsMap.get k c.
Proof.
  unfold cacheTrial, writesKey.
  destruct (truthy (studyName t)) eqn:Hname; simpl.
  - destruct (toUpperCase (studyName t) =? k) eqn:Eu.
    + apply String.eqb_eq in Eu. subst k. rewrite orb_true_r. apply get_set_eq.
    + rewrite orb_false_r. rewrite get_set_neq.
      * destruct (studyId t =? k) eqn:Ei.
        -- apply String.eqb_eq in Ei. subst k. apply get_set_eq.
        -- apply get_set_neq. intros ->. rewrite String.eqb_refl in Ei. discriminate.
      * intros ->. rewrite String.eqb_refl in Eu. discriminate.
  - rewrite orb_false_r. destruct (studyId t =? k) eqn:Ei.
    + apply String.eqb_eq in Ei. subst k. apply get_set_eq.
    + apply get_set_neq. intros ->. rewrite String.eqb_refl in Ei. discriminate.
Qed.

(** After a batch, a key holds the last record of the batch that wrote it,
    with the postal code of the batch; other keys are untouched. *)
Lemma get_cacheTrials k zip trials c :
  JsMap.get k (cacheTrials trials zip c)
  = match lastWriter k trials with
    | Some t => Some (mkEntry t zip)
    | None => JsMap.get k c
    end.
Proof.
  unfold cacheTrials, lastWriter.
  induction trials as [|t trials IH] using rev_ind; simpl; [reflexivity|].
  rewrite fold_left_app, rev_app_distr. simpl.
  rewrite get_cacheTrial. destruct (writesKey k t); [reflexivity | exact IH].
Qed.

Lemma lastWriter_In k trials t :
  lastWriter k trials = Some t -> In t trials /\ writesKey k t = true.
Proof.
  unfold lastWriter. intros H. apply find_some in H. destruct H as [Hin Hw].
  split; [apply in_rev; exact Hin | exact Hw].
Qed.

Lemma writesKey_id t : writesKey (studyId t) t = true.
Proof. unfold writesKey. rewrite String.eqb_refl. reflexivity. Qed.

Lemma writesKey_name t :
  studyName t <> ""%string -> writesKey (toUpperCase (studyName t)) t = true.
Proof.
  intros H. unfold writesKey. apply truthy_true in H. rewrite H.
  rewrite String.eqb_refl. apply orb_true_r.
Qed.

(** Every record of a batch has written both of its keys. *)
Lemma lastWriter_exists k trials t :
  In t trials -> writesKey k t = true -> exists t', lastWriter k trials = Some t'.
Proof.
  intros Hin Hw. unfold lastWriter.
  destruct (find (writesKey k) (rev trials)) as [t'|] eqn:E; [eauto|].
  apply in_rev in Hin. rewrite (find_none _ _ E _ Hin) in Hw. discriminate Hw.
Qed.

(** ** The three stages of the lookup *)

Lemma getCachedTrial_exact q c e :
  JsMap.get q c = Some e -> getCachedTrial q c = Some e.
Proof. unfold getCachedTrial. intros ->. reflexivity. Qed.

Lemma getCachedTrial_upper q c e :
  JsMap.get q c = None -> JsMap.get (toUpperCase q) c = Some e ->
  getCachedTrial q c = Some e.
Proof. unfold getCachedTrial. intros -> ->. reflexivity. Qed.

Lemma getCachedTrial_scan q c l1 k e l2 :
  JsMap.get q c = None -> JsMap.get (toUpperCase q) c = None ->
  c = l1 ++ (k, e) :: l2 ->
  (forall kv, In kv l1 -> partial_match q (fst kv) = false) ->
  partial_match q k = true ->
  getCachedTrial q c = Some e.
Proof.
  unfold getCachedTrial. intros -> -> -> Hl1 Hk.
  rewrite (@find_first _ (fun kv => partial_match q (fst kv)) l1 l2 (k, e) Hl1 Hk).
  reflexivity.
Qed.

Lemma getCachedTrial_Some_matches q c e :
  getCachedTrial q c = Some e ->
  exists k, In (k, e) c /\ keyMatches q k = true.
Proof.
  unfold getCachedTrial, keyMatches.
  destruct (JsMap.get q c) as [e1|] eqn:E1.
  - intros [= ->]. exists q. split; [apply get_Some_In; exact E1|].
    rewrite String.eqb_refl. reflexivity.
  - destruct (JsMap.get (toUpperCase q) c) as [e2|] eqn:E2.
    + intros [= ->]. exists (toUpperCase q). split; [apply get_Some_In; exact E2|].
      unfold partial_match. rewrite includes_refl. apply orb_true_r.
    + destruct (find _ c) as [[k e3]|] eqn:E3; [|discriminate].
      intros [= ->]. apply find_some in E3. destruct E3 as [Hin Hm].
      exists k. split; [exact Hin|]. simpl in Hm. rewrite Hm. apply orb_true_r.
Qed.

Lemma getCachedTrial_None_iff q c :
  getCachedTrial q c = None <->
  forall k e, In (k, e) c -> keyMatches q k = false.
Proof.
  split.
  - unfold getCachedTrial, keyMatches.
    destruct (JsMap.get q c) as [e1|] eqn:E1; [discriminate|].
    destruct (JsMap.get (toUpperCase q) c) as [e2|] eqn:E2; [discriminate|].
    destruct (find _ c) as [kv|] eqn:E3; [discriminate|].
    intros _ k e Hin. apply orb_false_iff. split.
    + apply String.eqb_neq. intros ->. exact (@get_None_In _ _ _ _ E1 Hin).
    + exact (find_none _ _ E3 _ Hin).
  - intros H. destruct (getCachedTrial q c) as [e|] eqn:E; [|reflexivity].
    apply getCachedTrial_Some_matches in E. destruct E as [k [Hin Hm]].
    rewrite (H k e Hin) in Hm. discriminate Hm.
Qed.

End CacheFacts.

(** C4 (amended).  A record with id [I] and non-empty name [N] of a search
    batch, which is the last record of the batch to write the keys [I] and
    [N.toUpperCase()], is returned by [get(I)] and by [get(N.toUpperCase())],
    with the postal code of the search.  A query that is a part of [N], or
    whose uppercased form contains the uppercased [N] or the id as it is
    stored, resolves to some cached record, the one under a matching key;
    so does every query that contains the id when the id has no lower-case
    letter (only the query is uppercased, not the stored id).  A part of
    [N] resolves to that very record when every matching key holds it.
    The lookup tries the exact key, then the
    uppercased key, then the first key in insertion order that contains the
    uppercased query or is contained in it, and it is absent exactly when no
    key matches. *)
Theorem cache_aliasing (trials : list SCRITrial) (zip : option string)
  (c0 : TrialCache) (t : SCRITrial) :
  lastWriter (studyId t) trials = Some t ->
  studyName t <> ""%string ->
  lastWriter (toUpperCase (studyName t)) trials = Some t ->
  let c := cacheTrials trials zip c0 in
  let entry := mkEntry t zip in
  getCachedTrial (studyId t) c = Some entry
  /\ getCachedTrial (toUpperCase (studyName t)) c = Some entry
  /\ (forall q,
         includes (studyName t) q = true
         \/ includes (toUpperCase q) (toUpperCase (studyName t)) = true
         \/ includes (toUpperCase q) (studyId t) = true
         \/ (toUpperCase (studyId t) = studyId t
             /\ includes q (studyId t) = true) ->
         exists e k, getCachedTrial q c = Some e
                     /\ In (k, e) c /\ keyMatches q k = true)
  /\ (forall q,
         includes (studyName t) q = true ->
         (forall k e, In (k, e) c -> keyMatches q k = true -> e = entry) ->
         getCachedTrial q c = Some entry)
  /\ (forall q e, JsMap.get q c = Some e -> getCachedTrial q c = Some e)
  /\ (forall q e,
         JsMap.get q c = None -> JsMap.get (toUpperCase q) c = Some e ->
         getCachedTrial q c = Some e)
  /\ (forall q l1 k e l2,
         JsMap.get q c = None -> JsMap.get (toUpperCase q) c = None ->
         c = l1 ++ (k, e) :: l2 ->
         (forall kv, In kv l1 -> partial_match q (fst kv) = false) ->
         partial_match q k = true ->
         getCachedTrial q c = Some e)
  /\ (forall q,
         getCachedTrial q c = None <->
         forall k e, In (k, e) c -> keyMatches q k = false).
Proof.
  intros Hid Hname Hupper c entry.
  assert (Gid : JsMap.get (studyId t) c = Some entry).
  { unfold c. rewrite get_cacheTrials, Hid. reflexivity. }
  assert (Gup : JsMap.get (toUpperCase (studyName t)) c = Some entry).
  { unfold c. rewrite get_cacheTrials, Hupper. reflexivity. }
  assert (Hfound : forall q,
             includes (studyName t) q = true
             \/ includes (toUpperCase q) (toUpperCase (studyName t)) = true
             \/ includes (toUpperCase q) (studyId t) = true
             \/ (toUpperCase (studyId t) = studyId t
                 /\ includes q (studyId t) = true) ->
             exists e k, getCachedTrial q c = Some e
                         /\ In (k, e) c /\ keyMatches q k = true).
  { intros q Hq.
    assert (Hq' : includes (studyName t) q = true
                  \/ includes (toUpperCase q) (toUpperCase (studyName t)) = true
                  \/ includes (toUpperCase q) (studyId t) = true).
    { destruct Hq as [Hq | [Hq | [Hq | [Hup Hq]]]]; auto.
      right. right. rewrite <- Hup. apply includes_toUpperCase. exact Hq. }
    clear Hq. rename Hq' into Hq.
    assert (Hkey : exists k e, In (k, e) c /\ keyMatches q k = true).
    { unfold keyMatches, partial_match.
      destruct Hq as [Hq | [Hq | Hq]].
      - exists (toUpperCase (studyName t)), entry.
        split; [apply get_Some_In; exact Gup|].
        rewrite (includes_toUpperCase _ _ Hq). rewrite orb_true_l. apply orb_true_r.
      - exists (toUpperCase (studyName t)), entry.
        split; [apply get_Some_In; exact Gup|].
        rewrite Hq. rewrite !orb_true_r. reflexivity.
      - exists (studyId t), entry.
        split; [apply get_Some_In; exact Gid|].
        rewrite Hq. rewrite !orb_true_r. reflexivity. }
    destruct Hkey as [k [e [Hin Hm]]].
    destruct (getCachedTrial q c) as [e'|] eqn:E.
    - destruct (getCachedTrial_Some_matches _ _ E) as [k' [Hin' Hm']].
      exists e', k'. auto.
    - rewrite getCachedTrial_None_iff in E. rewrite (E k e Hin) in Hm. discriminate Hm. }
  repeat split.
  - apply getCachedTrial_exact. exact Gid.
  - destruct (JsMap.get (toUpperCase (studyName t)) c) eqn:E; [|discriminate Gup].
    apply getCachedTrial_exact. rewrite E. exact Gup.
  - exact Hfound.
  - intros q Hq Hall.
    destruct (Hfound q (or_introl Hq)) as [e [k [Hget [Hin Hm]]]].
    rewrite Hget. f_equal. exact (Hall k e Hin Hm).
  - intros q e. apply getCachedTrial_exact.
  - intros q e. apply getCachedTrial_upper.
  - intros q l1 k e l2. apply getCachedTrial_scan.
  - apply getCachedTrial_None_iff.
  - apply getCachedTrial_None_iff.
Qed.

(** The amended C4 on the search result [trialA] cached alone under ZIP
    37203: its id, its uppercased name and the part [E-430] of its name
    all resolve to it. *)
Lemma cache_aliasing_witness :
  getCachedTrial "A1" (cacheTrials [Demo.trialA] (Some "37203") JsMap.empty)
  = Some (mkEntry Demo.trialA (Some "37203"))
  /\ getCachedTrial "BRE-430-001" (cacheTrials [Demo.trialA] (Some "37203") JsMap.empty)
     = Some (mkEntry Demo.trialA (Some "37203"))
  /\ getCachedTrial "E-430" (cacheTrials [Demo.trialA] (Some "37203") JsMap.empty)
     = Some (mkEntry Demo.trialA (Some "37203")).
Proof.
  destruct (@cache_aliasing [Demo.trialA] (Some "37203") JsMap.empty Demo.trialA)
    as (H1 & H2 & _ & H4 & _).
  - reflexivity.
  - discriminate.
  - reflexivity.
  - split; [exact H1 | split; [exact H2|]].
    apply (H4 "E-430"%string).
    + reflexivity.
    + intros k e Hin _. simpl in Hin.
      destruct Hin as [Hin | [Hin | []]]; inversion Hin; reflexivity.
Defined.

(** C4 as stated fails.  With two results named BRE-430-001 and
    BRE-430-002, the part [BRE-430] of the second name resolves to the
    first record (first hit wins); with two results whose uppercased
    names coincide, the id of the first and its uppercased name return
    different records; and with a record whose id [a1b2] has lower-case
    letters, a query that contains the id is not resolved at all. *)
Lemma cache_aliasing_counterexample :
  (In Demo.trialB [Demo.trialA; Demo.trialB]
   /\ includes (studyName Demo.trialB) "BRE-430" = true
   /\ getCachedTrial "BRE-430"
        (cacheTrials [Demo.trialA; Demo.trialB] (Some "37203") JsMap.empty)
      = Some (mkEntry Demo.trialA (Some "37203"))
   /\ mkEntry Demo.trialA (Some "37203") <> mkEntry Demo.trialB (Some "37203"))
  /\ (getCachedTrial (studyId Demo.twinA)
        (cacheTrials [Demo.twinA; Demo.twinB] None JsMap.empty)
      = Some (mkEntry Demo.twinA None)
      /\ getCachedTrial (toUpperCase (studyName Demo.twinA))
           (cacheTrials [Demo.twinA; Demo.twinB] None JsMap.empty)
         = Some (mkEntry Demo.twinB None)
      /\ mkEntry Demo.twinA None <> mkEntry Demo.twinB None)
  /\ (includes "study a1b2 please" "a1b2" = true
      /\ getCachedTrial "study a1b2 please"
           (cacheTrials [mkTrial "a1b2" "" "Lower-case id" "" [] [] [] []]
              None JsMap.empty)
         = None).
Proof.
  repeat split; try reflexivity; try discriminate.
  simpl. tauto.
Qed.

(** C9 (amended).  On a non-empty cache the lookup of the empty study id
    never answers not-found: it returns the entry stored under the empty
    key when there is one, and the first cached entry otherwise; and
    [get_study_details] with [studyId: ''] answers from the cache with the
    summary of that entry, leaving the state as it was. *)
Theorem empty_query_resolves (env : Env) (k : string) (e : CacheEntry)
  (c : TrialCache) (calls : nat) (log : list CTGov.HttpRequest)
  (ct zc nc cnd loc : option string) (d : option nat) :
  getCachedTrial "" ((k, e) :: c)
  = Some (match JsMap.get "" ((k, e) :: c) with
          | Some stored => stored
          | None => e
          end)
  /\ executeTool env "get_study_details"
       (Some (mkArgs ct zc (Some "") nc cnd loc d))
       (mkToolState ((k, e) :: c) calls log)
     = (Ok (StudyDetails "cache"
              (toTrialSummary (geo env)
                 (trial (match JsMap.get "" ((k, e) :: c) with
                         | Some stored => stored
                         | None => e
                         end))
                 (userZipCode (match JsMap.get "" ((k, e) :: c) with
                               | Some stored => stored
                               | None => e
                               end)))),
        mkToolState ((k, e) :: c) calls log).
Proof.
  assert (H : getCachedTrial "" ((k, e) :: c)
              = Some (match JsMap.get "" ((k, e) :: c) with
                      | Some stored => stored
                      | None => e
                      end)).
  { unfold getCachedTrial. change (toUpperCase "") with ""%string.
    destruct (JsMap.get "" ((k, e) :: c)) as [stored|]; [reflexivity|].
    simpl find. unfold partial_match. simpl toUpperCase.
    rewrite includes_empty. reflexivity. }
  split; [exact H|].
  change (executeTool env "get_study_details") with (get_study_details env).
  unfold get_study_details.
  cbn [bind arg ret requireString gets a_studyId trialCache].
  rewrite H. reflexivity.
Qed.

(** C9 as stated fails: after a search that returned [trialA] and then a
    record whose id is the empty string, the empty query returns that
    record, which is not the first cached entry. *)
Lemma empty_query_counterexample :
  hd_error (cacheTrials [Demo.trialA; Demo.noId] None JsMap.empty)
  = Some ("A1"%string, mkEntry Demo.trialA None)
  /\ getCachedTrial "" (cacheTrials [Demo.trialA; Demo.noId] None JsMap.empty)
     = Some (mkEntry Demo.noId None)
  /\ mkEntry Demo.noId None <> mkEntry Demo.trialA None.
Proof.
  repeat split; try reflexivity; discriminate.
Qed.

(* ===================================================================== *)
(** * The result projector                                                *)
(* ===================================================================== *)

Section ProjectorFacts.
Variable A : Type.
Variable cmp : A -> A -> comparison.

Lemma insert_not_nil (x : A) (l : list A) : JsArray.insert cmp x l <> [].
Proof. destruct l as [|y l]; simpl; [discriminate|]. destruct (cmp x y); discriminate. Qed.

Lemma insert_length (x : A) (l : list A) :
  length (JsArray.insert cmp x l) = S (length l).
Proof.
  induction l as [|y l IH]; simpl; [reflexivity|].
  destruct (cmp x y); simpl; try reflexivity. rewrite IH. reflexivity.
Qed.

Lemma sort_length (l : list A) : length (JsArray.sort cmp l) = length l.
Proof.
  induction l as [|x l IH]; simpl; [reflexivity|].
  rewrite insert_length, IH. reflexivity.
Qed.

Lemma sort_In (x : A) (l : list A) : In x (JsArray.sort cmp l) <-> In x l.
Proof.
  assert (Hins : forall y l', In x (JsArray.insert cmp y l') <-> x = y \/ In x l').
  { intros y l'. induction l' as [|z l' IH]; simpl.
    - intuition congruence.
    - destruct (cmp y z); simpl; rewrite ?IH; intuition congruence. }
  induction l as [|y l IH]; simpl; [tauto|].
  rewrite Hins, IH. intuition congruence.
Qed.
End ProjectorFacts.

Lemma locationsOf_nil (t : SCRITrial) :
  locationsOf t = [] <-> officeList t = [] /\ siteList t = [].
Proof.
  unfold locationsOf. destruct (officeList t) as [|o os].
  - intuition.
  - split; [discriminate | intros [H _]; discriminate H].
Qed.

(** C10.  [toTrialSummary] is defined on every record and postal code.  A
    record with no office and no site gets [locationCount] 0, an empty
    [allLocations] and no [closestLocation]; and [closestLocation] is
    present exactly when the record has at least one location. *)
Theorem toTrialSummary_closest (g : Geo) (t : SCRITrial) (zip : option string) :
  locationCount (toTrialSummary g t zip) = length (locationsOf t)
  /\ (officeList t = [] /\ siteList t = [] ->
      locationCount (toTrialSummary g t zip) = 0
      /\ allLocations (toTrialSummary g t zip) = []
      /\ closestLocation (toTrialSummary g t zip) = None)
  /\ (closestLocation (toTrialSummary g t zip) <> None
      <-> officeList t <> [] \/ siteList t <> []).
Proof.
  split; [reflexivity|]. split.
  - intros H. apply locationsOf_nil in H.
    unfold toTrialSummary. simpl. rewrite H. simpl. auto.
  - unfold toTrialSummary. simpl.
    destruct (locationsOf t) as [|l ls] eqn:E.
    + simpl. apply locationsOf_nil in E. destruct E as [-> ->]. split.
      * intros H. exfalso. apply H. reflexivity.
      * intros [H | H]; exfalso; apply H; reflexivity.
    + split.
      * intros _. destruct (officeList t) eqn:Eo.
        -- right. unfold locationsOf in E. rewrite Eo in E. rewrite E. discriminate.
        -- left. discriminate.
      * intros _.
        destruct (JsArray.sort cmpInfinity
                    (filter hasDistance (map (withDistance g (userCoordsOf g zip)) (l :: ls))));
          simpl; discriminate.
Qed.

(* ===================================================================== *)
(** * The order of the slim projection                                    *)
(* ===================================================================== *)

Lemma firstn_subset (A : Type) (n : nat) (l : list A) (x : A) :
  In x (firstn n l) -> In x l.
Proof.
  revert l. induction n as [|n IH]; intros [|y l]; simpl; try tauto.
  intros [-> | H]; [left; reflexivity | right; exact (IH l H)].
Qed.

Section SortFacts.
Variable A : Type.
Variable key : A -> nat.

Let byKey (a b : A) : comparison := Nat.compare (key a) (key b).
Let leKey (a b : A) : Prop := key a <= key b.

Lemma insert_In (x y : A) (l : list A) :
  In x (JsArray.insert byKey y l) <-> x = y \/ In x l.
Proof.
  induction l as [|z l IH]; simpl.
  - intuition congruence.
  - destruct (byKey y z); simpl; rewrite ?IH; intuition congruence.
Qed.

Lemma insert_sorted (x : A) (l : list A) :
  StronglySorted leKey l -> StronglySorted leKey (JsArray.insert byKey x l).
Proof.
  induction 1 as [|y l Hs IH Hall]; simpl.
  - constructor; constructor.
  - unfold byKey at 1. destruct (Nat.compare_spec (key x) (key y)) as [E | E | E].
    + constructor; [constructor; assumption|].
      constructor; [unfold leKey; lia|].
      eapply Forall_impl; [|exact Hall]. unfold leKey. intros z Hz. lia.
    + constructor; [constructor; assumption|].
      constructor; [unfold leKey; lia|].
      eapply Forall_impl; [|exact Hall]. unfold leKey. intros z Hz. lia.
    + constructor; [exact IH|].
      apply Forall_forall. intros z Hz. apply insert_In in Hz.
      destruct Hz as [-> | Hz]; [unfold leKey; lia|].
      rewrite Forall_forall in Hall. exact (Hall z Hz).
Qed.

(** The sort by a numeric key returns its input ordered by that key. *)
Lemma sort_sorted (l : list A) : StronglySorted leKey (JsArray.sort byKey l).
Proof.
  induction l as [|x l IH]; simpl; [constructor | apply insert_sorted; exact IH].
Qed.

Lemma firstn_sorted (n : nat) (l : list A) :
  StronglySorted leKey l -> StronglySorted leKey (firstn n l).
Proof.
  intros Hs. revert n. induction Hs as [|y l Hs IH Hall]; intros [|n]; simpl;
    try constructor.
  - apply IH.
  - apply Forall_forall. intros z Hz. rewrite Forall_forall in Hall.
    apply Hall. eapply firstn_subset; exact Hz.
Qed.

Lemma sorted_map_key (l : list A) :
  StronglySorted leKey l -> StronglySorted le (map key l).
Proof.
  induction 1 as [|y l Hs IH Hall]; simpl; constructor; [exact IH|].
  apply Forall_forall. intros k Hk. apply in_map_iff in Hk.
  destruct Hk as [z [<- Hz]]. rewrite Forall_forall in Hall. exact (Hall z Hz).
Qed.
End SortFacts.

Lemma sorted_nonDecreasing (l : list nat) :
  StronglySorted le l -> nonDecreasing l = true.
Proof.
  induction 1 as [|x l Hs IH Hall]; [reflexivity|].
  destruct l as [|y l]; [reflexivity|].
  change (((x <=? y)%nat && nonDecreasing (y :: l)) = true).
  rewrite IH, andb_true_r. apply Nat.leb_le.
  rewrite Forall_forall in Hall. apply Hall. left. reflexivity.
Qed.

Lemma resolved_app (l1 l2 : list (option nat)) :
  resolved (l1 ++ l2) = resolved l1 ++ resolved l2.
Proof.
  induction l1 as [|[d|] l1 IH]; simpl; rewrite ?IH; reflexivity.
Qed.

Lemma resolved_undefined (l : list TrialSearchResult) :
  (forall r, In r l -> distanceDefined r = false) -> resolved (distances l) = [].
Proof.
  induction l as [|r l IH]; simpl; intros H; [reflexivity|].
  assert (Hr := H r (or_introl eq_refl)). unfold distanceDefined in Hr.
  destruct (distance r); [discriminate Hr|]. apply IH. intros r' Hr'. apply H. right. exact Hr'.
Qed.

Lemma resolved_positive (l : list TrialSearchResult) :
  (forall r, In r l -> exists n, distance r = Some (S n)) ->
  resolved (distances l) = map (fun r => or999 (distance r)) l.
Proof.
  induction l as [|r l IH]; simpl; intros H; [reflexivity|].
  destruct (H r (or_introl eq_refl)) as [n Hn]. rewrite Hn. simpl.
  f_equal. apply IH. intros r' Hr'. apply H. right. exact Hr'.
Qed.

Lemma unresolvedLast_app (l1 l2 : list TrialSearchResult) :
  (forall r, In r l1 -> distanceDefined r = true) ->
  (forall r, In r l2 -> distanceDefined r = false) ->
  unresolvedLast (distances (l1 ++ l2)) = true.
Proof.
  intros H1 H2. induction l1 as [|r l1 IH]; simpl.
  - clear H1. induction l2 as [|r l2 IH2]; simpl; [reflexivity|].
    assert (Hr := H2 r (or_introl eq_refl)). unfold distanceDefined in Hr.
    destruct (distance r) eqn:E; [discriminate Hr|].
    assert (Hrest : unresolvedLast (distances l2) = true).
    { apply IH2. intros r' Hr'. apply H2. right. exact Hr'. }
    clear IH2 Hr E. apply forallb_forall. intros d Hd.
    unfold distances in Hd. apply in_map_iff in Hd. destruct Hd as [r' [<- Hr']].
    assert (Hd := H2 r' (or_intror Hr')). unfold distanceDefined in Hd.
    destruct (distance r'); [discriminate Hd | reflexivity].
  - assert (Hr := H1 r (or_introl eq_refl)). unfold distanceDefined in Hr.
    destruct (distance r); [|discriminate Hr].
    apply IH. intros r' Hr'. apply H1. right. exact Hr'.
Qed.

(** What of C3 holds on every input: at most 20 entries are returned, and
    with a postal code the entries without a distance follow all the
    entries with one. *)
Lemma sortedResults_cap (zipCode : option string) (slim : list TrialSearchResult) :
  length (sortedResults zipCode slim) <= 20.
Proof.
  unfold sortedResults, JsArray.slice0.
  destruct zipCode as [z|]; [destruct (truthy z)|]; try apply firstn_le_length.
  destruct (length (firstn 20 _) <? 20)%nat eqn:E; [|apply firstn_le_length].
  apply Nat.ltb_lt in E. rewrite length_app.
  pose proof (firstn_le_length
                (20 - length (firstn 20 (JsArray.sort cmp999 (filter distanceDefined slim))))
                (filter (fun r => negb (distanceDefined r)) slim)).
  lia.
Qed.

Lemma sortedResults_unresolved_last (z : string) (slim : list TrialSearchResult) :
  truthy z = true ->
  unresolvedLast (distances (sortedResults (Some z) slim)) = true.
Proof.
  intros Hz. unfold sortedResults, JsArray.slice0. rewrite Hz.
  assert (Hdef : forall r,
             In r (firstn 20 (JsArray.sort cmp999 (filter distanceDefined slim))) ->
             distanceDefined r = true).
  { intros r Hr. apply firstn_subset in Hr.
    apply (proj1 (@sort_In _ cmp999 r _)) in Hr. apply filter_In in Hr. tauto. }
  destruct (length (firstn 20 _) <? 20)%nat.
  - apply unresolvedLast_app; [exact Hdef|].
    intros r Hr. apply firstn_subset in Hr. apply filter_In in Hr.
    destruct Hr as [_ Hr]. apply negb_true_iff. exact Hr.
  - rewrite <- (app_nil_r (firstn 20 _)).
    apply unresolvedLast_app; [exact Hdef | intros r []].
Qed.

(** The order by distance holds as long as no entry is at distance [0]. *)
Lemma sortedResults_ordered_without_zero (z : string) (slim : list TrialSearchResult) :
  truthy z = true ->
  (forall r, In r slim -> distance r <> Some 0) ->
  nonDecreasing (resolved (distances (sortedResults (Some z) slim))) = true.
Proof.
  intros Hz Hpos. unfold sortedResults, JsArray.slice0. rewrite Hz.
  set (sorted := firstn 20 (JsArray.sort cmp999 (filter distanceDefined slim))).
  assert (Hsorted : nonDecreasing (resolved (distances sorted)) = true).
  { rewrite resolved_positive.
    - apply sorted_nonDecreasing.
      apply (sorted_map_key (fun r => or999 (distance r))).
      apply firstn_sorted. apply (sort_sorted (fun r => or999 (distance r))).
    - intros r Hr. unfold sorted in Hr. apply firstn_subset in Hr.
      apply (proj1 (@sort_In _ cmp999 r _)) in Hr. apply filter_In in Hr. destruct Hr as [Hin Hd].
      unfold distanceDefined in Hd. specialize (Hpos r Hin).
      destruct (distance r) as [[|n]|]; [congruence | eauto | discriminate Hd]. }
  destruct (length sorted <? 20)%nat; [|exact Hsorted].
  unfold distances. rewrite map_app, resolved_app.
  fold (distances sorted).
  rewrite (@resolved_undefined (firstn _ _)), app_nil_r; [exact Hsorted|].
  intros r Hr. apply firstn_subset in Hr. apply filter_In in Hr.
  destruct Hr as [_ Hr]. apply negb_true_iff. exact Hr.
Qed.

(** The slip behind C3: [a.distance || 999] reads the distance [0] as
    missing, so an entry at distance [0] is sorted as if it were 999 miles
    away, behind every entry nearer than that. *)
Lemma sortedResults_zero_misplaced (z : string) (near far : TrialSearchResult)
  (d : nat) :
  truthy z = true -> distance near = Some 0 -> distance far = Some d ->
  0 < d < 999 ->
  distances (sortedResults (Some z) [near; far]) = [Some d; Some 0].
Proof.
  intros Hz Hnear Hfar Hd. unfold sortedResults, JsArray.slice0. rewrite Hz.
  unfold distanceDefined. simpl filter. rewrite Hnear, Hfar. simpl.
  unfold cmp999. rewrite Hnear, Hfar.
  destruct d as [|d]; [lia|]. simpl or999.
  destruct (Nat.compare_spec 999 (S d)) as [E | E | E]; try lia.
  simpl. rewrite Hfar, Hnear. reflexivity.
Qed.

(** C3 on the code.  A search near ZIP 37203 whose results are a trial with
    a site at the coordinates of the ZIP (distance 0) and a trial five
    miles away returns the farther trial first: the returned distances are
    5 then 0, which is not non-decreasing. *)
Theorem search_trials_distance_order_bug :
  exists msg found st',
    executeTool (Demo.demoEnv [Demo.trialA; Demo.trialB] Demo.silentModel)
      "search_trials" (Some (Demo.searchArgs (Some "37203"))) Demo.emptyTools
    = (Ok (SearchTrialsResult (Some "Breast") "37203" 2 2 msg found), st')
    /\ distances (map (slimResult Demo.demoGeo (userCoordsOf Demo.demoGeo (Some "37203")))
                    [Demo.trialA; Demo.trialB])
       = [Some 0; Some 5]
    /\ distances found = [Some 5; Some 0]
    /\ nonDecreasing (resolved (distances found)) = false.
Proof.
  do 3 eexists. split; [reflexivity|]. repeat split.
Qed.

(* ===================================================================== *)
(** * The search tool and the cache                                       *)
(* ===================================================================== *)

Lemma executeTool_search_trials (env : Env) (args : ToolArgs) (st : ToolState)
  (data : SCRISearchData) :
  scri_searchTrials env (scriCalls st) (js_String (a_cancerType args)) 1 = Ok data ->
  exists result,
    executeTool env "search_trials" (Some args) st
    = (Ok result,
       mkToolState
         (cacheTrials (searchResultsData data) (a_zipCode args) (trialCache st))
         (S (scriCalls st)) (httpLog st)).
Proof.
  intros Hdata.
  change (executeTool env "search_trials") with (search_trials env).
  unfold search_trials, searchTrials, scri_call, setCache.
  cbn [bind arg ret modify]. rewrite Hdata.
  cbn [trialCache scriCalls httpLog]. eexists. reflexivity.
Qed.

(** What a search caches.  A search whose upstream fetch returned [data]
    leaves in the cache, for every record of [data], an entry under the id
    and, when the name is not empty, under the uppercased name; every such
    entry carries the postal code of the tool arguments, which is absent
    when the arguments have none: the patient profile is not read, and it
    is left as it was.  The entry under a key is the last record of [data]
    that wrote the key. *)
Theorem search_caches_supplied_zip (env : Env) (a : Agent) (args : ToolArgs)
  (data : SCRISearchData) :
  scri_searchTrials env (scriCalls (tools a)) (js_String (a_cancerType args)) 1
  = Ok data ->
  let a' := snd (agentExecuteTool env "search_trials" (Some args) a) in
  let cache := trialCache (tools a') in
  let zip := a_zipCode args in
  cache = cacheTrials (searchResultsData data) zip (trialCache (tools a))
  /\ patientProfile a' = patientProfile a
  /\ forall t, In t (searchResultsData data) ->
       (exists t', JsMap.get (studyId t) cache = Some (mkEntry t' zip)
                   /\ In t' (searchResultsData data)
                   /\ writesKey (studyId t) t' = true)
       /\ (studyName t <> ""%string ->
           exists t', JsMap.get (toUpperCase (studyName t)) cache = Some (mkEntry t' zip)
                      /\ In t' (searchResultsData data)
                      /\ writesKey (toUpperCase (studyName t)) t' = true)
       /\ (lastWriter (studyId t) (searchResultsData data) = Some t ->
           JsMap.get (studyId t) cache = Some (mkEntry t zip))
       /\ (studyName t <> ""%string ->
           lastWriter (toUpperCase (studyName t)) (searchResultsData data) = Some t ->
           JsMap.get (toUpperCase (studyName t)) cache = Some (mkEntry t zip)).
Proof.
  intros Hdata a' cache zip.
  destruct (executeTool_search_trials env args (tools a) Hdata) as [result Hrun].
  assert (Hcache : cache
                   = cacheTrials (searchResultsData data) zip (trialCache (tools a))).
  { unfold cache, a', agentExecuteTool. rewrite Hrun. reflexivity. }
  split; [exact Hcache|]. split.
  { unfold a', agentExecuteTool. rewrite Hrun. reflexivity. }
  intros t Hin. rewrite Hcache. repeat split.
  - destruct (lastWriter_exists (studyId t) _ t Hin (writesKey_id t)) as [t' Ht'].
    exists t'. rewrite get_cacheTrials, Ht'.
    destruct (lastWriter_In _ _ Ht') as [Hin' Hw']. auto.
  - intros Hname.
    destruct (lastWriter_exists _ _ t Hin (writesKey_name t Hname)) as [t' Ht'].
    exists t'. rewrite get_cacheTrials, Ht'.
    destruct (lastWriter_In _ _ Ht') as [Hin' Hw']. auto.
  - intros Hlast. rewrite get_cacheTrials, Hlast. reflexivity.
  - intros _ Hlast. rewrite get_cacheTrials, Hlast. reflexivity.
Qed.

(** A search without postal code, run by an agent whose
    profile has ZIP 37203: the record is cached with no postal code. *)
Lemma search_caches_supplied_zip_witness :
  JsMap.get "A1"
    (trialCache (tools (snd (agentExecuteTool
                               (Demo.demoEnv [Demo.trialA] Demo.silentModel)
                               "search_trials" (Some (Demo.searchArgs None))
                               (Demo.freshAgent (Some Demo.nashvilleProfile))))))
  = Some (mkEntry Demo.trialA None).
Proof.
  destruct (@search_caches_supplied_zip
              (Demo.demoEnv [Demo.trialA] Demo.silentModel)
              (Demo.freshAgent (Some Demo.nashvilleProfile))
              (Demo.searchArgs None)
              (mkSearchData 1 [Demo.trialA]) eq_refl) as (_ & _ & H).
  destruct (H Demo.trialA (or_introl eq_refl)) as (_ & _ & Hid & _).
  exact (Hid eq_refl).
Defined.

(** The agent's profile has ZIP 37203, the tool arguments have no postal
    code, and the returned record is cached with no postal code, not with
    the ZIP of the profile. *)
Lemma search_profile_zip_counterexample :
  option_map pp_zipCode (patientProfile (Demo.freshAgent (Some Demo.nashvilleProfile)))
  = Some (Some "37203"%string)
  /\ a_zipCode (Demo.searchArgs None) = None
  /\ option_map userZipCode
       (JsMap.get "A1"
          (trialCache (tools (snd (agentExecuteTool
                                     (Demo.demoEnv [Demo.trialA] Demo.silentModel)
                                     "search_trials" (Some (Demo.searchArgs None))
                                     (Demo.freshAgent (Some Demo.nashvilleProfile)))))))
     = Some None
  /\ @None string <> Some "37203"%string.
Proof.
  repeat split; discriminate.
Qed.

(** C6 on the code.  [search_trials] caches every returned record with
    the postal code of the tool arguments alone: when the arguments have
    none (or an empty one) the entry carries none, whatever the profile,
    where [search_trials_nearby] of the command-line agent falls back to
    the postal code of the profile.  For an agent whose profile has ZIP
    37203 and a search without postal code that returns the trial [B2],
    the profile default is 37203, the cached entry has no postal code, and
    the details of [B2] then come from the cache without a distance, where
    the postal code of the profile gives five miles. *)
Theorem search_ignores_profile_zip_bug :
  (forall env a args data,
      scri_searchTrials env (scriCalls (tools a)) (js_String (a_cancerType args)) 1
      = Ok data ->
      isTruthyZip (a_zipCode args) = false ->
      forall t, In t (searchResultsData data) ->
        exists t',
          JsMap.get (studyId t)
            (trialCache (tools (snd (agentExecuteTool env "search_trials"
                                       (Some args) a))))
          = Some (mkEntry t' (a_zipCode args)))
  /\ profileDefaultZip (Demo.searchArgs None) (Some Demo.nashvilleProfile)
     = Some "37203"%string
  /\ option_map userZipCode
       (JsMap.get "B2"
          (trialCache (tools (snd (agentExecuteTool
                                     (Demo.demoEnv [Demo.trialB] Demo.silentModel)
                                     "search_trials" (Some (Demo.searchArgs None))
                                     (Demo.freshAgent (Some Demo.nashvilleProfile)))))))
     = Some None
  /\ fst (agentExecuteTool (Demo.demoEnv [Demo.trialB] Demo.silentModel)
            "get_study_details" (Some (Demo.detailArgs "B2"))
            (snd (agentExecuteTool
                    (Demo.demoEnv [Demo.trialB] Demo.silentModel)
                    "search_trials" (Some (Demo.searchArgs None))
                    (Demo.freshAgent (Some Demo.nashvilleProfile)))))
     = Ok (StudyDetails "cache" (toTrialSummary Demo.demoGeo Demo.trialB None))
  /\ option_map ls_distance
       (closestLocation (toTrialSummary Demo.demoGeo Demo.trialB None))
     = Some None
  /\ option_map ls_distance
       (closestLocation
          (toTrialSummary Demo.demoGeo Demo.trialB
             (profileDefaultZip (Demo.searchArgs None) (Some Demo.nashvilleProfile))))
     = Some (Some (Miles 5)).
Proof.
  split.
  - intros env a args data Hdata _ t Hin.
    destruct (@search_caches_supplied_zip env a args data Hdata) as (_ & _ & H).
    destruct (H t Hin) as ([t' (Hget & _)] & _). exists t'. exact Hget.
  - repeat split.
Qed.

(* ===================================================================== *)
(** * The registry client                                                 *)
(* ===================================================================== *)

Lemma fetchCTGovStudy_malformed (env : Env) (raw : string) (st : ToolState) :
  startsWith (trim (toUpperCase raw)) "NCT" = false ->
  fetchCTGovStudy env (Some raw) st = (Ok None, st).
Proof.
  intros H. unfold fetchCTGovStudy, tryCatch.
  cbn [bind requireString ret]. rewrite H. reflexivity.
Qed.

Lemma fetchCTGovStudy_not_found (env : Env) (raw : string) (st : ToolState)
  (r : CTGov.HttpResponse) :
  fetch env (length (httpLog st)) (CTGov.GetStudy (trim (toUpperCase raw)))
  = CTGov.FetchReturns r ->
  CTGov.ok r = false ->
  exists st', fetchCTGovStudy env (Some raw) st = (Ok None, st').
Proof.
  intros Hfetch Hok.
  destruct (startsWith (trim (toUpperCase raw)) "NCT") eqn:Hnct.
  - unfold fetchCTGovStudy. run_eff. rewrite Hnct. cbn [negb]. run_eff.
    rewrite Hfetch. run_eff. rewrite Hok. cbn [negb]. eexists. reflexivity.
  - exists st. apply fetchCTGovStudy_malformed. exact Hnct.
Qed.

(** C7.  An id that, uppercased and trimmed, does not start with NCT makes
    [fetchCTGovStudy] return [null] with the state, and so the log of
    requests, unchanged; and when the registry answers the request for the
    record with a status that is not ok, [get_trial_eligibility] returns
    the error payload and does not throw. *)
Theorem eligibility_lookup_failures (env : Env) :
  (forall raw st,
      startsWith (trim (toUpperCase raw)) "NCT" = false ->
      fetchCTGovStudy env (Some raw) st = (Ok None, st))
  /\ (forall ct zc sid raw cnd loc d st r,
         fetch env (length (httpLog st)) (CTGov.GetStudy (trim (toUpperCase raw)))
         = CTGov.FetchReturns r ->
         CTGov.ok r = false ->
         exists st',
           executeTool env "get_trial_eligibility"
             (Some (mkArgs ct zc sid (Some raw) cnd loc d)) st
           = (Ok (ErrorPayload ("Could not fetch study " ++ raw
                                ++ " from ClinicalTrials.gov")), st')).
Proof.
  split; [apply fetchCTGovStudy_malformed|].
  intros ct zc sid raw cnd loc d st r Hfetch Hok.
  destruct (fetchCTGovStudy_not_found env raw st Hfetch Hok) as [st' Hnone].
  exists st'.
  change (executeTool env "get_trial_eligibility") with (get_trial_eligibility env).
  unfold get_trial_eligibility. run_eff. cbn [a_nctId].
  rewrite Hnone. reflexivity.
Qed.

(** C7 on the scenario of the specification: the registry answers 404 for
    NCT00000000, and a malformed id is refused without any request. *)
Lemma eligibility_lookup_witness :
  (exists st',
      executeTool (Demo.demoEnv [] Demo.silentModel) "get_trial_eligibility"
        (Some (Demo.nctArgs "NCT00000000")) Demo.emptyTools
      = (Ok (ErrorPayload "Could not fetch study NCT00000000 from ClinicalTrials.gov"),
         st'))
  /\ fetchCTGovStudy (Demo.demoEnv [] Demo.silentModel) (Some " bre-430 ")
       Demo.emptyTools
     = (Ok None, Demo.emptyTools).
Proof.
  destruct (eligibility_lookup_failures (Demo.demoEnv [] Demo.silentModel))
    as [Hmalformed Hnotfound].
  split.
  - apply (Hnotfound None None None "NCT00000000"%string None None None
             Demo.emptyTools (CTGov.mkResponse 404 (Throw "no body")));
      reflexivity.
  - apply Hmalformed. reflexivity.
Defined.

(** A search that carries no usable location is sent once and never
    retried. *)
Lemma searchCTGov_without_geo (env : Env) (condition : string)
  (location : option string) (radius maxResults : nat) (st : ToolState) :
  hasGeo location = false ->
  searchCTGov env condition location radius maxResults st
  = (Ok (answerOf (fetch env (length (httpLog st))
                     (CTGov.GetStudies (searchParams condition location radius maxResults)))),
     mkToolState (trialCache st) (scriCalls st)
       (httpLog st
        ++ [CTGov.GetStudies (searchParams condition location radius maxResults)])).
Proof.
  intros Hgeo. rewrite searchCTGov_equation_1.
  unfold tryCatch, bind, http_fetch, answerOf.
  destruct (fetch env _ _) as [e | r]; [reflexivity|].
  destruct (CTGov.ok r); cbn [negb].
  - unfold lift, ret. destruct (CTGov.json r); reflexivity.
  - destruct (bool_dec _ true) as [Hretry | _]; [|reflexivity].
    rewrite Hgeo, andb_false_r in Hretry. discriminate Hretry.
Qed.

(** C8.  [searchCTGov] never throws and sends one request, or two.  It
    sends the second, which is the first without the geographic filter,
    exactly when the first carried a location and was answered 400; the
    answer to the second is final.  After any other failure (a transport
    error, another status that is not ok, a body that does not parse) the
    result is the empty list. *)
Theorem searchCTGov_retries_once (env : Env) (condition : string)
  (location : option string) (radius maxResults : nat) (st : ToolState) :
  let first := CTGov.GetStudies (searchParams condition location radius maxResults) in
  let second := CTGov.GetStudies (searchParams condition None radius maxResults) in
  let n := length (httpLog st) in
  let res := searchCTGov env condition location radius maxResults st in
  (exists l, fst res = Ok l)
  /\ (httpLog (snd res) = httpLog st ++ [first]
      \/ httpLog (snd res) = httpLog st ++ [first; second])
  /\ CTGov.filter_geo (searchParams condition None radius maxResults) = None
  /\ (forall r,
         fetch env n first = CTGov.FetchReturns r ->
         CTGov.status r = 400 -> hasGeo location = true ->
         httpLog (snd res) = httpLog st ++ [first; second]
         /\ fst res = Ok (answerOf (fetch env (S n) second)))
  /\ (forall r,
         fetch env n first = CTGov.FetchReturns r ->
         CTGov.status r <> 400 \/ hasGeo location = false ->
         httpLog (snd res) = httpLog st ++ [first]
         /\ fst res = Ok (answerOf (fetch env n first)))
  /\ (forall e,
         fetch env n first = CTGov.FetchThrows e ->
         httpLog (snd res) = httpLog st ++ [first] /\ fst res = Ok [])
  /\ (forall r,
         fetch env n first = CTGov.FetchReturns r -> CTGov.ok r = false ->
         CTGov.status r <> 400 \/ hasGeo location = false ->
         fst res = Ok [])
  /\ (forall r e,
         fetch env n first = CTGov.FetchReturns r -> CTGov.ok r = true ->
         CTGov.json r = Throw e ->
         fst res = Ok []).
Proof.
  intros first second n res.
  assert (Hsecond : forall st1,
             searchCTGov env condition None radius maxResults st1
             = (Ok (answerOf (fetch env (length (httpLog st1)) second)),
                mkToolState (trialCache st1) (scriCalls st1) (httpLog st1 ++ [second]))).
  { intros st1. apply searchCTGov_without_geo. reflexivity. }
  assert (Hone : forall r,
             fetch env n first = CTGov.FetchReturns r ->
             CTGov.status r <> 400 \/ hasGeo location = false ->
             res = (Ok (answerOf (fetch env n first)),
                    mkToolState (trialCache st) (scriCalls st) (httpLog st ++ [first]))).
  { intros r Hr Hno. unfold res. rewrite searchCTGov_equation_1.
    unfold tryCatch, bind, http_fetch, answerOf. fold first. fold n. rewrite Hr.
    destruct (CTGov.ok r); cbn [negb].
    - unfold lift, ret. destruct (CTGov.json r); reflexivity.
    - destruct (bool_dec _ true) as [Hretry | _]; [|reflexivity].
      apply andb_prop in Hretry. destruct Hretry as [H400 Hgeo].
      apply Nat.eqb_eq in H400. destruct Hno; congruence. }
  assert (Htwo : forall r,
             fetch env n first = CTGov.FetchReturns r ->
             CTGov.status r = 400 -> hasGeo location = true ->
             res = (Ok (answerOf (fetch env (S n) second)),
                    mkToolState (trialCache st) (scriCalls st)
                      (httpLog st ++ [first; second]))).
  { intros r Hr H400 Hgeo. unfold res. rewrite searchCTGov_equation_1.
    unfold tryCatch, bind, http_fetch. fold first. fold n. rewrite Hr.
    assert (Hok : CTGov.ok r = false).
    { unfold CTGov.ok. rewrite H400. reflexivity. }
    rewrite Hok. cbn [negb].
    destruct (bool_dec _ true) as [_ | Hno].
    - rewrite Hsecond. cbn [trialCache scriCalls httpLog].
      rewrite length_app, Nat.add_comm. cbn [length Nat.add].
      rewrite <- app_assoc. reflexivity.
    - exfalso. apply Hno. rewrite H400, Hgeo. reflexivity. }
  assert (Hthrow : forall e,
             fetch env n first = CTGov.FetchThrows e ->
             res = (Ok [], mkToolState (trialCache st) (scriCalls st)
                             (httpLog st ++ [first]))).
  { intros e He. unfold res. rewrite searchCTGov_equation_1.
    unfold tryCatch, bind, http_fetch. fold first. fold n. rewrite He. reflexivity. }
  assert (Hcases : (exists l, fst res = Ok l)
                   /\ (httpLog (snd res) = httpLog st ++ [first]
                       \/ httpLog (snd res) = httpLog st ++ [first; second])).
  { destruct (fetch env n first) as [e | r] eqn:Hfirst.
    - rewrite (Hthrow e eq_refl). split; [eexists; reflexivity | left; reflexivity].
    - destruct (Nat.eq_dec (CTGov.status r) 400) as [H400 | H400].
      + destruct (hasGeo location) eqn:Hgeo.
        * rewrite (Htwo r eq_refl H400 eq_refl).
          split; [eexists; reflexivity | right; reflexivity].
        * rewrite (Hone r eq_refl (or_intror eq_refl)).
          split; [eexists; reflexivity | left; reflexivity].
      + rewrite (Hone r eq_refl (or_introl H400)).
        split; [eexists; reflexivity | left; reflexivity]. }
  destruct Hcases as [Hok Hlog].
  split; [exact Hok|]. split; [exact Hlog|]. split; [reflexivity|].
  split; [|split; [|split; [|split]]].
  - intros r Hr H400 Hgeo. rewrite (Htwo r Hr H400 Hgeo). split; reflexivity.
  - intros r Hr Hno. rewrite (Hone r Hr Hno). split; reflexivity.
  - intros e He. rewrite (Hthrow e He). split; reflexivity.
  - intros r Hr Hnok Hno. rewrite (Hone r Hr Hno). cbn [fst].
    rewrite Hr. unfold answerOf. rewrite Hnok. reflexivity.
  - intros r e Hr Hisok Hjson.
    assert (Hno : CTGov.status r <> 400 \/ hasGeo location = false).
    { left. intros H400. unfold CTGov.ok in Hisok. rewrite H400 in Hisok.
      discriminate Hisok. }
    rewrite (Hone r Hr Hno). cbn [fst]. rewrite Hr. unfold answerOf.
    rewrite Hisok, Hjson. reflexivity.
Qed.

(** C8 against a registry that rejects every geographic filter with 400:
    a search near Nashville is sent twice, the second time without the
    filter, and returns the study found by the second request. *)
Lemma searchCTGov_retries_once_witness :
  httpLog (snd (searchCTGov (Demo.demoEnv [] Demo.silentModel) "breast"
                  (Some " Nashville, TN ") 100 10 Demo.emptyTools))
  = [CTGov.GetStudies (searchParams "breast" (Some " Nashville, TN ") 100 10);
     CTGov.GetStudies (searchParams "breast" None 100 10)]
  /\ fst (searchCTGov (Demo.demoEnv [] Demo.silentModel) "breast"
            (Some " Nashville, TN ") 100 10 Demo.emptyTools)
     = Ok [searchHit (Some Demo.aStudy)].
Proof.
  destruct (searchCTGov_retries_once (Demo.demoEnv [] Demo.silentModel) "breast"
              (Some " Nashville, TN "%string) 100 10 Demo.emptyTools)
    as (_ & _ & _ & Hretry & _).
  apply (Hretry (CTGov.mkResponse 400 (Throw "no body"))); reflexivity.
Defined.

(* ===================================================================== *)
(** * The orchestrator                                                    *)
(* ===================================================================== *)

Section BatchFacts.
Variable env : Env.

Lemma processCall_answer (outs : list FunctionCallOutput)
  (allTrials : list TrialSearchResult) (st : ToolState) (call : FunctionCall) :
  exists allTrials',
    processCall env (outs, allTrials, st) call
    = (outs ++ [answerFor env call st], allTrials', snd (runCall env call st)).
Proof.
  unfold processCall, answerFor.
  destruct (runCall env call st) as [[result | e] st']; eexists; reflexivity.
Qed.

Lemma fold_processCall (calls : list FunctionCall) :
  forall outs allTrials st,
  exists allTrials' st',
    fold_left (processCall env) calls (outs, allTrials, st)
    = (outs ++ answers env calls st, allTrials', st').
Proof.
  induction calls as [|call calls IH]; intros outs allTrials st;
    cbn [fold_left answers].
  - exists allTrials, st. rewrite app_nil_r. reflexivity.
  - destruct (processCall_answer outs allTrials st call) as [allTrials1 ->].
    destruct (IH (outs ++ [answerFor env call st]) allTrials1
                (snd (runCall env call st))) as [allTrials2 [st2 ->]].
    exists allTrials2, st2. rewrite <- app_assoc. reflexivity.
Qed.

(** The batch submitted for a list of calls holds one output per call. *)
Lemma processCalls_answers (calls : list FunctionCall)
  (allTrials : list TrialSearchResult) (st : ToolState) :
  fst (fst (processCalls env calls allTrials st)) = answers env calls st.
Proof.
  unfold processCalls.
  destruct (fold_processCall calls [] allTrials st) as [allTrials' [st' ->]].
  reflexivity.
Qed.

Lemma answerFor_call_id (call : FunctionCall) (st : ToolState) :
  out_call_id (answerFor env call st) = call_id call.
Proof. unfold answerFor. destruct (fst (runCall env call st)); reflexivity. Qed.

Lemma answers_call_ids (calls : list FunctionCall) (st : ToolState) :
  map out_call_id (answers env calls st) = map call_id calls.
Proof.
  revert st. induction calls as [|call calls IH]; intros st; simpl; [reflexivity|].
  rewrite answerFor_call_id, IH. reflexivity.
Qed.


Lemma runCall_tool_error (call : FunctionCall) (st st' : ToolState)
  (args : option ToolArgs) (e : string) :
  JSON_parse env (arguments call) = Ok args ->
  executeTool env (name call) args st = (Throw e, st') ->
  runCall env call st = (Throw e, st').
Proof. intros Hp Ht. unfold runCall. run_eff. rewrite Hp. exact Ht. Qed.

Lemma answerFor_error (call : FunctionCall) (st st' : ToolState) (e : string) :
  runCall env call st = (Throw e, st') ->
  answerFor env call st = mkOutput (call_id call) (ErrorPayload e).
Proof. intros H. unfold answerFor. rewrite H. reflexivity. Qed.

End BatchFacts.


Section LoopFacts.
Variable env : Env.

(** The log of the loop: it only grows, by at most [budget] calls, each
    of which continues from the response before it with one output per
    function call of that response; the loop ends on the last response
    received, or on the error of the endpoint. *)
Lemma toolLoop_log (budget : nat) :
  forall response allTrials a,
  exists entries,
    modelLog (snd (toolLoop env budget response allTrials a))
    = modelLog a ++ entries
    /\ toolTurns response entries
    /\ length entries <= budget
    /\ patientProfile (snd (toolLoop env budget response allTrials a))
       = patientProfile a
    /\ previousResponseId (snd (toolLoop env budget response allTrials a))
       = previousResponseId a
    /\ match fst (toolLoop env budget response allTrials a) with
       | Ok (final, _) => lastResponse response entries = Ok final
       | Throw e => lastResponse response entries = Throw e
       end.
Proof.
  induction budget as [|budget IH]; intros response allTrials a.
  - exists []. simpl. rewrite app_nil_r. auto 10.
  - assert (Hstop : exists entries,
               modelLog (snd (Ok (response, allTrials), a)) = modelLog a ++ entries
               /\ toolTurns response entries
               /\ length entries <= S budget
               /\ patientProfile (snd (Ok (response, allTrials), a)) = patientProfile a
               /\ previousResponseId (snd (Ok (response, allTrials), a))
                  = previousResponseId a
               /\ match fst (Ok (response, allTrials), a) with
                  | Ok (final, _) => lastResponse response entries = Ok final
                  | Throw e => lastResponse response entries = Throw e
                  end).
    { exists []. simpl. rewrite app_nil_r. repeat split; auto. lia. }
    simpl toolLoop.
    destruct (response_status response); try exact Hstop.
    destruct (output response) as [out|] eqn:Hout; try exact Hstop.
    destruct (functionCallsOf out) as [|call calls] eqn:Hcalls; try exact Hstop.
    clear Hstop.
    pose proof (processCalls_answers env (call :: calls) allTrials (tools a)) as Hans.
    destruct (processCalls env (call :: calls) allTrials (tools a))
      as [[toolResults allTrials'] st'].
    simpl in Hans. unfold create. cbn [modelLog patientProfile previousResponseId tools].
    set (params := {| instructions := getSystemPrompt env (patientProfile a);
                      input := InputToolResults toolResults;
                      previous_response_id := Some (response_id response) |}).
    assert (Hturn : previous_response_id params = Some (response_id response)
                    /\ exists outs,
                         input params = InputToolResults outs
                         /\ map out_call_id outs
                            = map call_id
                                (functionCallsOf (match output response with
                                                  | Some o => o
                                                  | None => []
                                                  end))).
    { split; [reflexivity|]. exists toolResults. split; [reflexivity|].
      rewrite Hout, Hcalls, Hans.
      apply (answers_call_ids env (call :: calls)). }
    destruct (responses_create env (length (modelLog a)) params)
      as [response' | e] eqn:Hcreate.
    + specialize (IH response' allTrials'
                    (mkAgent (patientProfile a) (previousResponseId a) st'
                       (modelLog a ++ [(params, Ok response')]))).
      destruct IH as [entries (Hlog & Hchain & Hlen & Hprof & Hprev & Hlast)].
      exists ((params, Ok response') :: entries).
      cbn [modelLog patientProfile previousResponseId] in Hlog, Hprof, Hprev.
      rewrite Hlog, Hprof, Hprev, <- app_assoc. simpl.
      repeat split; auto; try lia; try tauto.
    + exists [(params, Throw e)]. simpl. repeat split; auto; try lia; try tauto.
Qed.

(** The log of one turn. *)
Lemma chat_log (userMessage : string) (a : Agent) :
  exists p0 r0 entries,
    modelLog (snd (chat env userMessage a)) = modelLog a ++ (p0, r0) :: entries
    /\ (input p0 = InputText userMessage \/ input p0 = InputUserTurn userMessage)
    /\ previous_response_id p0 = previousResponseId a
    /\ length entries <= maxLoops
    /\ patientProfile (snd (chat env userMessage a)) = patientProfile a
    /\ match r0 with
       | Throw e =>
           entries = []
           /\ fst (chat env userMessage a) = Throw e
           /\ previousResponseId (snd (chat env userMessage a)) = previousResponseId a
       | Ok response =>
           toolTurns response entries
           /\ match lastResponse response entries with
              | Ok final =>
                  (exists found,
                      fst (chat env userMessage a)
                      = Ok (mkChatResult (extractText final) found))
                  /\ previousResponseId (snd (chat env userMessage a))
                     = Some (response_id final)
              | Throw e =>
                  fst (chat env userMessage a) = Throw e
                  /\ previousResponseId (snd (chat env userMessage a))
                     = previousResponseId a
              end
       end.
Proof.
  unfold chat, create.
  set (p0 := {| instructions := getSystemPrompt env (patientProfile a);
                input := if truthyStr (previousResponseId a)
                         then InputText userMessage
                         else InputUserTurn userMessage;
                previous_response_id := previousResponseId a |}).
  assert (Hin : input p0 = InputText userMessage \/ input p0 = InputUserTurn userMessage).
  { unfold p0. simpl. destruct (truthyStr (previousResponseId a)); auto. }
  destruct (responses_create env (length (modelLog a)) p0) as [response | e].
  - set (a1 := mkAgent (patientProfile a) (previousResponseId a) (tools a)
                 (modelLog a ++ [(p0, Ok response)])).
    destruct (toolLoop_log maxLoops response [] a1)
      as [entries (Hlog & Hchain & Hlen & Hprof & Hprev & Hlast)].
    exists p0, (Ok response), entries.
    destruct (toolLoop env maxLoops response [] a1) as [[[final found] | e] a2];
      cbn [fst snd] in *.
    + cbn [modelLog patientProfile previousResponseId].
      rewrite Hlog, Hprof, Hlast. unfold a1. cbn [modelLog patientProfile].
      rewrite <- app_assoc. simpl.
      repeat split; auto. eexists. reflexivity.
    + rewrite Hlog, Hprof, Hprev, Hlast. unfold a1.
      cbn [modelLog patientProfile previousResponseId].
      rewrite <- app_assoc. simpl. repeat split; auto.
  - exists p0, (Throw e), []. cbn [fst snd modelLog patientProfile previousResponseId].
    repeat split; auto. unfold maxLoops. simpl. lia.
Qed.

End LoopFacts.

Section ChainFacts.
Implicit Types (entries : list (CreateParams * Result Response)).

Lemma skipn_app_exact (A : Type) (l l' : list A) : skipn (length l) (l ++ l') = l'.
Proof. induction l as [|x l IH]; simpl; [reflexivity | exact IH]. Qed.

(** In a chain that ends well, the ids fed back are among the ids of all
    responses but the last. *)
Lemma chain_ids entries :
  forall response final,
    toolTurns response entries ->
    lastResponse response entries = Ok final ->
    exists pre,
      response_id response :: okIds entries = pre ++ [response_id final]
      /\ forall i, In i (intermediateIds entries) -> In i pre.
Proof.
  induction entries as [|[p r] entries IH]; intros response final Hchain Hlast.
  - simpl in Hlast. injection Hlast as <-. exists []. simpl. split; [reflexivity | tauto].
  - simpl in Hchain. destruct Hchain as (Hprev & [outs [Hinput _]] & Hrest).
    destruct r as [r' | e]; simpl in Hlast; [|discriminate Hlast].
    destruct (IH r' final Hrest Hlast) as [pre [Hids Hinter]].
    exists (response_id response :: pre). split.
    + simpl. rewrite Hids. reflexivity.
    + simpl. rewrite Hinput, Hprev. intros i [<- | Hi]; [left; reflexivity|].
      right. exact (Hinter i Hi).
Qed.

Lemma chain_last entries :
  forall p0 response final,
    lastResponse response entries = Ok final ->
    exists front p, (p0, Ok response) :: entries = front ++ [(p, Ok final)].
Proof.
  induction entries as [|[p1 r1] entries IH]; intros p0 response final Hlast.
  - simpl in Hlast. injection Hlast as <-. exists [], p0. reflexivity.
  - destruct r1 as [r' | e]; simpl in Hlast; [|discriminate Hlast].
    destruct (IH p1 r' final Hlast) as [front [p Hfront]].
    exists ((p0, Ok response) :: front), p. rewrite Hfront. reflexivity.
Qed.




Lemma NoDup_last_fresh (pre : list string) (x : string) :
  NoDup (pre ++ [x]) -> ~ In x pre.
Proof.
  intros H Hin. apply NoDup_remove_2 in H. apply H. rewrite app_nil_r. exact Hin.
Qed.

End ChainFacts.

Section TurnFacts.
Variable env : Env.
Hypothesis endpoint_answers : forall n p, exists r, responses_create env n p = Ok r.


End TurnFacts.

(** C1.  When [chat] resolves and the endpoint returned a fresh id on
    every call of the turn, the token read by [getConversationState] is the
    id of the last response of the turn; it differs from the token held
    before the call, and from the id of every intermediate response, that
    is, of every response to which tool outputs were fed back. *)
Theorem chat_continuation_token (env : Env) (userMessage : string) (a : Agent)
  (res : ChatResult) (a' : Agent) :
  chat env userMessage a = (Ok res, a') ->
  freshIds (previousResponseId a) (skipn (length (modelLog a)) (modelLog a')) ->
  let turn := skipn (length (modelLog a)) (modelLog a') in
  modelLog a' = modelLog a ++ turn
  /\ (exists front p final,
         turn = front ++ [(p, Ok final)]
         /\ fst (getConversationState a') = Some (response_id final))
  /\ fst (getConversationState a') <> fst (getConversationState a)
  /\ (forall i, In i (intermediateIds turn) ->
                fst (getConversationState a') <> Some i).
Proof.
  intros Hchat Hfresh turn.
  destruct (chat_log env userMessage a)
    as [p0 [r0 [entries (Hlog & Hin & Hprev0 & Hlen & Hprof & Hcase)]]].
  rewrite Hchat in Hlog, Hcase. cbn [fst snd] in Hlog, Hcase.
  assert (Hturn : turn = (p0, r0) :: entries).
  { unfold turn. rewrite Hlog. apply skipn_app_exact. }
  destruct r0 as [response | e];
    [|destruct Hcase as (_ & Hthrow & _); discriminate Hthrow].
  destruct Hcase as [Hchain Hcase].
  destruct (lastResponse response entries) as [final | e] eqn:Hlast;
    [|destruct Hcase as [Hthrow _]; discriminate Hthrow].
  destruct Hcase as [_ Htoken].
  destruct (@chain_ids entries response final Hchain Hlast) as [pre [Hids Hinter]].
  destruct (@chain_last entries p0 response final Hlast) as [front [p Hfront]].
  unfold freshIds in Hfresh. fold turn in Hfresh. rewrite Hturn in Hfresh.
  simpl okIds in Hfresh. rewrite Hids in Hfresh. destruct Hfresh as [Hnodup Hold].
  unfold getConversationState. cbn [fst]. rewrite Htoken.
  split; [rewrite Hturn; exact Hlog|]. split; [|split].
  - exists front, p, final. rewrite Hturn. split; [exact Hfront | reflexivity].
  - intros Heq. apply (Hold (response_id final)).
    + apply in_or_app. right. left. reflexivity.
    + symmetry. exact Heq.
  - intros i Hi [= Heq]. subst i. apply (@NoDup_last_fresh pre (response_id final) Hnodup).
    apply Hinter. rewrite Hturn in Hi. simpl in Hi.
    destruct Hin as [Hin | Hin]; rewrite Hin in Hi; exact Hi.
Qed.

(** C1 on a turn with one tool round: the model asks for a search
    (response [resp_0]), gets its output and answers ([resp_1]); the token
    is [resp_1], not the absent token of before and not [resp_0]. *)
Lemma chat_continuation_token_witness :
  fst (getConversationState
         (snd (chat (Demo.demoEnv [Demo.trialA; Demo.trialB]
                       (Demo.searchingModel "search Breast 37203"))
                 "breast cancer trials near 37203"
                 (Demo.freshAgent (Some Demo.nashvilleProfile)))))
  = Some "resp_1"%string
  /\ intermediateIds
       (modelLog (snd (chat (Demo.demoEnv [Demo.trialA; Demo.trialB]
                               (Demo.searchingModel "search Breast 37203"))
                         "breast cancer trials near 37203"
                         (Demo.freshAgent (Some Demo.nashvilleProfile)))))
     = ["resp_0"%string]
  /\ fst (getConversationState
            (snd (chat (Demo.demoEnv [Demo.trialA; Demo.trialB]
                          (Demo.searchingModel "search Breast 37203"))
                    "breast cancer trials near 37203"
                    (Demo.freshAgent (Some Demo.nashvilleProfile)))))
     <> Some "resp_0"%string.
Proof.
  destruct (chat (Demo.demoEnv [Demo.trialA; Demo.trialB]
                    (Demo.searchingModel "search Breast 37203"))
              "breast cancer trials near 37203"
              (Demo.freshAgent (Some Demo.nashvilleProfile)))
    as [[res | e] a'] eqn:Hrun; vm_compute in Hrun; [|discriminate Hrun].
  injection Hrun as Hres Ha'.
  assert (Hfresh : freshIds (previousResponseId (Demo.freshAgent (Some Demo.nashvilleProfile)))
                     (skipn (length (modelLog (Demo.freshAgent (Some Demo.nashvilleProfile))))
                        (modelLog a'))).
  { rewrite <- Ha'. split.
    - simpl. repeat constructor; simpl; intuition discriminate.
    - simpl. intros i _. discriminate. }
  assert (Hchat : chat (Demo.demoEnv [Demo.trialA; Demo.trialB]
                          (Demo.searchingModel "search Breast 37203"))
                    "breast cancer trials near 37203"
                    (Demo.freshAgent (Some Demo.nashvilleProfile))
                  = (Ok res, a')).
  { rewrite <- Hres, <- Ha'. vm_compute. reflexivity. }
  destruct (chat_continuation_token _ _ _ Hchat Hfresh) as (_ & _ & _ & Hinter).
  cbn [snd]. split; [rewrite <- Ha'; reflexivity|].
  split; [rewrite <- Ha'; reflexivity|].
  apply Hinter. rewrite <- Ha'. simpl. left. reflexivity.
Defined.

Section RoundFacts.
Variable env : Env.






End RoundFacts.





(** The bound is reached by a model that asks for tools in every response:
    eleven calls, ten of them submissions, the token is the id of the
    eleventh response and the text is the apology. *)
Example insistent_model_turn :
  let run := chat (Demo.demoEnv [Demo.trialA] Demo.insistentModel) "any trials?"
               (Demo.freshAgent None) in
  length (modelLog (snd run)) = 11
  /\ length (toolSubmissions (modelLog (snd run))) = 10
  /\ previousResponseId (snd run) = Some "resp_10"%string
  /\ option_map cr_text (match fst run with Ok res => Some res | Throw _ => None end)
     = Some fallbackText.
Proof. vm_compute. repeat split. Qed.

(* ===================================================================== *)
(** * More on the cache and the tool executor                             *)
(* ===================================================================== *)

Section MapInvariants.
Variable V : Type.
Implicit Types (m : JsMap.t V) (k : string) (v : V).

Lemma keys_set k k' v m :
  In k' (JsMap.keys (JsMap.set k v m)) <-> k' = k \/ In k' (JsMap.keys m).
Proof.
  unfold JsMap.keys. induction m as [|[k0 v0] m IH]; simpl.
  - intuition congruence.
  - destruct (k0 =? k) eqn:E; simpl.
    + apply String.eqb_eq in E. subst k0. intuition congruence.
    + rewrite IH. intuition congruence.
Qed.

Lemma NoDup_keys_set k v m :
  NoDup (JsMap.keys m) -> NoDup (JsMap.keys (JsMap.set k v m)).
Proof.
  induction m as [|[k0 v0] m IH]; simpl; intros Hnd.
  - constructor; [simpl; tauto | constructor].
  - destruct (k0 =? k) eqn:E; simpl; [exact Hnd|].
    inversion Hnd as [|? ? Hnotin Hrest]; subst. constructor.
    + intros Hin. apply (keys_set k k0 v m) in Hin. destruct Hin as [-> | Hin].
      * rewrite String.eqb_refl in E. discriminate E.
      * exact (Hnotin Hin).
    + exact (IH Hrest).
Qed.

Lemma length_set k v m : length (JsMap.set k v m) <= S (length m).
Proof.
  induction m as [|[k0 v0] m IH]; simpl; [lia|].
  destruct (k0 =? k); simpl; lia.
Qed.

End MapInvariants.

Lemma cacheTrial_keys (zip : option string) (c : TrialCache) (t : SCRITrial) :
  (NoDup (JsMap.keys c) -> NoDup (JsMap.keys (cacheTrial zip c t)))
  /\ (forall k, In k (JsMap.keys c) -> In k (JsMap.keys (cacheTrial zip c t)))
  /\ JsMap.size (cacheTrial zip c t) <= JsMap.size c + 2.
Proof.
  unfold cacheTrial, JsMap.size. destruct (truthy (studyName t)).
  - split; [|split].
    + intros H. apply NoDup_keys_set, NoDup_keys_set, H.
    + intros k H. apply keys_set. right. apply keys_set. right. exact H.
    + pose proof (length_set (toUpperCase (studyName t)) (mkEntry t zip)
                    (JsMap.set (studyId t) (mkEntry t zip) c)).
      pose proof (length_set (studyId t) (mkEntry t zip) c). lia.
  - split; [|split].
    + intros H. apply NoDup_keys_set, H.
    + intros k H. apply keys_set. right. exact H.
    + pose proof (length_set (studyId t) (mkEntry t zip) c). lia.
Qed.

(** X1.  Caching a batch keeps the cache a map, that is, its keys stay
    pairwise distinct; it never removes a key; and it adds at most two
    keys per record. *)
Theorem cacheTrials_grows_as_a_map (trials : list SCRITrial)
  (zip : option string) (c : TrialCache) :
  NoDup (JsMap.keys c) ->
  NoDup (JsMap.keys (cacheTrials trials zip c))
  /\ (forall k, In k (JsMap.keys c) -> In k (JsMap.keys (cacheTrials trials zip c)))
  /\ JsMap.size (cacheTrials trials zip c) <= JsMap.size c + 2 * length trials.
Proof.
  unfold cacheTrials. revert c.
  induction trials as [|t trials IH]; intros c Hnd; simpl.
  - repeat split; auto. lia.
  - destruct (cacheTrial_keys zip c t) as (Hnd1 & Hkeep1 & Hsize1).
    destruct (IH (cacheTrial zip c t) (Hnd1 Hnd)) as (Hnd2 & Hkeep2 & Hsize2).
    repeat split; auto. lia.
Qed.

(** X1 on two records that share their uppercased name: three keys. *)
Lemma cacheTrials_grows_as_a_map_witness :
  NoDup (JsMap.keys (cacheTrials [Demo.twinA; Demo.twinB] None JsMap.empty))
  /\ JsMap.size (cacheTrials [Demo.twinA; Demo.twinB] None JsMap.empty) <= 4.
Proof.
  destruct (@cacheTrials_grows_as_a_map [Demo.twinA; Demo.twinB] None JsMap.empty)
    as (Hnd & _ & Hsize).
  - constructor.
  - split; [exact Hnd | exact Hsize].
Defined.

Section ToolFrames.
Variable env : Env.

(** [fetchCTGovStudy] never throws, touches neither the cache nor the SCRI
    API, and sends no request or the one for the cleaned id. *)
Lemma fetchCTGovStudy_frame (nctId : option string) (st : ToolState) :
  exists r st',
    fetchCTGovStudy env nctId st = (Ok r, st')
    /\ trialCache st' = trialCache st
    /\ scriCalls st' = scriCalls st
    /\ (st' = st
        \/ exists raw,
             nctId = Some raw
             /\ startsWith (trim (toUpperCase raw)) "NCT" = true
             /\ httpLog st' = httpLog st ++ [CTGov.GetStudy (trim (toUpperCase raw))])
    /\ (forall study, r = Some study -> CTGov.nctId study <> ""%string).
Proof.
  unfold fetchCTGovStudy. destruct nctId as [raw|]; run_eff.
  - destruct (startsWith (trim (toUpperCase raw)) "NCT") eqn:Hnct; cbn [negb].
    + run_eff.
      assert (Hsent : forall r st',
                 trialCache st' = trialCache st ->
                 scriCalls st' = scriCalls st ->
                 httpLog st' = httpLog st ++ [CTGov.GetStudy (trim (toUpperCase raw))] ->
                 (forall study, r = Some study -> CTGov.nctId study <> ""%string) ->
                 exists r0 st0,
                   (Ok r, st') = (Ok r0, st0)
                   /\ trialCache st0 = trialCache st
                   /\ scriCalls st0 = scriCalls st
                   /\ (st0 = st
                       \/ exists raw0,
                            Some raw = Some raw0
                            /\ startsWith (trim (toUpperCase raw0)) "NCT" = true
                            /\ httpLog st0
                               = httpLog st ++ [CTGov.GetStudy (trim (toUpperCase raw0))])
                   /\ (forall study, r0 = Some study -> CTGov.nctId study <> ""%string)).
      { intros r st' H1 H2 H3 H4. exists r, st'. repeat split; auto.
        right. exists raw. auto. }
      destruct (fetch env (length (httpLog st)) _) as [e | response];
        [apply Hsent; auto; discriminate|].
      destruct (CTGov.ok response); cbn [negb];
        [|apply Hsent; auto; discriminate].
      destruct (CTGov.json response) as [data | e];
        [|apply Hsent; auto; discriminate].
      destruct (CTGov.protocolSection data) as [study|];
        [|apply Hsent; auto; discriminate].
      apply Hsent; auto. intros s [= <-]. simpl.
      assert (Hclean : trim (toUpperCase raw) <> ""%string).
      { intros Hempty. rewrite Hempty in Hnct. discriminate Hnct. }
      unfold orString.
      destruct (field (CTGov.identificationModule study) CTGov.im_nctId);
        [apply or_else_truthy|]; exact Hclean.
    + exists None, st. repeat split; auto. discriminate.
  - exists None, st. repeat split; auto. discriminate.
Qed.

(** [searchCTGov] never throws, touches neither the cache nor the SCRI
    API, and sends one request or two. *)
Lemma searchCTGov_frame (condition : string) (location : option string)
  (radius maxResults : nat) (st : ToolState) :
  exists l st',
    searchCTGov env condition location radius maxResults st = (Ok l, st')
    /\ trialCache st' = trialCache st
    /\ scriCalls st' = scriCalls st
    /\ length (httpLog st) < length (httpLog st') <= length (httpLog st) + 2.
Proof.
  assert (Hnone : forall st1,
             exists l st',
               searchCTGov env condition None radius maxResults st1 = (Ok l, st')
               /\ trialCache st' = trialCache st1
               /\ scriCalls st' = scriCalls st1
               /\ length (httpLog st') = S (length (httpLog st1))).
  { intros st1. rewrite searchCTGov_without_geo by reflexivity.
    do 2 eexists. split; [reflexivity|]. cbn [trialCache scriCalls httpLog].
    rewrite length_app. simpl. repeat split; lia. }
  rewrite searchCTGov_equation_1. unfold tryCatch, bind, http_fetch.
  assert (Hone : forall l,
             exists l0 st',
               (Ok l, mkToolState (trialCache st) (scriCalls st)
                        (httpLog st
                         ++ [CTGov.GetStudies
                               (searchParams condition location radius maxResults)]))
               = (@Ok (list CTGov.CTGovSearchResult) l0, st')
               /\ trialCache st' = trialCache st
               /\ scriCalls st' = scriCalls st
               /\ length (httpLog st) < length (httpLog st') <= length (httpLog st) + 2).
  { intros l. do 2 eexists. split; [reflexivity|]. cbn [trialCache scriCalls httpLog].
    rewrite length_app. simpl. repeat split; lia. }
  destruct (fetch env (length (httpLog st)) _) as [e | response]; [apply Hone|].
  destruct (CTGov.ok response); cbn [negb].
  - unfold lift, ret. destruct (CTGov.json response); apply Hone.
  - destruct (bool_dec _ true) as [_ | _]; [|apply Hone].
    match goal with
    | |- context [searchCTGov env condition None radius maxResults ?s] =>
        destruct (Hnone s) as [l [st' (Hrun & Hc & Hs & Hl)]]
    end.
    rewrite Hrun. exists l, st'. cbn [trialCache scriCalls httpLog] in Hc, Hs, Hl.
    rewrite length_app in Hl. simpl in Hl. repeat split; auto; lia.
Qed.

Lemma executeTool_unknown (toolName : string) (args : option ToolArgs)
  (st : ToolState) :
  ~ In toolName ["search_trials"; "get_study_details"; "get_trial_eligibility";
                 "get_trial_treatment_info"; "get_available_cancer_types";
                 "search_all_trials"]%string ->
  executeTool env toolName args st
  = (Throw ("Error: Unknown tool: " ++ toolName), st).
Proof.
  intros Hnot. unfold executeTool.
  repeat match goal with
         | |- context [toolName =? ?known] =>
             let E := fresh "E" in
             destruct (toolName =? known) eqn:E;
             [apply String.eqb_eq in E; exfalso; apply Hnot; rewrite E;
              simpl; tauto|]
         end.
  reflexivity.
Qed.

Lemma get_study_details_frame (args : ToolArgs) (st : ToolState) :
  exists r st',
    get_study_details env (Some args) st = (r, st')
    /\ trialCache st' = trialCache st
    /\ httpLog st' = httpLog st
    /\ scriCalls st' <= S (scriCalls st)
    /\ (a_studyId args <> None -> exists payload, r = Ok payload).
Proof.
  unfold get_study_details. run_eff.
  destruct (a_studyId args) as [sid|]; run_eff.
  - destruct (getCachedTrial sid (trialCache st)) as [cached|]; run_eff.
    + do 2 eexists. split; [reflexivity|]. repeat split; auto. eauto.
    + unfold getTrialDetails. run_eff.
      destruct (scri_getTrialDetails env (scriCalls st) sid) as [t | e];
        do 2 eexists; (split; [reflexivity|]); repeat split; auto; eauto.
  - do 2 eexists. split; [reflexivity|]. repeat split; auto.
    intros H. exfalso. apply H. reflexivity.
Qed.

End ToolFrames.

Section ToolProperties.
Variable env : Env.

Lemma executeTool_keeps_cache (toolName : string) (args : option ToolArgs)
  (st : ToolState) :
  toolName <> "search_trials"%string ->
  trialCache (snd (executeTool env toolName args st)) = trialCache st.
Proof.
  intros Hname. unfold executeTool.
  destruct (toolName =? "search_trials") eqn:E0;
    [apply String.eqb_eq in E0; contradiction|].
  destruct (toolName =? "get_study_details").
  { destruct args as [a|]; [|reflexivity].
    destruct (get_study_details_frame env a st) as [r [st' (-> & Hc & _)]]. exact Hc. }
  destruct (toolName =? "get_trial_eligibility").
  { destruct args as [a|]; [|reflexivity].
    unfold get_trial_eligibility. run_eff.
    destruct (fetchCTGovStudy_frame env (a_nctId a) st)
      as [r [st' (-> & Hc & _)]]. destruct r; exact Hc. }
  destruct (toolName =? "get_trial_treatment_info").
  { destruct args as [a|]; [|reflexivity].
    unfold get_trial_treatment_info. run_eff.
    destruct (fetchCTGovStudy_frame env (a_nctId a) st)
      as [r [st' (-> & Hc & _)]]. destruct r; exact Hc. }
  destruct (toolName =? "get_available_cancer_types").
  { unfold getCancerTypeList, getFilters. run_eff.
    destruct (scri_getFilters env (scriCalls st)); reflexivity. }
  destruct (toolName =? "search_all_trials"); [|reflexivity].
  destruct args as [a|]; [|reflexivity].
  unfold search_all_trials. run_eff.
  destruct (searchCTGov_frame env (js_String (a_condition a)) (a_location a)
              (match a_distance a with Some (S n) => S n | _ => 100 end) 10 st)
    as [l [st' (-> & Hc & _)]]. exact Hc.
Qed.

Lemma search_trials_cache (args : option ToolArgs) (st : ToolState) :
  trialCache (snd (search_trials env args st)) = trialCache st
  \/ exists data,
       trialCache (snd (search_trials env args st))
       = cacheTrials data (match args with Some a => a_zipCode a | None => None end)
           (trialCache st).
Proof.
  unfold search_trials. destruct args as [a|]; [|left; reflexivity].
  unfold searchTrials. run_eff.
  destruct (scri_searchTrials env (scriCalls st) (js_String (a_cancerType a)) 1)
    as [data | e]; [|left; reflexivity].
  right. exists (searchResultsData data). reflexivity.
Qed.

(** X2.  Search and detail compose through the cache: after a search,
    [get_study_details] with the id of any returned record answers from
    the cache and sends nothing upstream.  The summary is that of the last
    record of the batch that was stored under that key, which has that id
    or that uppercased name, computed for the postal code of the search;
    it is the summary of the record itself when no other record of the
    batch writes the key. *)
Theorem search_then_details (args : ToolArgs) (st : ToolState)
  (data : SCRISearchData) (t : SCRITrial) :
  scri_searchTrials env (scriCalls st) (js_String (a_cancerType args)) 1 = Ok data ->
  In t (searchResultsData data) ->
  exists found st1 t',
    executeTool env "search_trials" (Some args) st = (Ok found, st1)
    /\ lastWriter (studyId t) (searchResultsData data) = Some t'
    /\ In t' (searchResultsData data)
    /\ writesKey (studyId t) t' = true
    /\ (forall ct zc nc cnd loc d,
           executeTool env "get_study_details"
             (Some (mkArgs ct zc (Some (studyId t)) nc cnd loc d)) st1
           = (Ok (StudyDetails "cache"
                    (toTrialSummary (geo env) t' (a_zipCode args))), st1))
    /\ ((forall u, In u (searchResultsData data) ->
                   writesKey (studyId t) u = true -> u = t) ->
        t' = t).
Proof.
  intros Hdata Hin.
  destruct (executeTool_search_trials env args st Hdata) as [found Hrun].
  destruct (lastWriter_exists (studyId t) _ t Hin (writesKey_id t)) as [t' Hlast].
  destruct (lastWriter_In _ _ Hlast) as [Hin' Hw'].
  exists found,
    (mkToolState
       (cacheTrials (searchResultsData data) (a_zipCode args) (trialCache st))
       (S (scriCalls st)) (httpLog st)), t'.
  split; [exact Hrun|]. split; [exact Hlast|].
  split; [exact Hin'|]. split; [exact Hw'|]. split.
  - intros ct zc nc cnd loc d.
    change (executeTool env "get_study_details") with (get_study_details env).
    unfold get_study_details. run_eff. cbn [a_studyId trialCache].
    rewrite (@getCachedTrial_exact (studyId t) _ (mkEntry t' (a_zipCode args))).
    + reflexivity.
    + rewrite get_cacheTrials, Hlast. reflexivity.
  - intros Honly. exact (Honly t' Hin' Hw').
Qed.

(** X3.  On a cache miss [get_study_details] asks the SCRI API once.  A
    record it returns is summarised without postal code (source [api]);
    a failure of the API is answered with the not-found payload and is not
    thrown. *)
Theorem study_details_on_cache_miss (sid : string) (st : ToolState)
  (ct zc nc cnd loc : option string) (d : option nat) :
  getCachedTrial sid (trialCache st) = None ->
  (forall t,
      scri_getTrialDetails env (scriCalls st) sid = Ok t ->
      executeTool env "get_study_details" (Some (mkArgs ct zc (Some sid) nc cnd loc d)) st
      = (Ok (StudyDetails "api" (toTrialSummary (geo env) t None)),
         mkToolState (trialCache st) (S (scriCalls st)) (httpLog st)))
  /\ (forall e,
         scri_getTrialDetails env (scriCalls st) sid = Throw e ->
         executeTool env "get_study_details"
           (Some (mkArgs ct zc (Some sid) nc cnd loc d)) st
         = (Ok (StudyNotFound
                  ("Could not find trial with ID " ++ dquote ++ sid ++ dquote
                   ++ ". Make sure to use the study ID from search results.")),
            mkToolState (trialCache st) (S (scriCalls st)) (httpLog st))).
Proof.
  intros Hmiss.
  change (executeTool env "get_study_details") with (get_study_details env).
  unfold get_study_details, getTrialDetails. run_eff. cbn [a_studyId].
  rewrite Hmiss. run_eff.
  split; intros x Hx; rewrite Hx; reflexivity.
Qed.

(** X4.  A tool name outside the six known names makes [executeTool]
    throw [Unknown tool] and leave the state as it was; in a batch that
    call alone is answered with the error payload. *)
Theorem unknown_tool_fails_that_call_only (call : FunctionCall)
  (args : option ToolArgs) (st : ToolState) :
  ~ In (name call)
      ["search_trials"; "get_study_details"; "get_trial_eligibility";
       "get_trial_treatment_info"; "get_available_cancer_types";
       "search_all_trials"]%string ->
  JSON_parse env (arguments call) = Ok args ->
  executeTool env (name call) args st
  = (Throw ("Error: Unknown tool: " ++ name call), st)
  /\ forall rest,
       answers env (call :: rest) st
       = mkOutput (call_id call) (ErrorPayload ("Error: Unknown tool: " ++ name call))
         :: answers env rest st.
Proof.
  intros Hname Hparse.
  pose proof (@executeTool_unknown env (name call) args st Hname) as Hthrow.
  split; [exact Hthrow|]. intros rest.
  pose proof (@runCall_tool_error env call st st args _ Hparse Hthrow) as Hrun.
  cbn [answers]. rewrite (@answerFor_error env call st st _ Hrun), Hrun. reflexivity.
Qed.

(** X5.  The cache is written by [search_trials] alone, and no tool ever
    removes a key from it: whatever the tool, its arguments and the
    answers of the remote services, every key cached before is cached
    after. *)
Theorem tools_never_evict (toolName : string) (args : option ToolArgs)
  (st : ToolState) :
  (toolName <> "search_trials"%string ->
   trialCache (snd (executeTool env toolName args st)) = trialCache st)
  /\ (forall k,
         In k (JsMap.keys (trialCache st)) ->
         In k (JsMap.keys (trialCache (snd (executeTool env toolName args st))))).
Proof.
  split; [apply executeTool_keeps_cache|].
  intros k Hk. destruct (String.eqb_spec toolName "search_trials") as [-> | Hname].
  - change (executeTool env "search_trials") with (search_trials env).
    destruct (search_trials_cache args st) as [-> | [data ->]]; [exact Hk|].
    clear - Hk. unfold cacheTrials. revert Hk. generalize (trialCache st).
    induction data as [|t data IH]; intros c Hk; simpl; [exact Hk|].
    apply IH. apply cacheTrial_keys. exact Hk.
  - rewrite (@executeTool_keeps_cache toolName args st Hname). exact Hk.
Qed.

(** X6.  The two registry lookups never throw when given an argument
    object: whatever the registry does they return a payload, after at
    most one request, without calling the SCRI API. *)
Theorem registry_lookups_never_throw (args : ToolArgs) (st : ToolState) :
  (exists payload st',
      executeTool env "get_trial_eligibility" (Some args) st = (Ok payload, st')
      /\ length (httpLog st') <= S (length (httpLog st))
      /\ scriCalls st' = scriCalls st)
  /\ (exists payload st',
         executeTool env "get_trial_treatment_info" (Some args) st = (Ok payload, st')
         /\ length (httpLog st') <= S (length (httpLog st))
         /\ scriCalls st' = scriCalls st).
Proof.
  assert (Hlen : forall st',
             (st' = st
              \/ exists raw,
                   a_nctId args = Some raw
                   /\ startsWith (trim (toUpperCase raw)) "NCT" = true
                   /\ httpLog st' = httpLog st ++ [CTGov.GetStudy (trim (toUpperCase raw))]) ->
             length (httpLog st') <= S (length (httpLog st))).
  { intros st' [-> | [raw (_ & _ & ->)]]; [lia|]. rewrite length_app. simpl. lia. }
  split.
  - change (executeTool env "get_trial_eligibility") with (get_trial_eligibility env).
    unfold get_trial_eligibility. run_eff.
    destruct (fetchCTGovStudy_frame env (a_nctId args) st)
      as [r [st' (-> & _ & Hs & Hlog & _)]].
    destruct r; do 2 eexists; (split; [reflexivity|]); auto.
  - change (executeTool env "get_trial_treatment_info")
      with (get_trial_treatment_info env).
    unfold get_trial_treatment_info. run_eff.
    destruct (fetchCTGovStudy_frame env (a_nctId args) st)
      as [r [st' (-> & _ & Hs & Hlog & _)]].
    destruct r; do 2 eexists; (split; [reflexivity|]); auto.
Qed.

(** X7.  [fetchCTGovStudy] never throws, for any id and any behaviour of
    the registry; it sends at most one request, for the uppercased and
    trimmed id; and a study it returns has an [nctId] that is not empty. *)
Theorem fetched_study_has_id (nctId : option string) (st : ToolState) :
  exists r st',
    fetchCTGovStudy env nctId st = (Ok r, st')
    /\ (httpLog st' = httpLog st
        \/ exists raw,
             nctId = Some raw
             /\ httpLog st' = httpLog st ++ [CTGov.GetStudy (trim (toUpperCase raw))])
    /\ (forall study, r = Some study -> CTGov.nctId study <> ""%string).
Proof.
  destruct (fetchCTGovStudy_frame env nctId st)
    as [r [st' (Hrun & _ & _ & Hlog & Hid)]].
  exists r, st'. split; [exact Hrun|]. split; [|exact Hid].
  destruct Hlog as [-> | [raw (Hraw & _ & Hlog)]]; [left; reflexivity|].
  right. exists raw. auto.
Qed.

(** X8.  The backstop search never throws when given an argument object:
    it returns exactly the list that [searchCTGov] returns for the
    condition, the location, the radius and at most 10 results, with
    [totalFound] the length of that list, after one or two requests and
    without touching the cache; the radius is the [distance] argument, or
    100 when that is missing or zero.  Without a usable location the list
    is what the registry answered to the one request sent. *)
Theorem backstop_search_result (args : ToolArgs) (st : ToolState) :
  exists found st',
    searchCTGov env (js_String (a_condition args)) (a_location args)
      (match a_distance args with Some (S n) => S n | _ => 100 end) 10 st
    = (Ok found, st')
    /\ executeTool env "search_all_trials" (Some args) st
       = (Ok (SearchAllResult (a_condition args) (a_location args)
                (match a_distance args with Some (S n) => S n | _ => 100 end)
                (length found) found), st')
    /\ (hasGeo (a_location args) = false ->
        found
        = answerOf
            (fetch env (length (httpLog st))
               (CTGov.GetStudies
                  (searchParams (js_String (a_condition args)) (a_location args)
                     (match a_distance args with Some (S n) => S n | _ => 100 end)
                     10))))
    /\ length (httpLog st) < length (httpLog st') <= length (httpLog st) + 2
    /\ trialCache st' = trialCache st.
Proof.
  change (executeTool env "search_all_trials") with (search_all_trials env).
  unfold search_all_trials. run_eff.
  destruct (searchCTGov_frame env (js_String (a_condition args)) (a_location args)
              (match a_distance args with Some (S n) => S n | _ => 100 end) 10 st)
    as [l [st' (Hrun & Hc & _ & Hl)]].
  rewrite Hrun. exists l, st'. split; [reflexivity|]. split; [reflexivity|].
  split; [|auto].
  intros Hgeo. rewrite (searchCTGov_without_geo _ _ _ _ _ _ Hgeo) in Hrun.
  injection Hrun as <- _. reflexivity.
Qed.

End ToolProperties.

(** X2 on a search near 37203 followed by the details of [A1], which no
    other record of the batch writes. *)
Lemma search_then_details_witness :
  exists found st1,
    executeTool (Demo.demoEnv [Demo.trialA; Demo.trialB] Demo.silentModel)
      "search_trials" (Some (Demo.searchArgs (Some "37203"))) Demo.emptyTools
    = (Ok found, st1)
    /\ executeTool (Demo.demoEnv [Demo.trialA; Demo.trialB] Demo.silentModel)
         "get_study_details" (Some (Demo.detailArgs "A1")) st1
       = (Ok (StudyDetails "cache"
                (toTrialSummary Demo.demoGeo Demo.trialA (Some "37203"))), st1).
Proof.
  destruct (@search_then_details
              (Demo.demoEnv [Demo.trialA; Demo.trialB] Demo.silentModel)
              (Demo.searchArgs (Some "37203")) Demo.emptyTools
              (mkSearchData 2 [Demo.trialA; Demo.trialB]) Demo.trialA
              eq_refl (or_introl eq_refl))
    as [found [st1 [t' (Hrun & _ & _ & _ & Hdetail & Honly)]]].
  exists found, st1. split; [exact Hrun|].
  rewrite <- (Honly ltac:(intros u [<- | [<- | []]] Hw;
                          [reflexivity | discriminate Hw])).
  apply (Hdetail None None None None None None).
Defined.

(** X3 on an id unknown to the cache and to the API. *)
Lemma study_details_on_cache_miss_witness :
  exists payload,
    executeTool (Demo.demoEnv [] Demo.silentModel) "get_study_details"
      (Some (Demo.detailArgs "ZZ-1")) Demo.emptyTools
    = (Ok (StudyNotFound payload), mkToolState JsMap.empty 1 []).
Proof.
  destruct (@study_details_on_cache_miss (Demo.demoEnv [] Demo.silentModel)
              "ZZ-1" Demo.emptyTools
              None None None None None None eq_refl) as [_ Hfail].
  eexists. apply (Hfail "Error: API error: 404"%string). reflexivity.
Defined.

(** X4 on the tool name that the background worker asks for. *)
Lemma unknown_tool_fails_that_call_only_witness :
  executeTool (Demo.demoEnv [] Demo.silentModel) "search_trials_nearby"
    (Some Demo.noArgs) Demo.emptyTools
  = (Throw "Error: Unknown tool: search_trials_nearby", Demo.emptyTools).
Proof.
  destruct (@unknown_tool_fails_that_call_only
              (Demo.demoEnv [] Demo.silentModel)
              (mkCall "call_1" "search_trials_nearby" "{}") (Some Demo.noArgs)
              Demo.emptyTools) as [Hthrow _].
  - simpl. intuition discriminate.
  - reflexivity.
  - exact Hthrow.
Defined.


(* ===================================================================== *)
(** * More on the projections                                             *)
(* ===================================================================== *)

Section GeneralSort.
Variable A : Type.
Variable cmp : A -> A -> comparison.
Variable le : A -> A -> Prop.
Hypothesis cmp_le : forall x y, cmp x y <> Gt -> le x y.
Hypothesis cmp_gt : forall x y, cmp x y = Gt -> le y x.
Hypothesis le_trans : forall x y z, le x y -> le y z -> le x z.

Lemma insert_In_any (x y : A) (l : list A) :
  In x (JsArray.insert cmp y l) <-> x = y \/ In x l.
Proof.
  induction l as [|z l IH]; simpl.
  - intuition congruence.
  - destruct (cmp y z); simpl; rewrite ?IH; intuition congruence.
Qed.

Lemma insert_sorted_any (x : A) (l : list A) :
  StronglySorted le l -> StronglySorted le (JsArray.insert cmp x l).
Proof.
  induction 1 as [|y l Hs IH Hall]; simpl.
  - constructor; constructor.
  - destruct (cmp x y) eqn:E.
    + assert (Hxy : le x y) by (apply cmp_le; rewrite E; discriminate).
      constructor; [constructor; assumption|]. constructor; [exact Hxy|].
      eapply Forall_impl; [|exact Hall]. intros z Hz. eapply le_trans; eassumption.
    + assert (Hxy : le x y) by (apply cmp_le; rewrite E; discriminate).
      constructor; [constructor; assumption|]. constructor; [exact Hxy|].
      eapply Forall_impl; [|exact Hall]. intros z Hz. eapply le_trans; eassumption.
    + constructor; [exact IH|]. apply Forall_forall. intros z Hz.
      apply insert_In_any in Hz. destruct Hz as [-> | Hz]; [apply cmp_gt; exact E|].
      rewrite Forall_forall in Hall. exact (Hall z Hz).
Qed.

Lemma sort_sorted_any (l : list A) : StronglySorted le (JsArray.sort cmp l).
Proof.
  induction l as [|x l IH]; simpl; [constructor | apply insert_sorted_any; exact IH].
Qed.

Lemma insert_perm (x : A) (l : list A) : Permutation (x :: l) (JsArray.insert cmp x l).
Proof.
  induction l as [|y l IH]; simpl; [reflexivity|].
  destruct (cmp x y); try reflexivity.
  rewrite perm_swap. constructor. exact IH.
Qed.

Lemma sort_perm (l : list A) : Permutation l (JsArray.sort cmp l).
Proof.
  induction l as [|x l IH]; simpl; [constructor|].
  rewrite <- insert_perm. constructor. exact IH.
Qed.

End GeneralSort.

Lemma leInfinity_refl (a : option nat) : leInfinity a a.
Proof. destruct a; simpl; auto. Qed.

Lemma leInfinity_trans (a b c : option nat) :
  leInfinity a b -> leInfinity b c -> leInfinity a c.
Proof. destruct a, b, c; simpl; try tauto; lia. Qed.

Lemma cmpInfinity_le (x y : LocationSummary) :
  cmpInfinity x y <> Gt -> leInfinity (locationKey x) (locationKey y).
Proof.
  unfold cmpInfinity, locationKey.
  destruct (orInfinity (ls_distance x)) as [a|], (orInfinity (ls_distance y)) as [b|];
    simpl; auto.
  destruct (Nat.compare_spec a b) as [Hab | Hab | Hab]; intros Hc; try lia. congruence.
Qed.

Lemma cmpInfinity_gt (x y : LocationSummary) :
  cmpInfinity x y = Gt -> leInfinity (locationKey y) (locationKey x).
Proof.
  unfold cmpInfinity, locationKey.
  destruct (orInfinity (ls_distance x)) as [a|], (orInfinity (ls_distance y)) as [b|];
    simpl; auto; try discriminate.
  destruct (Nat.compare_spec a b) as [Hab | Hab | Hab]; intros Hc; try discriminate. lia.
Qed.

Lemma sortedLocations_sorted (l : list LocationSummary) :
  StronglySorted (fun x y => leInfinity (locationKey x) (locationKey y))
    (JsArray.sort cmpInfinity l).
Proof.
  apply sort_sorted_any.
  - apply cmpInfinity_le.
  - apply cmpInfinity_gt.
  - intros x y z. apply leInfinity_trans.
Qed.

Lemma filter_nil_all (A : Type) (f : A -> bool) (l : list A) :
  filter f l = [] -> forall x, In x l -> f x = false.
Proof.
  induction l as [|y l IH]; simpl; [tauto|].
  destruct (f y) eqn:E; [discriminate|].
  intros H x [<- | Hx]; [exact E | exact (IH H x Hx)].
Qed.

(** X9.  In every summary the closest location is the first of
    [allLocations]; [allLocations] holds projected locations of the
    record, never more than [locationCount]; and the closest location has
    the least key [distance || Infinity] of them, so that it is the
    nearest of the sites at a distance of one mile or more. *)
Theorem closest_heads_all_locations (g : Geo) (t : SCRITrial) (zip : option string) :
  closestLocation (toTrialSummary g t zip)
  = hd_error (allLocations (toTrialSummary g t zip))
  /\ length (allLocations (toTrialSummary g t zip))
     <= locationCount (toTrialSummary g t zip)
  /\ (forall l, In l (allLocations (toTrialSummary g t zip)) ->
                exists loc, In loc (locationsOf t)
                            /\ l = withDistance g (userCoordsOf g zip) loc)
  /\ (forall c l,
         closestLocation (toTrialSummary g t zip) = Some c ->
         In l (allLocations (toTrialSummary g t zip)) ->
         leInfinity (locationKey c) (locationKey l)).
Proof.
  unfold toTrialSummary. cbn [closestLocation allLocations locationCount].
  set (lwd := map (withDistance g (userCoordsOf g zip)) (locationsOf t)).
  pose proof (sortedLocations_sorted (filter hasDistance lwd)) as Hsorted.
  pose proof (sort_perm cmpInfinity (filter hasDistance lwd)) as Hperm.
  assert (Hlwd : forall l, In l lwd ->
                   exists loc, In loc (locationsOf t)
                               /\ l = withDistance g (userCoordsOf g zip) loc).
  { intros l Hl. unfold lwd in Hl. apply in_map_iff in Hl.
    destruct Hl as [loc [<- Hloc]]. eauto. }
  destruct (JsArray.sort cmpInfinity (filter hasDistance lwd)) as [|s ss] eqn:Es.
  - split; [reflexivity|]. split; [unfold lwd; rewrite length_map; lia|].
    split; [exact Hlwd|].
    intros c l Hc Hl.
    apply Permutation_sym, Permutation_nil in Hperm.
    assert (Hnone : forall x, In x lwd -> locationKey x = None).
    { intros x Hx. pose proof (filter_nil_all hasDistance lwd Hperm x Hx) as Hd.
      unfold hasDistance in Hd. unfold locationKey.
      destruct (ls_distance x); [discriminate Hd | reflexivity]. }
    rewrite (Hnone l Hl). destruct (locationKey c); exact I.
  - split; [reflexivity|].
    assert (Hsub : forall l, In l (s :: ss) -> In l lwd).
    { intros l Hl. eapply Permutation_in in Hl; [|apply Permutation_sym; exact Hperm].
      apply filter_In in Hl. tauto. }
    split.
    { rewrite <- (Permutation_length Hperm).
      pose proof (filter_length_le hasDistance lwd). unfold lwd in *.
      rewrite length_map in *. lia. }
    split; [intros l Hl; apply Hlwd, Hsub, Hl|].
    intros c l [= <-] Hl. inversion Hsorted as [|? ? _ Hall]; subst.
    destruct Hl as [<- | Hl]; [apply leInfinity_refl|].
    rewrite Forall_forall in Hall. exact (Hall l Hl).
Qed.

(** X10.  Without a resolvable origin, that is, with no postal code, an
    empty one or one that the table does not know, a summary carries no
    distance: [allLocations] lists every location in the order of the
    record, and the closest location is the first of the record. *)
Theorem summary_without_origin (g : Geo) (t : SCRITrial) (zip : option string) :
  userCoordsOf g zip = None ->
  allLocations (toTrialSummary g t zip)
  = map (withDistance g None) (locationsOf t)
  /\ closestLocation (toTrialSummary g t zip)
     = hd_error (map (withDistance g None) (locationsOf t))
  /\ (forall l, In l (allLocations (toTrialSummary g t zip)) -> ls_distance l = None)
  /\ length (allLocations (toTrialSummary g t zip))
     = locationCount (toTrialSummary g t zip).
Proof.
  intros Hno. unfold toTrialSummary. cbn [closestLocation allLocations locationCount].
  rewrite Hno.
  assert (Hnone : forall l, In l (map (withDistance g None) (locationsOf t)) ->
                            ls_distance l = None).
  { intros l Hl. apply in_map_iff in Hl. destruct Hl as [loc [<- _]]. reflexivity. }
  assert (Hfilter : filter hasDistance (map (withDistance g None) (locationsOf t)) = []).
  { clear Hnone. induction (locationsOf t) as [|loc locs IH]; [reflexivity|].
    simpl. exact IH. }
  rewrite Hfilter. simpl. repeat split; auto. apply length_map.
Qed.

(** X10 on the summary built for a record fetched by id, which passes no
    postal code. *)
Lemma summary_without_origin_witness :
  option_map ls_distance (closestLocation (toTrialSummary Demo.demoGeo Demo.trialB None))
  = Some None
  /\ length (allLocations (toTrialSummary Demo.demoGeo Demo.trialB None)) = 1.
Proof.
  destruct (@summary_without_origin Demo.demoGeo Demo.trialB None eq_refl)
    as (_ & Hclosest & _ & Hlen).
  split; [rewrite Hclosest; reflexivity | rewrite Hlen; reflexivity].
Defined.

Section SlimScan.
Variable g : Geo.
Variable u : coord g * coord g.

Lemma scan_step (seen : list SCRILocation) (acc : Closest) (loc : SCRILocation) :
  scanInvariant g u seen acc ->
  scanInvariant g u (seen ++ [loc]) (scanLocation g u acc loc).
Proof.
  intros [Hmin Hinv]. unfold scanLocation.
  assert (Hold : forall x, In x (seen ++ [loc]) -> In x seen \/ x = loc).
  { intros x Hx. apply in_app_or in Hx. destruct Hx as [Hx | [<- | []]]; auto. }
  destruct (parsedCoords g loc) as [[la lo]|] eqn:Hparsed.
  - destruct (calculateDistance g (fst u) (snd u) la lo) as [|n] eqn:Hd.
    + simpl. split; [exact Hmin|].
      destruct (c_distance acc) as [m|].
      * destruct Hinv as [[l0 [la0 [lo0 (Hin & Hp & Hm)]]] Hleast]. split.
        -- exists l0, la0, lo0. split; [apply in_or_app; left; exact Hin | auto].
        -- intros x xa xo d Hx Hxp Hxd. destruct (Hold x Hx) as [Hx' | ->].
           ++ eapply Hleast; eassumption.
           ++ rewrite Hparsed in Hxp. injection Hxp as <- <-. congruence.
      * intros x xa xo Hx Hxp. destruct (Hold x Hx) as [Hx' | ->].
        -- eapply Hinv; eassumption.
        -- rewrite Hparsed in Hxp. injection Hxp as <- <-. exact Hd.
    + unfold ltMinDist. rewrite Hmin in *.
      destruct (c_distance acc) as [k|] eqn:Hk.
      * destruct Hinv as [[l0 [la0 [lo0 (Hin & Hp & Hm)]]] Hleast].
        destruct (n <? k)%nat eqn:Hlt.
        -- apply Nat.ltb_lt in Hlt. split; [reflexivity|]. simpl. split.
           ++ exists loc, la, lo. split; [apply in_or_app; right; left; reflexivity|].
              auto.
           ++ intros x xa xo d Hx Hxp Hxd. destruct (Hold x Hx) as [Hx' | ->].
              ** pose proof (Hleast x xa xo d Hx' Hxp Hxd). lia.
              ** rewrite Hparsed in Hxp. injection Hxp as <- <-.
                 rewrite Hd in Hxd. injection Hxd as <-. lia.
        -- apply Nat.ltb_ge in Hlt. split; [rewrite Hk; exact Hmin|]. rewrite Hk. split.
           ++ exists l0, la0, lo0. split; [apply in_or_app; left; exact Hin | auto].
           ++ intros x xa xo d Hx Hxp Hxd. destruct (Hold x Hx) as [Hx' | ->].
              ** eapply Hleast; eassumption.
              ** rewrite Hparsed in Hxp. injection Hxp as <- <-.
                 rewrite Hd in Hxd. injection Hxd as <-. exact Hlt.
      * split; [reflexivity|]. simpl. split.
        -- exists loc, la, lo. split; [apply in_or_app; right; left; reflexivity|].
           auto.
        -- intros x xa xo d Hx Hxp Hxd. destruct (Hold x Hx) as [Hx' | ->].
           ++ rewrite (Hinv x xa xo Hx' Hxp) in Hxd. discriminate Hxd.
           ++ rewrite Hparsed in Hxp. injection Hxp as <- <-.
              rewrite Hd in Hxd. injection Hxd as <-. lia.
  - split; [exact Hmin|]. destruct (c_distance acc) as [m|].
    + destruct Hinv as [[l0 [la0 [lo0 (Hin & Hp & Hm)]]] Hleast]. split.
      * exists l0, la0, lo0. split; [apply in_or_app; left; exact Hin | auto].
      * intros x xa xo d Hx Hxp Hxd. destruct (Hold x Hx) as [Hx' | ->].
        -- eapply Hleast; eassumption.
        -- rewrite Hparsed in Hxp. discriminate Hxp.
    + intros x xa xo Hx Hxp. destruct (Hold x Hx) as [Hx' | ->].
      * eapply Hinv; eassumption.
      * rewrite Hparsed in Hxp. discriminate Hxp.
Qed.

Lemma scan_all (locs : list SCRILocation) :
  forall seen acc,
    scanInvariant g u seen acc ->
    scanInvariant g u (seen ++ locs) (fold_left (scanLocation g u) locs acc).
Proof.
  induction locs as [|loc locs IH]; intros seen acc Hinv; simpl.
  - rewrite app_nil_r. exact Hinv.
  - replace (seen ++ loc :: locs) with ((seen ++ [loc]) ++ locs)
      by (rewrite <- app_assoc; reflexivity).
    apply IH. apply scan_step. exact Hinv.
Qed.

End SlimScan.

(** X11.  With the coordinates of the user, the distance of a slim result
    is the least of the distances computed for the locations of the record
    that have coordinates, and it is the distance of one of them; it is
    absent exactly when no location yields a number.  Without coordinates
    of the user a slim result has no distance. *)
Theorem slim_distance_is_minimum (g : Geo) (u : coord g * coord g) (t : SCRITrial) :
  (forall m,
      distance (slimResult g (Some u) t) = Some m ->
      (exists loc la lo,
          In loc (locationsOf t) /\ parsedCoords g loc = Some (la, lo)
          /\ calculateDistance g (fst u) (snd u) la lo = Miles m)
      /\ (forall loc la lo d,
             In loc (locationsOf t) -> parsedCoords g loc = Some (la, lo) ->
             calculateDistance g (fst u) (snd u) la lo = Miles d -> m <= d))
  /\ (distance (slimResult g (Some u) t) = None ->
      forall loc la lo,
        In loc (locationsOf t) -> parsedCoords g loc = Some (la, lo) ->
        calculateDistance g (fst u) (snd u) la lo = NaN)
  /\ distance (slimResult g None t) = None.
Proof.
  assert (Hinv : scanInvariant g u (locationsOf t)
                   (match locationsOf t with
                    | _ :: _ => fold_left (scanLocation g u) (locationsOf t)
                                  (mkClosest None None None None)
                    | [] => mkClosest None None None None
                    end)).
  { destruct (locationsOf t) as [|l ls] eqn:E.
    - split; [reflexivity|]. simpl. intros loc la lo [].
    - apply (@scan_all g u (l :: ls) [] (mkClosest None None None None)).
      split; [reflexivity|]. simpl. intros loc la lo []. }
  assert (Hd : distance (slimResult g (Some u) t)
               = c_distance (match locationsOf t with
                             | _ :: _ => fold_left (scanLocation g u) (locationsOf t)
                                           (mkClosest None None None None)
                             | [] => mkClosest None None None None
                             end)).
  { unfold slimResult. cbn [distance]. destruct (locationsOf t); reflexivity. }
  rewrite Hd. destruct Hinv as [_ Hinv].
  split; [|split].
  - intros m Hm. rewrite Hm in Hinv. exact Hinv.
  - intros Hnone. rewrite Hnone in Hinv. exact Hinv.
  - unfold slimResult. cbn [distance]. destruct (locationsOf t); reflexivity.
Qed.

Section SortedResultsFacts.

Lemma filter_split_length (A : Type) (f : A -> bool) (l : list A) :
  length (filter f l) + length (filter (fun x => negb (f x)) l) = length l.
Proof.
  induction l as [|x l IH]; simpl; [reflexivity|].
  destruct (f x); simpl; lia.
Qed.

Lemma filter_split_perm (A : Type) (f : A -> bool) (l : list A) :
  Permutation l (filter f l ++ filter (fun x => negb (f x)) l).
Proof.
  induction l as [|x l IH]; simpl; [constructor|].
  destruct (f x); simpl.
  - constructor. exact IH.
  - rewrite <- Permutation_middle. constructor. exact IH.
Qed.

Lemma sortedResults_subset (zipCode : option string) (slim : list TrialSearchResult) :
  forall r, In r (sortedResults zipCode slim) -> In r slim.
Proof.
  intros r. unfold sortedResults, JsArray.slice0.
  assert (Hsorted : In r (firstn 20 (JsArray.sort cmp999 (filter distanceDefined slim)))
                    -> In r slim).
  { intros Hr. apply firstn_subset in Hr.
    apply (proj1 (@sort_In _ cmp999 r _)) in Hr. apply filter_In in Hr. tauto. }
  destruct zipCode as [z|]; [destruct (truthy z)|]; try apply firstn_subset.
  destruct (length _ <? 20)%nat; [|exact Hsorted].
  intros Hr. apply in_app_or in Hr. destruct Hr as [Hr | Hr]; [exact (Hsorted Hr)|].
  apply firstn_subset in Hr. apply filter_In in Hr. tauto.
Qed.

End SortedResultsFacts.

(** X12.  With a postal code and at most 20 results, sorting loses and
    repeats nothing: the returned list is a rearrangement of the slim
    results. *)
Theorem sorted_results_lose_nothing (z : string) (slim : list TrialSearchResult) :
  truthy z = true -> length slim <= 20 ->
  Permutation slim (sortedResults (Some z) slim).
Proof.
  intros Hz Hlen. unfold sortedResults, JsArray.slice0. rewrite Hz.
  pose proof (filter_split_length distanceDefined slim) as Hsplit.
  pose proof (sort_perm cmp999 (filter distanceDefined slim)) as Hperm.
  pose proof (Permutation_length Hperm) as Hplen.
  rewrite (firstn_all2 (n := 20) (JsArray.sort cmp999 (filter distanceDefined slim)))
    by lia.
  destruct (length _ <? 20)%nat eqn:E.
  - rewrite firstn_all2 by lia.
    rewrite <- Hperm. apply filter_split_perm.
  - apply Nat.ltb_ge in E.
    assert (Hnil : filter (fun r => negb (distanceDefined r)) slim = []).
    { apply length_zero_iff_nil. lia. }
    rewrite <- Hperm. pose proof (filter_split_perm distanceDefined slim) as Hp.
    rewrite Hnil, app_nil_r in Hp. exact Hp.
Qed.

(** X12 on the three demo results: the record without coordinates is kept,
    behind the two others. *)
Lemma sorted_results_lose_nothing_witness :
  Permutation
    (map (slimResult Demo.demoGeo (Some (36, 86)))
       [Demo.trialC; Demo.trialB; Demo.trialA])
    (sortedResults (Some "37203"%string)
       (map (slimResult Demo.demoGeo (Some (36, 86)))
          [Demo.trialC; Demo.trialB; Demo.trialA])).
Proof.
  apply sorted_results_lose_nothing; [reflexivity | simpl; lia].
Defined.

(** X13.  What a successful [search_trials] returns: [totalFound] is the
    count reported upstream and [showing] the length of the returned list,
    which holds at most 20 entries; every entry is the slim result of a
    record of the first page, computed for the postal code of the
    arguments.  Without a truthy postal code the entries are the first 20
    in the order of the service; with one, no entry with a distance
    follows an entry without. *)
Theorem search_trials_result_shape (env : Env) (args : ToolArgs) (st : ToolState)
  (data : SCRISearchData) :
  scri_searchTrials env (scriCalls st) (js_String (a_cancerType args)) 1 = Ok data ->
  exists zipShown message trials,
    fst (executeTool env "search_trials" (Some args) st)
    = Ok (SearchTrialsResult (a_cancerType args) zipShown
            (totalItemCount data) (length trials) message trials)
    /\ length trials <= 20
    /\ (forall r, In r trials ->
          exists t, In t (searchResultsData data)
                    /\ r = slimResult (geo env)
                             (userCoordsOf (geo env) (a_zipCode args)) t)
    /\ (isTruthyZip (a_zipCode args) = false ->
        trials = firstn 20
                   (map (slimResult (geo env)
                           (userCoordsOf (geo env) (a_zipCode args)))
                      (searchResultsData data)))
    /\ (isTruthyZip (a_zipCode args) = true ->
        unresolvedLast (distances trials) = true).
Proof.
  intros Hdata.
  change (executeTool env "search_trials") with (search_trials env).
  unfold search_trials, searchTrials, scri_call, setCache.
  cbn [bind arg ret modify]. rewrite Hdata. cbn [fst].
  set (slim := map (slimResult (geo env) (userCoordsOf (geo env) (a_zipCode args)))
                 (searchResultsData data)).
  do 3 eexists. split; [reflexivity|].
  split; [apply sortedResults_cap|].
  split; [|split].
  - intros r Hr. apply sortedResults_subset in Hr. unfold slim in Hr.
    apply in_map_iff in Hr. destruct Hr as [t [<- Ht]]. exists t. auto.
  - intros Hzip. unfold sortedResults, isTruthyZip, JsArray.slice0 in *.
    destruct (a_zipCode args) as [z|]; [rewrite Hzip|]; reflexivity.
  - intros Hzip. unfold isTruthyZip in Hzip.
    destruct (a_zipCode args) as [z|]; [|discriminate Hzip].
    apply sortedResults_unresolved_last. exact Hzip.
Qed.

(** X13 on the demo service, asked from ZIP 37203. *)
Lemma search_trials_result_shape_witness :
  exists zipShown message trials,
    fst (executeTool (Demo.demoEnv [Demo.trialC; Demo.trialB; Demo.trialA]
                        Demo.silentModel)
           "search_trials" (Some (Demo.searchArgs (Some "37203"))) Demo.emptyTools)
    = Ok (SearchTrialsResult (Some "Breast") zipShown 3 (length trials) message trials)
    /\ length trials <= 20.
Proof.
  destruct (@search_trials_result_shape
              (Demo.demoEnv [Demo.trialC; Demo.trialB; Demo.trialA] Demo.silentModel)
              (Demo.searchArgs (Some "37203")) Demo.emptyTools
              (mkSearchData 3 [Demo.trialC; Demo.trialB; Demo.trialA]) eq_refl)
    as [zipShown [message [trials (Hres & Hlen & _)]]].
  exists zipShown, message, trials. split; [exact Hres | exact Hlen].
Defined.

(** X14.  When the trial service fails, [search_trials] fails with the
    error of the service: nothing is cached and nothing else is called;
    the same holds when the tool is called without an argument object,
    except that the service is not reached at all. *)
Theorem search_trials_upstream_failure (env : Env) (args : ToolArgs) (st : ToolState)
  (e : string) :
  scri_searchTrials env (scriCalls st) (js_String (a_cancerType args)) 1 = Throw e ->
  executeTool env "search_trials" (Some args) st
  = (Throw e, mkToolState (trialCache st) (S (scriCalls st)) (httpLog st))
  /\ exists e0, executeTool env "search_trials" None st = (Throw e0, st).
Proof.
  intros Hdata.
  change (executeTool env "search_trials") with (search_trials env).
  unfold search_trials, searchTrials, scri_call, setCache.
  cbn [bind arg ret modify throw]. rewrite Hdata. split; [reflexivity|].
  eexists. reflexivity.
Qed.

(** X14 with the service down. *)
Lemma search_trials_upstream_failure_witness :
  executeTool offlineEnv "search_trials" (Some (Demo.searchArgs None)) Demo.emptyTools
  = (Throw "Error: API error: 503 Service Unavailable",
     mkToolState JsMap.empty 1 [])
  /\ exists e0,
       executeTool offlineEnv "search_trials" None Demo.emptyTools
       = (Throw e0, Demo.emptyTools).
Proof.
  apply (@search_trials_upstream_failure offlineEnv (Demo.searchArgs None)
           Demo.emptyTools "Error: API error: 503 Service Unavailable" eq_refl).
Defined.

(** X15.  [get_available_cancer_types] ignores its arguments and lists the
    texts of exactly the enabled filter items of the service, each as often
    as the service returned it, by non-decreasing [sortOrder]; it asks the
    service once and leaves the cache as it was. *)
Theorem cancer_types_enabled_in_order (env : Env) (args : option ToolArgs)
  (st : ToolState) (filters : list SCRIFilterItem) :
  scri_getFilters env (scriCalls st) = Ok filters ->
  exists items,
    executeTool env "get_available_cancer_types" args st
    = (Ok (CancerTypes (map filterItemText items)),
       mkToolState (trialCache st) (S (scriCalls st)) (httpLog st))
    /\ Permutation (filter isEnabled filters) items
    /\ StronglySorted (fun a b => sortOrder a <= sortOrder b) items.
Proof.
  intros Hfilters.
  exists (JsArray.sort (fun a b => Nat.compare (sortOrder a) (sortOrder b))
            (filter isEnabled filters)).
  split; [|split].
  - change (executeTool env "get_available_cancer_types" args)
      with (types <- getCancerTypeList env ;; ret (CancerTypes types)).
    unfold getCancerTypeList, getFilters, scri_call, bind, ret. cbn beta.
    rewrite Hfilters. reflexivity.
  - apply sort_perm.
  - apply (sort_sorted sortOrder).
Qed.

(** X15 on the demo service: the disabled item is left out and "Breast"
    (order 1) precedes "Lung" (order 2). *)
Lemma cancer_types_enabled_in_order_witness :
  exists items,
    executeTool (Demo.demoEnv [] Demo.silentModel)
      "get_available_cancer_types" None Demo.emptyTools
    = (Ok (CancerTypes (map filterItemText items)), mkToolState JsMap.empty 1 [])
    /\ Permutation
         (filter isEnabled
            [mkFilterItem "Lung" true 2; mkFilterItem "Old" false 0;
             mkFilterItem "Breast" true 1])
         items
    /\ StronglySorted (fun a b => sortOrder a <= sortOrder b) items.
Proof.
  apply (@cancer_types_enabled_in_order (Demo.demoEnv [] Demo.silentModel) None
           Demo.emptyTools _ eq_refl).
Defined.

(* ===================================================================== *)
(** * The shape of a turn                                                 *)
(* ===================================================================== *)

Section TurnShape.
Variable env : Env.

Lemma cacheTrials_keeps_keys (data : list SCRITrial) (zip : option string) :
  forall (c : TrialCache) k,
    In k (JsMap.keys c) -> In k (JsMap.keys (cacheTrials data zip c)).
Proof.
  unfold cacheTrials. induction data as [|t data IH]; intros c k Hk; simpl;
    [exact Hk|].
  apply IH. apply cacheTrial_keys. exact Hk.
Qed.

Lemma executeTool_keeps_keys (toolName : string) (args : option ToolArgs)
  (st : ToolState) (k : string) :
  In k (JsMap.keys (trialCache st)) ->
  In k (JsMap.keys (trialCache (snd (executeTool env toolName args st)))).
Proof.
  intros Hk. destruct (String.eqb_spec toolName "search_trials") as [-> | Hname].
  - change (executeTool env "search_trials") with (search_trials env).
    destruct (@search_trials_cache env args st) as [-> | [data ->]]; [exact Hk|].
    apply cacheTrials_keeps_keys. exact Hk.
  - rewrite (@executeTool_keeps_cache env toolName args st Hname). exact Hk.
Qed.

Lemma runCall_keeps_keys (call : FunctionCall) (st : ToolState) (k : string) :
  In k (JsMap.keys (trialCache st)) ->
  In k (JsMap.keys (trialCache (snd (runCall env call st)))).
Proof.
  intros Hk. unfold runCall. run_eff.
  destruct (JSON_parse env (arguments call)) as [args | e]; [|exact Hk].
  pose proof (@executeTool_keeps_keys (name call) args st k Hk) as H.
  destruct (executeTool env (name call) args st) as [[r | e] st']; exact H.
Qed.

(** Only [search_trials] returns an object with [trials] of the
    catalogue. *)
Lemma executeTool_trialsOf (toolName : string) (args : option ToolArgs)
  (st : ToolState) (r : ToolResult) (st' : ToolState) :
  toolName <> "search_trials"%string ->
  executeTool env toolName args st = (Ok r, st') -> trialsOf r = [].
Proof.
  intros Hname. unfold executeTool.
  destruct (toolName =? "search_trials") eqn:E0;
    [apply String.eqb_eq in E0; contradiction|].
  destruct (toolName =? "get_study_details").
  { unfold get_study_details. destruct args as [a|]; run_eff; [|discriminate].
    destruct (a_studyId a) as [sid|]; run_eff; [|discriminate].
    destruct (getCachedTrial sid (trialCache st)) as [cached|]; run_eff.
    - intros [= <- _]. reflexivity.
    - unfold getTrialDetails. run_eff.
      destruct (scri_getTrialDetails env (scriCalls st) sid);
        intros [= <- _]; reflexivity. }
  destruct (toolName =? "get_trial_eligibility").
  { destruct args as [a|]; [|discriminate].
    unfold get_trial_eligibility. run_eff.
    destruct (@fetchCTGovStudy_frame env (a_nctId a) st) as [s [st1 (-> & _)]].
    destruct s; intros [= <- _]; reflexivity. }
  destruct (toolName =? "get_trial_treatment_info").
  { destruct args as [a|]; [|discriminate].
    unfold get_trial_treatment_info. run_eff.
    destruct (@fetchCTGovStudy_frame env (a_nctId a) st) as [s [st1 (-> & _)]].
    destruct s; intros [= <- _]; reflexivity. }
  destruct (toolName =? "get_available_cancer_types").
  { unfold getCancerTypeList, getFilters. run_eff.
    destruct (scri_getFilters env (scriCalls st)); [|discriminate].
    intros [= <- _]. reflexivity. }
  destruct (toolName =? "search_all_trials"); [|discriminate].
  destruct args as [a|]; [|discriminate].
  unfold search_all_trials. run_eff.
  destruct (@searchCTGov_frame env (js_String (a_condition a)) (a_location a)
              (match a_distance a with Some (S n) => S n | _ => 100 end) 10 st)
    as [l [st1 (-> & _)]].
  intros [= <- _]. reflexivity.
Qed.

Lemma processCall_shape (outs : list FunctionCallOutput)
  (allTrials : list TrialSearchResult) (st : ToolState) (call : FunctionCall) :
  exists o st',
    processCall env (outs, allTrials, st) call
    = (outs ++ [o], allTrials ++ trialsOf (out_output o), st')
    /\ forall k, In k (JsMap.keys (trialCache st)) ->
                 In k (JsMap.keys (trialCache st')).
Proof.
  unfold processCall.
  pose proof (fun k => @runCall_keeps_keys call st k) as Hkeys.
  destruct (runCall env call st) as [[result | e] st'] eqn:Hrun; cbn [snd] in Hkeys.
  - exists (mkOutput (call_id call) result), st'. split; [|exact Hkeys].
    cbn [out_output]. f_equal. f_equal. unfold collectTrials.
    destruct (String.eqb_spec (name call) "search_trials") as [Hn | Hn].
    + destruct result; cbn [trialsOf]; rewrite ?app_nil_r; reflexivity.
    + unfold runCall in Hrun. revert Hrun. run_eff.
      destruct (JSON_parse env (arguments call)) as [args | e]; [|discriminate].
      intros Hrun. rewrite (@executeTool_trialsOf _ _ _ _ _ Hn Hrun), app_nil_r.
      reflexivity.
  - exists (mkOutput (call_id call) (ErrorPayload e)), st'. split; [|exact Hkeys].
    cbn [out_output trialsOf]. rewrite app_nil_r. reflexivity.
Qed.

Lemma fold_processCall_shape (calls : list FunctionCall) :
  forall outs allTrials st,
  exists news st',
    fold_left (processCall env) calls (outs, allTrials, st)
    = (outs ++ news,
       allTrials ++ flat_map (fun o => trialsOf (out_output o)) news, st')
    /\ forall k, In k (JsMap.keys (trialCache st)) ->
                 In k (JsMap.keys (trialCache st')).
Proof.
  induction calls as [|call calls IH]; intros outs allTrials st; cbn [fold_left].
  - exists [], st. cbn [flat_map]. rewrite !app_nil_r. auto.
  - destruct (processCall_shape outs allTrials st call) as [o [st1 [-> Hk1]]].
    destruct (IH (outs ++ [o]) (allTrials ++ trialsOf (out_output o)) st1)
      as [news [st2 [-> Hk2]]].
    exists (o :: news), st2. cbn [flat_map]. rewrite <- !app_assoc. split; auto.
Qed.

(** The tool loop: every request carries the system prompt of the profile
    held at the start, the trials collected are those of the search results
    submitted, and the cache loses no key. *)
Lemma toolLoop_shape (budget : nat) :
  forall response allTrials a,
  exists entries,
    modelLog (snd (toolLoop env budget response allTrials a))
    = modelLog a ++ entries
    /\ Forall (fun e => instructions (fst e) = getSystemPrompt env (patientProfile a))
         entries
    /\ (forall k, In k (JsMap.keys (trialCache (tools a))) ->
                  In k (JsMap.keys
                          (trialCache
                             (tools (snd (toolLoop env budget response allTrials a))))))
    /\ (forall final found,
           fst (toolLoop env budget response allTrials a) = Ok (final, found) ->
           found = allTrials ++ submittedTrials entries).
Proof.
  induction budget as [|budget IH]; intros response allTrials a.
  - exists []. simpl. rewrite app_nil_r. repeat split; auto.
    intros final found [= _ <-]. rewrite app_nil_r. reflexivity.
  - assert (Hstop : exists entries,
               modelLog (snd (Ok (response, allTrials), a)) = modelLog a ++ entries
               /\ Forall (fun e => instructions (fst e)
                                   = getSystemPrompt env (patientProfile a)) entries
               /\ (forall k, In k (JsMap.keys (trialCache (tools a))) ->
                             In k (JsMap.keys
                                     (trialCache
                                        (tools (snd (Ok (response, allTrials), a))))))
               /\ (forall final found,
                      fst (Ok (response, allTrials), a) = Ok (final, found) ->
                      found = allTrials ++ submittedTrials entries)).
    { exists []. simpl. rewrite app_nil_r. repeat split; auto.
      intros final found [= _ <-]. rewrite app_nil_r. reflexivity. }
    simpl toolLoop.
    destruct (response_status response); try exact Hstop.
    destruct (output response) as [out|] eqn:Hout; try exact Hstop.
    destruct (functionCallsOf out) as [|call calls] eqn:Hcalls; try exact Hstop.
    clear Hstop. unfold processCalls.
    destruct (fold_processCall_shape (call :: calls) [] allTrials (tools a))
      as [news [st' [-> Hkeys]]].
    cbn [app]. unfold create.
    cbn [modelLog patientProfile previousResponseId tools].
    set (params := {| instructions := getSystemPrompt env (patientProfile a);
                      input := InputToolResults news;
                      previous_response_id := Some (response_id response) |}).
    destruct (responses_create env (length (modelLog a)) params)
      as [response' | e] eqn:Hcreate.
    + specialize (IH response'
                    (allTrials ++ flat_map (fun o => trialsOf (out_output o)) news)
                    (mkAgent (patientProfile a) (previousResponseId a) st'
                       (modelLog a ++ [(params, Ok response')]))).
      destruct IH as [entries (Hlog & Hinstr & Hk & Hfound)].
      exists ((params, Ok response') :: entries).
      cbn [modelLog patientProfile tools] in Hlog, Hinstr, Hk.
      rewrite Hlog, <- app_assoc. split; [reflexivity|].
      split; [constructor; [reflexivity | exact Hinstr]|].
      split; [intros k Hin; apply Hk, Hkeys, Hin|].
      intros final found Hres. rewrite (Hfound final found Hres).
      unfold submittedTrials. cbn [flat_map fst input params].
      rewrite <- app_assoc. reflexivity.
    + exists [(params, Throw e)]. cbn [fst snd modelLog tools].
      split; [reflexivity|].
      split; [constructor; [reflexivity | constructor]|].
      split; [exact Hkeys|]. intros final found Hres. discriminate Hres.
Qed.

(** One turn, request by request. *)
Lemma chat_shape (userMessage : string) (a : Agent) :
  exists entries,
    modelLog (snd (chat env userMessage a))
    = modelLog a
      ++ (firstRequest env userMessage a,
          responses_create env (length (modelLog a))
            (firstRequest env userMessage a)) :: entries
    /\ Forall (fun e => instructions (fst e) = getSystemPrompt env (patientProfile a))
         entries
    /\ (forall k, In k (JsMap.keys (trialCache (tools a))) ->
                  In k (JsMap.keys (trialCache (tools (snd (chat env userMessage a))))))
    /\ (forall res,
           fst (chat env userMessage a) = Ok res ->
           cr_trials res = match submittedTrials entries with
                           | [] => None
                           | _ :: _ => Some (submittedTrials entries)
                           end).
Proof.
  unfold chat, create. fold (firstRequest env userMessage a).
  destruct (responses_create env (length (modelLog a)) (firstRequest env userMessage a))
    as [response | e].
  - set (a1 := mkAgent (patientProfile a) (previousResponseId a) (tools a)
                 (modelLog a ++ [(firstRequest env userMessage a, Ok response)])).
    destruct (toolLoop_shape maxLoops response [] a1)
      as [entries (Hlog & Hinstr & Hk & Hfound)].
    exists entries.
    destruct (toolLoop env maxLoops response [] a1) as [[[final found] | e] a2];
      cbn [fst snd] in *.
    + cbn [modelLog tools]. rewrite Hlog. unfold a1. cbn [modelLog].
      rewrite <- app_assoc. split; [reflexivity|].
      split; [exact Hinstr|]. split; [exact Hk|].
      intros res [= <-]. cbn [cr_trials]. rewrite (Hfound final found eq_refl).
      reflexivity.
    + rewrite Hlog. unfold a1. cbn [modelLog]. rewrite <- app_assoc.
      split; [reflexivity|]. split; [exact Hinstr|]. split; [exact Hk|].
      intros res Hres. discriminate Hres.
  - exists []. cbn [fst snd modelLog tools]. split; [reflexivity|].
    split; [constructor|]. split; [auto|]. intros res Hres. discriminate Hres.
Qed.

End TurnShape.

(** X16.  The requests of a turn: the first carries the message of the
    user, as a text when a truthy token is held and as a user item
    otherwise, together with the token held; every request of the turn
    carries the system prompt of the profile held when the turn started,
    and the turn leaves that profile in place. *)
Theorem turn_requests_share_prompt (env : Env) (userMessage : string) (a : Agent) :
  exists r0 entries,
    callsSince (modelLog a) (snd (chat env userMessage a))
    = (firstRequest env userMessage a, r0) :: entries
    /\ r0 = responses_create env (length (modelLog a)) (firstRequest env userMessage a)
    /\ Forall (fun e => instructions (fst e) = getSystemPrompt env (patientProfile a))
         ((firstRequest env userMessage a, r0) :: entries)
    /\ patientProfile (snd (chat env userMessage a)) = patientProfile a.
Proof.
  destruct (chat_shape env userMessage a) as [entries (Hlog & Hinstr & _)].
  destruct (chat_log env userMessage a) as [_ [_ [_ (_ & _ & _ & _ & Hprof & _)]]].
  do 2 eexists. split; [|split; [reflexivity|split; [|exact Hprof]]].
  - unfold callsSince. rewrite Hlog. apply skipn_app_exact.
  - constructor; [reflexivity | exact Hinstr].
Qed.

(** X17.  The trials that an answered turn hands to the caller are the
    trials of the [search_trials] results submitted to the model during
    the turn, in the order of submission; [trials] is absent when there
    are none. *)
Theorem chat_trials_are_those_submitted (env : Env) (userMessage : string)
  (a : Agent) (res : ChatResult) (a' : Agent) :
  chat env userMessage a = (Ok res, a') ->
  cr_trials res
  = match submittedTrials (callsSince (modelLog a) a') with
    | [] => None
    | _ :: _ => Some (submittedTrials (callsSince (modelLog a) a'))
    end.
Proof.
  intros Hchat.
  destruct (chat_shape env userMessage a) as [entries (Hlog & _ & _ & Hres)].
  rewrite Hchat in Hlog, Hres. cbn [fst snd] in Hlog, Hres.
  unfold callsSince. rewrite Hlog, skipn_app_exact.
  replace (submittedTrials ((firstRequest env userMessage a,
                             responses_create env (length (modelLog a))
                               (firstRequest env userMessage a)) :: entries))
    with (submittedTrials entries); [apply Hres; reflexivity|].
  unfold submittedTrials at 2. cbn [flat_map fst firstRequest input].
  destruct (truthyStr (previousResponseId a)); reflexivity.
Qed.

(** X17 on a turn with one search: the two results of the search are
    handed over. *)
Lemma chat_trials_are_those_submitted_witness :
  exists res a',
    chat (Demo.demoEnv [Demo.trialA; Demo.trialB]
            (Demo.searchingModel "search Breast 37203"))
      "breast cancer trials near 37203"
      (Demo.freshAgent (Some Demo.nashvilleProfile))
    = (Ok res, a')
    /\ option_map (map sr_id) (cr_trials res) = Some ["B2"; "A1"]%string
    /\ cr_trials res = Some (submittedTrials (callsSince [] a')).
Proof.
  destruct (chat (Demo.demoEnv [Demo.trialA; Demo.trialB]
                    (Demo.searchingModel "search Breast 37203"))
              "breast cancer trials near 37203"
              (Demo.freshAgent (Some Demo.nashvilleProfile)))
    as [[res | e] a'] eqn:Hrun; [|vm_compute in Hrun; discriminate Hrun].
  pose proof (chat_trials_are_those_submitted _ _ _ Hrun) as H.
  vm_compute in Hrun. injection Hrun as <- <-.
  do 2 eexists. split; [reflexivity|]. split; [reflexivity|].
  rewrite H. reflexivity.
Defined.

(** X18.  A turn never evicts: every key cached before the turn is cached
    after it, whatever the model and the tools did.  A turn that fails
    leaves the token as it was, so that the next turn continues from the
    same response as the failed one. *)
Theorem turn_keeps_cache_and_failed_turn_token (env : Env) (userMessage : string)
  (a : Agent) :
  (forall k, In k (JsMap.keys (trialCache (tools a))) ->
             In k (JsMap.keys (trialCache (tools (snd (chat env userMessage a))))))
  /\ (forall e,
         fst (chat env userMessage a) = Throw e ->
         previousResponseId (snd (chat env userMessage a)) = previousResponseId a
         /\ firstRequest env userMessage (snd (chat env userMessage a))
            = firstRequest env userMessage a).
Proof.
  destruct (chat_shape env userMessage a) as [entries (_ & _ & Hkeys & _)].
  split; [exact Hkeys|]. intros e Hthrow.
  destruct (chat_log env userMessage a)
    as [p0 [r0 [rest (_ & _ & _ & _ & Hprof & Hcase)]]].
  assert (Hprev : previousResponseId (snd (chat env userMessage a))
                  = previousResponseId a).
  { destruct r0 as [response | e0].
    - destruct Hcase as [_ Hcase].
      destruct (lastResponse response rest) as [final | e1].
      + destruct Hcase as [[found Hres] _]. rewrite Hres in Hthrow.
        discriminate Hthrow.
      + destruct Hcase as [_ Hprev]. exact Hprev.
    - destruct Hcase as (_ & _ & Hprev). exact Hprev. }
  split; [exact Hprev|]. unfold firstRequest. rewrite Hprev, Hprof. reflexivity.
Qed.

(** X19.  Restoring a truthy token makes the next turn continue from it:
    its first request sends the message as a text with that token.  After
    [resetConversation] the state reads as no conversation, the next turn
    starts a new one (a user item and no token), and the cache and the
    profile are those of before. *)
Theorem resumed_and_reset_turns (env : Env) (userMessage token : string)
  (a : Agent) :
  truthy token = true ->
  (exists r entries,
      callsSince (modelLog a)
        (snd (chat env userMessage (restoreConversationState token a)))
      = ({| instructions := getSystemPrompt env (patientProfile a);
            input := InputText userMessage;
            previous_response_id := Some token |}, r) :: entries)
  /\ getConversationState (restoreConversationState token a) = (Some token, true)
  /\ (exists r entries,
         callsSince (modelLog a) (snd (chat env userMessage (resetConversation a)))
         = ({| instructions := getSystemPrompt env (patientProfile a);
               input := InputUserTurn userMessage;
               previous_response_id := None |}, r) :: entries)
  /\ getConversationState (resetConversation a) = (None, false)
  /\ tools (resetConversation a) = tools a
  /\ patientProfile (resetConversation a) = patientProfile a.
Proof.
  intros Htoken. split; [|split; [|split; [|auto]]].
  - destruct (chat_shape env userMessage (restoreConversationState token a))
      as [entries (Hlog & _)].
    unfold callsSince. rewrite Hlog.
    cbn [restoreConversationState modelLog]. rewrite skipn_app_exact.
    unfold firstRequest, restoreConversationState.
    cbn [patientProfile previousResponseId truthyStr].
    rewrite Htoken. do 2 eexists. reflexivity.
  - unfold getConversationState, restoreConversationState.
    cbn [previousResponseId truthyStr]. rewrite Htoken. reflexivity.
  - destruct (chat_shape env userMessage (resetConversation a))
      as [entries (Hlog & _)].
    unfold callsSince. rewrite Hlog.
    cbn [resetConversation modelLog]. rewrite skipn_app_exact.
    do 2 eexists. reflexivity.
Qed.

(** X19 with the token [resp_7]. *)
Lemma resumed_and_reset_turns_witness :
  getConversationState
    (restoreConversationState "resp_7" (Demo.freshAgent None))
  = (Some "resp_7"%string, true)
  /\ getConversationState (resetConversation (Demo.freshAgent None)) = (None, false).
Proof.
  destruct (@resumed_and_reset_turns
              (Demo.demoEnv [] Demo.silentModel) "hello" "resp_7"
              (Demo.freshAgent None) eq_refl)
    as (_ & Hrestored & _ & Hreset & _).
  split; [exact Hrestored | exact Hreset].
Defined.

(* ===================================================================== *)
(** * The background worker                                               *)
(* ===================================================================== *)

Section WorkerFacts.
Import Background.
Variable EMBEDDED_KEY : string.
Variable env : Env.

Lemma getAgent_ready (w : Worker) :
  ready EMBEDDED_KEY w = true ->
  getAgent EMBEDDED_KEY w = (Ok (agentOf w), mkWorker true (agentOf w) (storage w)).
Proof.
  unfold ready, getAgent, agentOf. destruct w as [[|] a s]; cbn [hasAgent core storage].
  - reflexivity.
  - cbn [orb]. intros ->. reflexivity.
Qed.

Lemma getAgent_unready (w : Worker) :
  ready EMBEDDED_KEY w = false ->
  getAgent EMBEDDED_KEY w = (Throw noKeyError, w).
Proof.
  unfold ready, getAgent. destruct (hasAgent w); [discriminate|].
  cbn [orb]. intros ->. reflexivity.
Qed.

Lemma withAgent_ready (A : Type) (method : Agent -> Result A * Agent) (w : Worker) :
  ready EMBEDDED_KEY w = true ->
  withAgent EMBEDDED_KEY method w
  = (fst (method (agentOf w)), mkWorker true (snd (method (agentOf w))) (storage w)).
Proof.
  intros Hready. unfold withAgent. rewrite (getAgent_ready w Hready).
  cbn [storage]. destruct (method (agentOf w)); reflexivity.
Qed.

Lemma withAgent_unready (A : Type) (method : Agent -> Result A * Agent) (w : Worker) :
  ready EMBEDDED_KEY w = false ->
  withAgent EMBEDDED_KEY method w = (Throw noKeyError, w).
Proof.
  intros Hready. unfold withAgent. rewrite (getAgent_unready w Hready). reflexivity.
Qed.

(** The [CHAT] case, once the agent is there. *)
Lemma handle_chat (pm : option string) (pt : string) (w : Worker) :
  ready EMBEDDED_KEY w = true ->
  handleMessage EMBEDDED_KEY env (CHAT pm pt) w
  = match chat env (orString pm pt) (agentOf w) with
    | (Ok res, a') =>
        (Ok (ChatReply (cr_text res) (cr_trials res)),
         mkWorker true a'
           (mkStorage (openai_api_key (storage w)) (patient_profile (storage w))
              (orOption (previousResponseId a') None)))
    | (Throw e, a') => (Throw e, mkWorker true a' (storage w))
    end.
Proof.
  intros Hready. unfold handleMessage, bind.
  rewrite (withAgent_ready (chat env (orString pm pt)) w Hready).
  destruct (chat env (orString pm pt) (agentOf w)) as [[res | e] a']; cbn [fst snd];
    reflexivity.
Qed.

Lemma agentOf_started (w : Worker) :
  hasAgent w = false ->
  trialCache (tools (agentOf w)) = JsMap.empty
  /\ patientProfile (agentOf w) = patient_profile (storage w)
  /\ previousResponseId (agentOf w)
     = orOption (session_previousResponseId (storage w)) None
  /\ modelLog (agentOf w) = modelLog (core w)
  /\ scriCalls (tools (agentOf w)) = scriCalls (tools (core w))
  /\ httpLog (tools (agentOf w)) = httpLog (tools (core w)).
Proof.
  intros Hno. unfold agentOf, restoreSaved, orOption, truthyStr. rewrite Hno.
  destruct (session_previousResponseId (storage w)) as [token|];
    [destruct (truthy token)|]; repeat split; reflexivity.
Qed.

End WorkerFacts.

Section WorkerProperties.
Import Background.
Variable EMBEDDED_KEY : string.
Variable env : Env.

Lemma handle_chat_core (pm : option string) (pt : string) (w : Worker) :
  ready EMBEDDED_KEY w = true ->
  core (snd (handleMessage EMBEDDED_KEY env (CHAT pm pt) w))
  = snd (chat env (orString pm pt) (agentOf w)).
Proof.
  intros Hready. rewrite (handle_chat EMBEDDED_KEY env pm pt w Hready).
  destruct (chat env (orString pm pt) (agentOf w)) as [[res | e] a']; reflexivity.
Qed.

(** The requests of the turn of a [CHAT] message. *)
Lemma handle_chat_turn (pm : option string) (pt : string) (w : Worker) :
  ready EMBEDDED_KEY w = true ->
  exists r entries,
    callsSince (modelLog (core w))
      (core (snd (handleMessage EMBEDDED_KEY env (CHAT pm pt) w)))
    = (firstRequest env (orString pm pt) (agentOf w), r) :: entries
    /\ Forall (fun e => instructions (fst e)
                        = getSystemPrompt env (patientProfile (agentOf w))) entries.
Proof.
  intros Hready. rewrite (handle_chat_core pm pt w Hready).
  destruct (chat_shape env (orString pm pt) (agentOf w)) as [entries (Hlog & Hinstr & _)].
  assert (Hsame : modelLog (agentOf w) = modelLog (core w)).
  { destruct (hasAgent w) eqn:Hhas.
    - unfold agentOf. rewrite Hhas. reflexivity.
    - apply (agentOf_started w Hhas). }
  unfold callsSince. rewrite Hlog, Hsame, skipn_app_exact. eauto.
Qed.

Lemma chat_failed_token (userMessage : string) (a : Agent) (e : string) :
  fst (chat env userMessage a) = Throw e ->
  previousResponseId (snd (chat env userMessage a)) = previousResponseId a.
Proof.
  intros Hthrow.
  destruct (chat_log env userMessage a) as [p0 [r0 [rest (_ & _ & _ & _ & _ & Hcase)]]].
  destruct r0 as [response | e0].
  - destruct Hcase as [_ Hcase].
    destruct (lastResponse response rest) as [final | e1].
    + destruct Hcase as [[found Hres] _]. rewrite Hres in Hthrow. discriminate Hthrow.
    + destruct Hcase as [_ Hprev]. exact Hprev.
  - destruct Hcase as (_ & _ & Hprev). exact Hprev.
Qed.

Lemma orOption_idem (o : option string) :
  orOption (orOption o None) None = orOption o None.
Proof.
  unfold orOption. destruct (truthyStr o) eqn:E; [rewrite E|]; reflexivity.
Qed.

Lemma agentOf_sync (w : Worker) :
  sessionInSync w ->
  orOption (session_previousResponseId (storage w)) None
  = orOption (previousResponseId (agentOf w)) None.
Proof.
  intros Hsync. destruct (hasAgent w) eqn:Hhas.
  - unfold agentOf. rewrite Hhas. exact (Hsync Hhas).
  - destruct (agentOf_started w Hhas) as (_ & _ & -> & _).
    symmetry. apply orOption_idem.
Qed.

Lemma agentExecuteTool_token (toolName : string) (args : option ToolArgs) (a : Agent) :
  previousResponseId (snd (agentExecuteTool env toolName args a)) = previousResponseId a
  /\ modelLog (snd (agentExecuteTool env toolName args a)) = modelLog a.
Proof.
  unfold agentExecuteTool. destruct (executeTool env toolName args (tools a)).
  split; reflexivity.
Qed.

(** X20.  An answered [CHAT] message: the reply is the result of the turn
    of the agent, the agent is kept, and the token it holds after the turn
    is written to the session slot ([null] for a falsy token); the stored
    key and profile are not touched. *)
Theorem chat_message_saves_token (pm : option string) (pt : string)
  (w : Worker) (reply : Reply) (w' : Worker) :
  handleMessage EMBEDDED_KEY env (CHAT pm pt) w = (Ok reply, w') ->
  exists res,
    chat env (orString pm pt) (agentOf w) = (Ok res, core w')
    /\ reply = ChatReply (cr_text res) (cr_trials res)
    /\ hasAgent w' = true
    /\ session_previousResponseId (storage w')
       = orOption (previousResponseId (core w')) None
    /\ openai_api_key (storage w') = openai_api_key (storage w)
    /\ patient_profile (storage w') = patient_profile (storage w).
Proof.
  destruct (ready EMBEDDED_KEY w) eqn:Hready.
  - rewrite (handle_chat EMBEDDED_KEY env pm pt w Hready).
    destruct (chat env (orString pm pt) (agentOf w)) as [[res | e] a'];
      [|discriminate].
    intros [= <- <-]. exists res. repeat split; reflexivity.
  - unfold handleMessage, bind.
    rewrite (withAgent_unready EMBEDDED_KEY (chat env (orString pm pt)) w Hready).
    discriminate.
Qed.

(** X21.  A conversation survives a restart of the worker: after an
    answered [CHAT] that left a truthy token, and with a key in reach, the
    first request of the next [CHAT] of the restarted worker continues
    from that token, with the system prompt of the stored profile. *)
Theorem restart_resumes_conversation (pm pm2 : option string) (pt pt2 : string)
  (w : Worker) (reply : Reply) (w1 : Worker) (token : string) :
  handleMessage EMBEDDED_KEY env (CHAT pm pt) w = (Ok reply, w1) ->
  truthy (orString (openai_api_key (storage w)) EMBEDDED_KEY) = true ->
  previousResponseId (core w1) = Some token ->
  truthy token = true ->
  exists r entries,
    callsSince (modelLog (core w1))
      (core (snd (handleMessage EMBEDDED_KEY env (CHAT pm2 pt2) (restart w1))))
    = ({| instructions := getSystemPrompt env (patient_profile (storage w1));
          input := InputText (orString pm2 pt2);
          previous_response_id := Some token |}, r) :: entries.
Proof.
  intros Hchat Hkey Htoken Htruthy.
  assert (Hready : ready EMBEDDED_KEY w = true).
  { unfold ready. rewrite Hkey. apply orb_true_r. }
  rewrite (handle_chat EMBEDDED_KEY env pm pt w Hready) in Hchat.
  destruct (chat env (orString pm pt) (agentOf w)) as [[res | e] a'];
    [|discriminate Hchat].
  injection Hchat as _ <-. cbn [core storage] in *.
  set (w1 := mkWorker true a'
               (mkStorage (openai_api_key (storage w)) (patient_profile (storage w))
                  (orOption (previousResponseId a') None))).
  assert (Hready1 : ready EMBEDDED_KEY (restart w1) = true).
  { unfold ready, restart, w1. cbn [hasAgent storage openai_api_key orb].
    exact Hkey. }
  destruct (handle_chat_turn pm2 pt2 (restart w1) Hready1) as [r [entries [Hturn _]]].
  exists r, entries. cbn [restart core] in Hturn. unfold w1 at 1 in Hturn.
  cbn [core] in Hturn. rewrite Hturn. f_equal. f_equal.
  destruct (agentOf_started (restart w1) eq_refl) as (_ & Hprof & Hprev & _).
  unfold firstRequest. rewrite Hprof, Hprev.
  cbn [restart storage w1 session_previousResponseId patient_profile].
  rewrite Htoken. unfold orOption. cbn [truthyStr]. rewrite Htruthy.
  cbn [truthyStr]. rewrite Htruthy. cbn [truthyStr]. rewrite Htruthy. reflexivity.
Qed.

(** X22.  Without an agent and without a stored or embedded key, every
    message that needs the agent fails with the key error and changes
    nothing, and [GET_API_KEY] reports that there is no key. *)
Theorem no_key_no_agent (w : Worker) :
  ready EMBEDDED_KEY w = false ->
  (forall message,
      In message [RESET_CONVERSATION; GET_FILTERS]
      \/ (exists pm pt, message = CHAT pm pt)
      \/ (exists ct zc, message = SEARCH_TRIALS ct zc)
      \/ (exists nct tid, message = GET_TRIAL nct tid) ->
      handleMessage EMBEDDED_KEY env message w = (Throw noKeyError, w))
  /\ handleMessage EMBEDDED_KEY env GET_API_KEY w = (Ok (KeyStatus false None), w).
Proof.
  intros Hready. split.
  - intros message Hm. unfold handleMessage, bind.
    destruct Hm as [[<- | [<- | []]] | [[pm [pt ->]] | [[ct [zc ->]] | [nct [tid ->]]]]];
      rewrite (withAgent_unready EMBEDDED_KEY _ w Hready); reflexivity.
  - unfold ready in Hready. apply orb_false_iff in Hready. destruct Hready as [_ Hkey].
    unfold handleMessage, bind, gets, ret. rewrite Hkey. reflexivity.
Qed.

(** X23.  The [SEARCH_TRIALS] message never returns a result: it asks the
    agent for the tool [search_trials_nearby], which [executeTool] does not
    know, so that it fails with [Unknown tool] (or with the key error),
    without a call to any remote service and without a change of the
    storage. *)
Theorem search_trials_message_always_fails (cancerType zipCode : option string)
  (w : Worker) :
  exists e w',
    handleMessage EMBEDDED_KEY env (SEARCH_TRIALS cancerType zipCode) w = (Throw e, w')
    /\ (e = noKeyError \/ e = "Error: Unknown tool: search_trials_nearby"%string)
    /\ storage w' = storage w
    /\ modelLog (core w') = modelLog (core w)
    /\ scriCalls (tools (core w')) = scriCalls (tools (core w))
    /\ httpLog (tools (core w')) = httpLog (tools (core w)).
Proof.
  unfold handleMessage, bind.
  destruct (ready EMBEDDED_KEY w) eqn:Hready.
  - rewrite (withAgent_ready EMBEDDED_KEY _ w Hready).
    unfold agentExecuteTool.
    rewrite (@executeTool_unknown env "search_trials_nearby" _ (tools (agentOf w)))
      by (simpl; intuition discriminate).
    cbn [fst snd]. do 2 eexists. split; [reflexivity|]. split; [right; reflexivity|].
    cbn [storage core modelLog tools]. split; [reflexivity|].
    destruct (hasAgent w) eqn:Hhas.
    + unfold agentOf. rewrite Hhas. auto.
    + destruct (agentOf_started w Hhas) as (_ & _ & _ & Hlog & Hscri & Hhttp). auto.
  - rewrite (withAgent_unready EMBEDDED_KEY _ w Hready).
    do 2 eexists. split; [reflexivity|]. auto 6.
Qed.

(** X24.  Replacing the key drops the agent: the next agent starts with an
    empty cache, but with the stored profile and with the token of the
    session slot, so that the conversation goes on under the new key. *)
Theorem replacing_key_keeps_conversation (key : string) (w : Worker) :
  truthy key = true ->
  fst (handleMessage EMBEDDED_KEY env (SET_API_KEY key) w) = Ok Success
  /\ getAgent EMBEDDED_KEY (snd (handleMessage EMBEDDED_KEY env (SET_API_KEY key) w))
     = (Ok (agentOf (snd (handleMessage EMBEDDED_KEY env (SET_API_KEY key) w))),
        mkWorker true
          (agentOf (snd (handleMessage EMBEDDED_KEY env (SET_API_KEY key) w)))
          (mkStorage (Some key) (patient_profile (storage w))
             (session_previousResponseId (storage w))))
  /\ trialCache
       (tools (agentOf (snd (handleMessage EMBEDDED_KEY env (SET_API_KEY key) w))))
     = JsMap.empty
  /\ previousResponseId
       (agentOf (snd (handleMessage EMBEDDED_KEY env (SET_API_KEY key) w)))
     = orOption (session_previousResponseId (storage w)) None
  /\ patientProfile
       (agentOf (snd (handleMessage EMBEDDED_KEY env (SET_API_KEY key) w)))
     = patient_profile (storage w).
Proof.
  intros Hkey. unfold handleMessage, bind, modify, ret. cbn [fst snd].
  set (w' := mkWorker false (core w)
               (mkStorage (Some key) (patient_profile (storage w))
                  (session_previousResponseId (storage w)))).
  assert (Hready : ready EMBEDDED_KEY w' = true).
  { unfold ready, w'. cbn [hasAgent storage openai_api_key orString orb].
    unfold or_else. rewrite Hkey. exact Hkey. }
  split; [reflexivity|]. split; [exact (getAgent_ready EMBEDDED_KEY w' Hready)|].
  destruct (agentOf_started w' eq_refl) as (Hcache & Hprof & Hprev & _).
  auto.
Qed.

(** X25.  Whatever the message and however it ends, the session slot and
    the token of the agent held stay in agreement: the token that a
    restarted worker would restore is the one the agent holds. *)
Theorem session_token_in_sync (message : Message) (w : Worker) :
  sessionInSync w ->
  sessionInSync (snd (handleMessage EMBEDDED_KEY env message w)).
Proof.
  intros Hsync. pose proof (agentOf_sync Hsync) as Hagent.
  assert (Htool : forall toolName args,
             sessionInSync
               (snd (bind (withAgent EMBEDDED_KEY (agentExecuteTool env toolName args))
                       (fun result => ret (ToolReply result)) w))).
  { intros toolName args. unfold bind.
    destruct (ready EMBEDDED_KEY w) eqn:Hready.
    - rewrite (withAgent_ready EMBEDDED_KEY _ w Hready).
      destruct (agentExecuteTool_token toolName args (agentOf w)) as [Htok _].
      destruct (fst (agentExecuteTool env toolName args (agentOf w)));
        intros _; cbn [snd ret storage core]; rewrite Htok; exact Hagent.
    - rewrite (withAgent_unready EMBEDDED_KEY _ w Hready). exact Hsync. }
  destruct message as [pm pt | | key | | profile | | ct zc | nct tid | | type].
  - destruct (ready EMBEDDED_KEY w) eqn:Hready.
    + rewrite (handle_chat EMBEDDED_KEY env pm pt w Hready).
      pose proof (chat_failed_token (orString pm pt) (agentOf w)) as Hfail.
      destruct (chat env (orString pm pt) (agentOf w)) as [[res | e] a'];
        cbn [fst snd] in *; intros _;
        cbn [storage core session_previousResponseId].
      * apply orOption_idem.
      * rewrite (Hfail e eq_refl). exact Hagent.
    + unfold handleMessage, bind.
      rewrite (withAgent_unready EMBEDDED_KEY _ w Hready). exact Hsync.
  - unfold handleMessage, bind.
    destruct (ready EMBEDDED_KEY w) eqn:Hready.
    + rewrite (withAgent_ready EMBEDDED_KEY _ w Hready). intros _. reflexivity.
    + rewrite (withAgent_unready EMBEDDED_KEY _ w Hready). exact Hsync.
  - intros Hhas. discriminate Hhas.
  - exact Hsync.
  - unfold handleMessage, bind, modify, ret. cbn [snd]. intros Hhas.
    cbn [hasAgent] in Hhas. cbn [storage core session_previousResponseId].
    rewrite Hhas. exact (Hsync Hhas).
  - exact Hsync.
  - apply Htool.
  - apply Htool.
  - apply Htool.
  - exact Hsync.
Qed.

(** X26.  [RESET_CONVERSATION] clears the token of the agent and the
    session slot and keeps the cache; the next [CHAT] starts a new
    conversation, also after a restart of the worker. *)
Theorem reset_message_starts_afresh (pm : option string) (pt : string) (w : Worker) :
  truthy (orString (openai_api_key (storage w)) EMBEDDED_KEY) = true ->
  handleMessage EMBEDDED_KEY env RESET_CONVERSATION w
  = (Ok Success,
     mkWorker true (resetConversation (agentOf w))
       (mkStorage (openai_api_key (storage w)) (patient_profile (storage w)) None))
  /\ (forall w',
         w' = snd (handleMessage EMBEDDED_KEY env RESET_CONVERSATION w)
         \/ w' = restart (snd (handleMessage EMBEDDED_KEY env RESET_CONVERSATION w)) ->
         exists instr r entries,
           callsSince (modelLog (core w'))
             (core (snd (handleMessage EMBEDDED_KEY env (CHAT pm pt) w')))
           = ({| instructions := instr;
                 input := InputUserTurn (orString pm pt);
                 previous_response_id := None |}, r) :: entries).
Proof.
  intros Hkey.
  assert (Hready : ready EMBEDDED_KEY w = true).
  { unfold ready. rewrite Hkey. apply orb_true_r. }
  assert (Hreset : handleMessage EMBEDDED_KEY env RESET_CONVERSATION w
                   = (Ok Success,
                      mkWorker true (resetConversation (agentOf w))
                        (mkStorage (openai_api_key (storage w))
                           (patient_profile (storage w)) None))).
  { unfold handleMessage, bind.
    rewrite (withAgent_ready EMBEDDED_KEY _ w Hready). reflexivity. }
  split; [exact Hreset|]. rewrite Hreset. cbn [snd].
  intros w' Hw'.
  assert (Hready' : ready EMBEDDED_KEY w' = true).
  { destruct Hw' as [-> | ->]; [reflexivity|].
    unfold ready, restart. cbn [hasAgent storage openai_api_key orb]. exact Hkey. }
  destruct (handle_chat_turn pm pt w' Hready') as [r [entries [Hturn _]]].
  exists (getSystemPrompt env (patientProfile (agentOf w'))), r, entries.
  rewrite Hturn. f_equal. f_equal. unfold firstRequest.
  assert (Hprev : previousResponseId (agentOf w') = None).
  { destruct Hw' as [-> | ->]; [reflexivity|].
    destruct (agentOf_started
                (restart (mkWorker true (resetConversation (agentOf w))
                            (mkStorage (openai_api_key (storage w))
                               (patient_profile (storage w)) None))) eq_refl)
      as (_ & _ & -> & _). reflexivity. }
  rewrite Hprev. reflexivity.
Qed.

(** X27.  A profile sent with [UPDATE_PROFILE] is the one [GET_PROFILE]
    returns and the one of the system prompt of every request of the next
    [CHAT], whether or not an agent existed when it was sent. *)
Theorem update_profile_reaches_next_turn (profile : PatientProfile)
  (pm : option string) (pt : string) (w : Worker) :
  ready EMBEDDED_KEY w = true ->
  fst (handleMessage EMBEDDED_KEY env GET_PROFILE
         (snd (handleMessage EMBEDDED_KEY env (UPDATE_PROFILE profile) w)))
  = Ok (ProfileReply (Some profile))
  /\ callsSince (modelLog (core w))
       (core (snd (handleMessage EMBEDDED_KEY env (CHAT pm pt)
                     (snd (handleMessage EMBEDDED_KEY env
                             (UPDATE_PROFILE profile) w)))))
     <> []
  /\ Forall (fun e => instructions (fst e) = getSystemPrompt env (Some profile))
       (callsSince (modelLog (core w))
          (core (snd (handleMessage EMBEDDED_KEY env (CHAT pm pt)
                        (snd (handleMessage EMBEDDED_KEY env
                                (UPDATE_PROFILE profile) w)))))).
Proof.
  intros Hready. split; [reflexivity|].
  set (w1 := mkWorker (hasAgent w)
               (if hasAgent w then setPatientProfile profile (core w) else core w)
               (mkStorage (openai_api_key (storage w)) (Some profile)
                  (session_previousResponseId (storage w)))).
  change (snd (handleMessage EMBEDDED_KEY env (UPDATE_PROFILE profile) w)) with w1.
  assert (Hready1 : ready EMBEDDED_KEY w1 = true) by exact Hready.
  assert (Hprof : patientProfile (agentOf w1) = Some profile).
  { destruct (hasAgent w) eqn:Hhas.
    - unfold agentOf, w1. cbn [hasAgent core]. rewrite ?Hhas. reflexivity.
    - destruct (agentOf_started w1 eq_refl) as (_ & -> & _). reflexivity. }
  assert (Hlog : modelLog (core w1) = modelLog (core w)).
  { unfold w1. cbn [core]. destruct (hasAgent w); reflexivity. }
  destruct (handle_chat_turn pm pt w1 Hready1) as [r [entries [Hturn Hinstr]]].
  rewrite Hlog in Hturn. rewrite Hprof in Hinstr. rewrite Hturn.
  split; [discriminate|]. constructor; [|exact Hinstr].
  unfold firstRequest. cbn [fst instructions]. rewrite Hprof. reflexivity.
Qed.

End WorkerProperties.

(** X20 on a started worker: the turn ends on [resp_1], which is written
    to the session slot. *)
Lemma chat_message_saves_token_witness :
  exists w',
    snd (Background.handleMessage ""
           (Demo.demoEnv [Demo.trialA; Demo.trialB]
              (Demo.searchingModel "search Breast 37203"))
           (Background.CHAT None "breast cancer trials near 37203")
           (startedWorker (Some "sk-demo-0001")))
    = w'
    /\ Background.session_previousResponseId (Background.storage w')
       = Some "resp_1"%string.
Proof.
  destruct (Background.handleMessage ""
              (Demo.demoEnv [Demo.trialA; Demo.trialB]
                 (Demo.searchingModel "search Breast 37203"))
              (Background.CHAT None "breast cancer trials near 37203")
              (startedWorker (Some "sk-demo-0001")))
    as [[reply | e] w'] eqn:Hrun; [|vm_compute in Hrun; discriminate Hrun].
  destruct (@chat_message_saves_token _ _ _ _ _ _ _ Hrun)
    as [res (_ & _ & _ & Hslot & _)].
  exists w'. split; [reflexivity|]. rewrite Hslot.
  vm_compute in Hrun. injection Hrun as _ <-. reflexivity.
Defined.

(** X21 on the same worker: after the restart the second message
    continues from [resp_1]. *)
Lemma restart_resumes_conversation_witness :
  exists w1 r entries,
    snd (Background.handleMessage ""
           (Demo.demoEnv [Demo.trialA; Demo.trialB]
              (Demo.searchingModel "search Breast 37203"))
           (Background.CHAT None "breast cancer trials near 37203")
           (startedWorker (Some "sk-demo-0001")))
    = w1
    /\ callsSince (modelLog (Background.core w1))
         (Background.core
            (snd (Background.handleMessage ""
                    (Demo.demoEnv [Demo.trialA; Demo.trialB]
                       (Demo.searchingModel "search Breast 37203"))
                    (Background.CHAT None "and in Franklin?")
                    (Background.restart w1))))
       = ({| instructions := "You are a clinical trial navigator.";
             input := InputText "and in Franklin?";
             previous_response_id := Some "resp_1"%string |}, r) :: entries.
Proof.
  destruct (Background.handleMessage ""
              (Demo.demoEnv [Demo.trialA; Demo.trialB]
                 (Demo.searchingModel "search Breast 37203"))
              (Background.CHAT None "breast cancer trials near 37203")
              (startedWorker (Some "sk-demo-0001")))
    as [[reply | e] w1] eqn:Hrun; [|vm_compute in Hrun; discriminate Hrun].
  pose proof Hrun as Hrun'. vm_compute in Hrun'. injection Hrun' as _ Hw1.
  assert (Htok : previousResponseId (Background.core w1) = Some "resp_1"%string)
    by (rewrite <- Hw1; reflexivity).
  assert (Hprof : Background.patient_profile (Background.storage w1) = None)
    by (rewrite <- Hw1; reflexivity).
  destruct (@restart_resumes_conversation "" _ None None _ "and in Franklin?"
              _ _ _ "resp_1" Hrun eq_refl Htok eq_refl) as [r [entries Hturn]].
  exists w1, r, entries. split; [reflexivity|].
  rewrite Hturn, Hprof. reflexivity.
Defined.

(** X22 on a worker without any key. *)
Lemma no_key_no_agent_witness :
  Background.handleMessage "" (Demo.demoEnv [] Demo.silentModel)
    Background.GET_FILTERS (startedWorker None)
  = (Throw Background.noKeyError, startedWorker None).
Proof.
  apply (proj1 (@no_key_no_agent "" (Demo.demoEnv [] Demo.silentModel)
                  (startedWorker None) eq_refl)).
  left. simpl. auto.
Defined.

(** X24 with a new key. *)
Lemma replacing_key_keeps_conversation_witness :
  fst (Background.handleMessage "" (Demo.demoEnv [] Demo.silentModel)
         (Background.SET_API_KEY "sk-demo-0002") (startedWorker (Some "sk-demo-0001")))
  = Ok Background.Success.
Proof.
  apply (proj1 (@replacing_key_keeps_conversation ""
                  (Demo.demoEnv [] Demo.silentModel) "sk-demo-0002"
                  (startedWorker (Some "sk-demo-0001")) eq_refl)).
Defined.

(** X25 on the first message of a started worker. *)
Lemma session_token_in_sync_witness :
  sessionInSync
    (snd (Background.handleMessage ""
            (Demo.demoEnv [Demo.trialA; Demo.trialB]
               (Demo.searchingModel "search Breast 37203"))
            (Background.CHAT None "breast cancer trials near 37203")
            (startedWorker (Some "sk-demo-0001")))).
Proof.
  apply (@session_token_in_sync ""
           (Demo.demoEnv [Demo.trialA; Demo.trialB]
              (Demo.searchingModel "search Breast 37203"))
           (Background.CHAT None "breast cancer trials near 37203")
           (startedWorker (Some "sk-demo-0001"))).
  intros Hhas. discriminate Hhas.
Defined.

(** X26 on a started worker. *)
Lemma reset_message_starts_afresh_witness :
  fst (Background.handleMessage "" (Demo.demoEnv [] Demo.silentModel)
         Background.RESET_CONVERSATION (startedWorker (Some "sk-demo-0001")))
  = Ok Background.Success.
Proof.
  rewrite (proj1 (@reset_message_starts_afresh ""
                    (Demo.demoEnv [] Demo.silentModel) None "hello"
                    (startedWorker (Some "sk-demo-0001")) eq_refl)).
  reflexivity.
Defined.

(** X27 with the Nashville profile. *)
Lemma update_profile_reaches_next_turn_witness :
  fst (Background.handleMessage "" (Demo.demoEnv [] Demo.silentModel)
         Background.GET_PROFILE
         (snd (Background.handleMessage "" (Demo.demoEnv [] Demo.silentModel)
                 (Background.UPDATE_PROFILE Demo.nashvilleProfile)
                 (startedWorker (Some "sk-demo-0001")))))
  = Ok (Background.ProfileReply (Some Demo.nashvilleProfile)).
Proof.
  apply (proj1 (@update_profile_reaches_next_turn ""
                  (Demo.demoEnv [] Demo.silentModel) Demo.nashvilleProfile
                  None "hello" (startedWorker (Some "sk-demo-0001")) eq_refl)).
Defined.

(* ===================================================================== *)
(** * Display of registry records                                         *)
(* ===================================================================== *)

Section RenderFacts.
Import Render.

Lemma trimEnd_idem (s : string) : trimEnd (trimEnd s) = trimEnd s.
Proof.
  induction s as [|c s IH]; simpl; [reflexivity|].
  destruct (is_space c && (trimEnd s =? "")) eqn:E; [reflexivity|].
  simpl. rewrite IH, E. reflexivity.
Qed.

Lemma trimStart_fixed (s : string) : trimStart (trimEnd (trimStart s)) = trimEnd (trimStart s).
Proof.
  induction s as [|c s IH]; simpl; [reflexivity|].
  destruct (is_space c) eqn:E; [exact IH|].
  simpl. rewrite E. simpl. rewrite E. reflexivity.
Qed.

Lemma trim_idem (s : string) : trim (trim s) = trim s.
Proof. unfold trim. rewrite trimStart_fixed. apply trimEnd_idem. Qed.

Lemma allChars_trimStart (p : ascii -> bool) (s : string) :
  allChars p s = true -> allChars p (trimStart s) = true.
Proof.
  induction s as [|c s IH]; simpl; [reflexivity|].
  intros H. apply andb_true_iff in H. destruct H as [Hc Hs].
  destruct (is_space c); [exact (IH Hs)|]. simpl. rewrite Hc. exact Hs.
Qed.

Lemma allChars_trimEnd (p : ascii -> bool) (s : string) :
  allChars p s = true -> allChars p (trimEnd s) = true.
Proof.
  induction s as [|c s IH]; simpl; [reflexivity|].
  intros H. apply andb_true_iff in H. destruct H as [Hc Hs].
  destruct (is_space c && (trimEnd s =? "")); [reflexivity|].
  simpl. rewrite Hc. exact (IH Hs).
Qed.

Lemma allChars_trim (p : ascii -> bool) (s : string) :
  allChars p s = true -> allChars p (trim s) = true.
Proof. intros H. apply allChars_trimEnd, allChars_trimStart, H. Qed.

Lemma allChars_substring (p : ascii -> bool) (s : string) :
  forall n m, allChars p s = true -> allChars p (substring n m s) = true.
Proof.
  induction s as [|c s IH]; intros [|n] [|m] H; simpl; try reflexivity.
  - simpl in H. apply andb_true_iff in H. destruct H as [Hc Hs].
    rewrite Hc. exact (IH 0 m Hs).
  - simpl in H. apply andb_true_iff in H. destruct H as [_ Hs]. exact (IH n 0 Hs).
  - simpl in H. apply andb_true_iff in H. destruct H as [_ Hs].
    exact (IH n (S m) Hs).
Qed.

Lemma allChars_stripBullet (p : ascii -> bool) (line : string) :
  allChars p line = true -> allChars p (stripBullet line) = true.
Proof.
  intros H. unfold stripBullet, substringFrom.
  destruct (startsWith line "-");
    [apply allChars_trimStart, allChars_substring, H|].
  destruct (startsWith line "*");
    [apply allChars_trimStart, allChars_substring, H|].
  destruct (startsWith line bullet);
    [apply allChars_trimStart, allChars_substring, H | exact H].
Qed.

Lemma splitLines_pieces (s : string) :
  forall inRun piece,
    In piece (splitLines inRun s) ->
    allChars (fun c => negb (isNewline c)) piece = true.
Proof.
  induction s as [|c s IH]; intros inRun piece; simpl.
  - intros [<- | []]. reflexivity.
  - destruct (isNewline c) eqn:Hc.
    + destruct inRun; [apply IH|]. intros [<- | H]; [reflexivity | exact (IH _ _ H)].
    + destruct (splitLines false s) as [|piece0 pieces] eqn:Hs.
      * intros [<- | []]. simpl. rewrite Hc. reflexivity.
      * intros [<- | H].
        -- simpl. rewrite Hc. simpl. apply (IH false). rewrite Hs. left. reflexivity.
        -- apply (IH false). rewrite Hs. right. exact H.
Qed.

Lemma parseBullets_items (text item : string) :
  In item (parseBullets text) ->
  10 < String.length item
  /\ trim item = item
  /\ allChars (fun c => negb (isNewline c)) item = true.
Proof.
  unfold parseBullets. intros H.
  apply filter_In in H. destruct H as [H Hlen].
  apply in_map_iff in H. destruct H as [line [<- H]].
  do 3 (apply filter_In in H; destruct H as [H _]).
  apply in_map_iff in H. destruct H as [piece [<- H]].
  split; [apply Nat.ltb_lt; exact Hlen|]. split; [apply trim_idem|].
  apply allChars_trim, allChars_stripBullet, allChars_trim.
  exact (splitLines_pieces _ _ _ H).
Qed.












End RenderFacts.

(** X28.  Every criterion that [parseEligibilityCriteria] returns is longer
    than 10 characters, has no white space at either end and holds no line
    break.  A text without the words [exclusion criteria] yields no
    exclusion criterion, and the empty text yields nothing. *)
Theorem parsed_criteria_are_clean (criteria : string) :
  (forall item,
      In item (Render.inclusion (Render.parseEligibilityCriteria criteria))
      \/ In item (Render.exclusion (Render.parseEligibilityCriteria criteria)) ->
      10 < String.length item
      /\ trim item = item
      /\ allChars (fun c => negb (Render.isNewline c)) item = true)
  /\ (Render.indexOf (Render.toLowerCase criteria) "exclusion criteria" = None ->
      Render.exclusion (Render.parseEligibilityCriteria criteria) = [])
  /\ Render.parseEligibilityCriteria "" = Render.mkCriteria [] [].
Proof.
  split; [|split; [|reflexivity]].
  - intros item. unfold Render.parseEligibilityCriteria.
    destruct (truthy criteria); cbn [Render.inclusion Render.exclusion];
      [|intros [[] | []]].
    intros [H | H]; exact (parseBullets_items _ _ H).
  - intros Hnone. unfold Render.parseEligibilityCriteria, Render.sections.
    rewrite Hnone. destruct (truthy criteria); [|reflexivity].
    destruct (Render.indexOf (Render.toLowerCase criteria) "inclusion criteria");
      reflexivity.
Qed.


(* ===================================================================== *)
(** * All pages of a search                                               *)
(* ===================================================================== *)

Section PagingFacts.
Variable pages : nat -> string -> nat -> Result SearchPage.
Variable cancerType : string.

Lemma pageAt_shift (calls page i : nat) :
  pageAt pages cancerType calls page (S i)
  = pageAt pages cancerType (S calls) (S page) i.
Proof.
  unfold pageAt. rewrite <- !plus_n_Sm. reflexivity.
Qed.

Lemma flat_map_pageAt_shift (calls page count : nat) :
  flat_map (pageAt pages cancerType calls page) (seq 1 count)
  = flat_map (pageAt pages cancerType (S calls) (S page)) (seq 0 count).
Proof.
  rewrite <- seq_shift, flat_map_concat_map, map_map, <- flat_map_concat_map.
  apply flat_map_ext. intros i. apply pageAt_shift.
Qed.

Lemma remainingPages_ok (count : nat) :
  forall page calls allTrials,
    (forall i, i < count ->
               exists p, pages (calls + i) cancerType (page + i) = Ok p) ->
    remainingPages pages cancerType page count allTrials calls
    = (Ok (allTrials
           ++ flat_map (pageAt pages cancerType calls page) (seq 0 count)),
       calls + count).
Proof.
  induction count as [|count IH]; intros page calls allTrials Hok.
  - simpl. rewrite app_nil_r, Nat.add_0_r. reflexivity.
  - cbn [remainingPages]. unfold bind, fetchPage.
    destruct (Hok 0 ltac:(lia)) as [p Hp]. rewrite !Nat.add_0_r in Hp. rewrite Hp.
    rewrite IH.
    + cbn [seq flat_map]. rewrite flat_map_pageAt_shift.
      unfold pageAt at 2. rewrite !Nat.add_0_r, Hp, <- app_assoc.
      f_equal. lia.
    + intros i Hi. destruct (Hok (S i) ltac:(lia)) as [q Hq].
      exists q. rewrite <- !plus_n_Sm in Hq. exact Hq.
Qed.

Lemma remainingPages_fails (count : nat) :
  forall page calls allTrials k e,
    k < count ->
    (forall i, i < k -> exists p, pages (calls + i) cancerType (page + i) = Ok p) ->
    pages (calls + k) cancerType (page + k) = Throw e ->
    remainingPages pages cancerType page count allTrials calls
    = (Throw e, calls + k + 1).
Proof.
  induction count as [|count IH]; intros page calls allTrials k e Hk Hok Hfail;
    [lia|].
  cbn [remainingPages]. unfold bind, fetchPage. destruct k as [|k].
  - rewrite !Nat.add_0_r in Hfail. rewrite Hfail. f_equal. lia.
  - destruct (Hok 0 ltac:(lia)) as [p Hp]. rewrite !Nat.add_0_r in Hp. rewrite Hp.
    rewrite (IH (S page) (S calls) _ k e); [f_equal; lia | lia | |].
    + intros i Hi. destruct (Hok (S i) ltac:(lia)) as [q Hq].
      exists q. rewrite <- !plus_n_Sm in Hq. exact Hq.
    + rewrite <- !plus_n_Sm in Hfail. exact Hfail.
Qed.

End PagingFacts.

(** X30.  [searchAllTrials] asks for page 1 and then for the pages 2 to
    [totalPageCount] of the first answer, one after the other; when all
    answer, it returns the records of all pages in the order of the pages,
    after as many requests as there are pages (one when the count is 0).
    The first page that fails ends the walk with its error: no later page
    is asked for and no record is returned. *)
Theorem searchAllTrials_walks_pages
  (pages : nat -> string -> nat -> Result SearchPage) (cancerType : string)
  (calls : nat) (first : SearchPage) :
  pages calls cancerType 1 = Ok first ->
  ((forall i, i < totalPageCount first - 1 ->
              exists p, pages (S calls + i) cancerType (2 + i) = Ok p) ->
   searchAllTrials pages cancerType calls
   = (Ok (pageResults first
          ++ flat_map (pageAt pages cancerType (S calls) 2)
               (seq 0 (totalPageCount first - 1))),
      calls + Nat.max 1 (totalPageCount first)))
  /\ (forall k e,
         k < totalPageCount first - 1 ->
         (forall i, i < k ->
                    exists p, pages (S calls + i) cancerType (2 + i) = Ok p) ->
         pages (S calls + k) cancerType (2 + k) = Throw e ->
         searchAllTrials pages cancerType calls = (Throw e, calls + k + 2)).
Proof.
  intros Hfirst. unfold searchAllTrials, bind, fetchPage. rewrite Hfirst. split.
  - intros Hok.
    rewrite (@remainingPages_ok pages cancerType _ 2 (S calls) _ Hok).
    f_equal. lia.
  - intros k e Hk Hok Hfail.
    rewrite (@remainingPages_fails pages cancerType _ 2 (S calls) _ k e Hk Hok Hfail).
    f_equal. lia.
Qed.

(** X30 on a catalogue of three pages. *)
Lemma searchAllTrials_walks_pages_witness :
  searchAllTrials
    (fun _ _ page =>
       Ok (mkPage 3 match page with
                    | 1 => [Demo.trialA]
                    | 2 => [Demo.trialB]
                    | _ => [Demo.trialC]
                    end))
    "Breast" 0
  = (Ok [Demo.trialA; Demo.trialB; Demo.trialC], 3).
Proof.
  destruct (@searchAllTrials_walks_pages
              (fun _ _ page =>
                 Ok (mkPage 3 match page with
                              | 1 => [Demo.trialA]
                              | 2 => [Demo.trialB]
                              | _ => [Demo.trialC]
                              end))
              "Breast" 0 (mkPage 3 [Demo.trialA]) eq_refl) as [Hall _].
  rewrite Hall; [reflexivity|]. intros i Hi. eexists. reflexivity.
Defined.
